(** * Modbus register conversion: a shallow embedding of the converter engine

    The development follows the TypeScript sources:
    - [DataConversionUtils]  (nodes/Modbus/GenericFunctions.ts): the per-rule
      decoder [convertData] and the batch entry point [convertMultiple];
    - [ValidationUtils]      (nodes/ModbusDataConverter/ValidationUtils.ts): the
      rule-set validator with its register-overlap detector;
    - [IndustrialUnits]      (IndustrialUnits.ts): the unit catalogue;
    - [ConverterNode]        (nodes/ModbusDataConverter/ModbusDataConverter.node.ts):
      the error-handling policies applied to a batch of results;
    - [QuickConvert]         (nodes/ModbusDataConverter/QuickConvert.ts): the
      custom quick conversion;
    - [QuickMode]            (the converter node, version 4): the BCD, bit-flag
      and double helpers of quick mode;
    - [ModbusRead], [ModbusTrigger] (the MODBUS node and
      nodes/Modbus/ModbusTrigger.node.ts): the registers as they are read and
      written, and the trigger's change detection.

    Representation.  A JavaScript [number] that the code only ever uses as an
    integer (a register word, an index, a bit position, a digit count) is a [Z];
    the 32-bit coercions of the bitwise operators are written out in [Js].  A
    [number] that carries a measurement (a decoded value, a scale factor, a
    validation bound) is a binary64 [float], on which Rocq's primitive
    operations are the IEEE-754 ones JavaScript uses.  [Js.of_int] is the
    (exact, for safe integers) passage from the first to the second.

    The built-ins whose output is text defined by the engine ([toFixed],
    [Number(...)], number rendering, [trim], [toLowerCase]) are the fields of
    the class [Js.Host]; every theorem about the pipeline holds for any host,
    and [ReferenceHost] is an executable one for the concrete examples. *)

From Stdlib Require Import ZArith Lia List String Ascii Bool Floats DecimalString.
Import ListNotations.

Set Warnings "-inexact-float".
Local Open Scope string_scope.
Local Open Scope Z_scope.

(** ** ECMAScript primitives used by the sources *)

Module Js.

(** *** Integer coercions and bitwise operators (ECMA-262, 7.1.6 and 13.12) *)

Definition ToInt32 (z : Z) : Z :=
  let m := z mod 4294967296 in
  if m >=? 2147483648 then m - 4294967296 else m.

Definition ToUint32 (z : Z) : Z := z mod 4294967296.

Definition ToUint16 (z : Z) : Z := z mod 65536.

(** The shift count of [<<], [>>] and [>>>] is taken modulo 32. *)
Definition shiftCount (n : Z) : Z := ToUint32 n mod 32.

Definition shl (a n : Z) : Z := ToInt32 (Z.shiftl (ToInt32 a) (shiftCount n)).

Definition sar (a n : Z) : Z := Z.shiftr (ToInt32 a) (shiftCount n).

Definition shru (a n : Z) : Z := Z.shiftr (ToUint32 a) (shiftCount n).

Definition band (a b : Z) : Z := Z.land (ToInt32 a) (ToInt32 b).

Definition bor (a b : Z) : Z := Z.lor (ToInt32 a) (ToInt32 b).

(** *** Arrays of integer-valued numbers *)

(** [a[i]]: [None] stands for [undefined]. *)
Definition index {A : Type} (a : list A) (i : Z) : option A :=
  if i <? 0 then None else nth_error a (Z.to_nat i).

(** [a.length] *)
Definition length {A : Type} (a : list A) : Z := Z.of_nat (List.length a).

(** [a.slice(start, end)], with the relative indices of 23.1.3.28: a negative
    index counts from the end, and both ends are clamped to the array. *)
Definition relativeIndex (len i : Z) : Z :=
  if i <? 0 then Z.max (len + i) 0 else Z.min i len.

Definition slice {A : Type} (a : list A) (start end_ : Z) : list A :=
  let k := relativeIndex (length a) start in
  let final := relativeIndex (length a) end_ in
  firstn (Z.to_nat (final - k)) (skipn (Z.to_nat k) a).

(** An operand that may be [undefined], under a bitwise operator or a typed
    array store: [ToNumber(undefined)] is NaN, which [ToInt32], [ToUint32] and
    [ToUint16] all send to 0. *)
Definition bits (x : option Z) : Z :=
  match x with Some z => z | None => 0 end.

(** *** Numbers as binary64 values *)

(** The number whose value is the integer [z] (exact when [z] is a safe
    integer, rounded to nearest otherwise). *)
Definition of_int (z : Z) : float :=
  SF2Prim (binary_normalize prec emax z 0 false).

(** Template-literal rendering of a small count (a footprint, a rule
    number): [Number::toString] prints a safe integer as its plain decimal
    digits.  Numbers that can be large go through [Number_toString] below. *)
Definition ToString_int (z : Z) : string :=
  NilZero.string_of_int (Z.to_int z).

(** The value of an IEEE-754 binary32 bit pattern, as a binary64 number. *)
Definition float32_of_bits (b : Z) : float :=
  let sign := Z.testbit b 31 in
  let e := Z.land (Z.shiftr b 23) 255 in
  let m := Z.land b 8388607 in
  if e =? 255 then
    if m =? 0 then (if sign then neg_infinity else infinity) else nan
  else if e =? 0 then
    SF2Prim (binary_normalize prec emax (cond_Zopp sign m) (-149) sign)
  else
    SF2Prim (binary_normalize prec emax (cond_Zopp sign (m + 8388608)) (e - 150) sign).

(** *** DataView over a byte buffer (big-endian accesses only) *)

Definition buffer := list Z.

(** [new ArrayBuffer(n)]: [n] zero bytes. *)
Definition ArrayBuffer (n : nat) : buffer := repeat 0 n.

Fixpoint store (b : buffer) (i : nat) (byte : Z) : buffer :=
  match b, i with
  | [], _ => []
  | _ :: rest, O => byte :: rest
  | x :: rest, S i' => x :: store rest i' byte
  end.

(** [view.setUint16(byteOffset, value, false)] *)
Definition setUint16 (view : buffer) (byteOffset : nat) (v : option Z) : buffer :=
  let w := ToUint16 (bits v) in
  store (store view byteOffset (w / 256)) (S byteOffset) (w mod 256).

(** [view.getFloat32(byteOffset, false)] *)
Definition getFloat32 (view : buffer) (byteOffset : nat) : float :=
  let byte i := nth (byteOffset + i) view 0 in
  float32_of_bits (((byte 0%nat * 256 + byte 1%nat) * 256 + byte 2%nat) * 256 + byte 3%nat).

(** *** Values of type [any] that the converter produces *)

Inductive value : Type :=
| undefined
| null
| boolean (b : bool)
| number (x : float)
| array (xs : list float).

(** *** Abrupt completion: a [throw] and what is thrown *)

Inductive thrown : Type :=
| ErrorObject (message : string)   (* an instance of Error, with its message *)
| NotAnError.                      (* any other thrown value *)

Inductive completion (A : Type) : Type :=
| Normal (a : A)
| Throw (e : thrown).
Arguments Normal {A} a.
Arguments Throw {A} e.

Definition bind {A B : Type} (c : completion A) (k : A -> completion B) : completion B :=
  match c with
  | Normal a => k a
  | Throw e => Throw e
  end.

(** *** Built-ins of the host environment that the repository calls but does
    not define.  Their results are engine- and Unicode-table-defined text, so
    the development is parametric in them. *)

Class Host : Type := {
  (** [String(x)] / template-literal rendering of a number *)
  Number_toString : float -> string;
  (** [x.toFixed(digits)] for [0 <= digits <= 100] *)
  Number_toFixed : float -> Z -> string;
  (** the message of the RangeError that [toFixed] throws outside that range *)
  toFixed_RangeError_message : string;
  (** [Number(s)] *)
  String_toNumber : string -> float;
  (** [s.trim()] *)
  String_trim : string -> string;
  (** [s.toLowerCase()] *)
  String_toLowerCase : string -> string
}.

(** [x.toFixed(digits)], with its range check (21.1.3.3, step 5). *)
Definition toFixed `{Host} (x : float) (digits : Z) : completion string :=
  if (digits <? 0) || (100 <? digits)
  then Throw (ErrorObject toFixed_RangeError_message)
  else Normal (Number_toFixed x digits).

End Js.

Declare Scope js_scope.
Delimit Scope js_scope with js.
Infix "<<" := Js.shl (at level 40, left associativity) : js_scope.
Infix ">>" := Js.sar (at level 40, left associativity) : js_scope.
Infix ">>>" := Js.shru (at level 40, left associativity) : js_scope.
Infix ".&" := Js.band (at level 50, left associativity) : js_scope.
Infix ".|" := Js.bor (at level 50, left associativity) : js_scope.

Notation "x <- c ;; k" := (Js.bind c (fun x => k))
  (at level 61, c at next level, right associativity).

(** ** The data model (GenericFunctions.ts, interfaces) *)

Module ConversionRule.

Record Validation : Type := {
  enabled : bool;
  min : option float;
  max : option float;
  allowNaN : option bool
}.

Record UnitConversion : Type := {
  from : string;
  to : string
}.

(** [interface ConversionRule]: a field marked [?] in the interface is an
    [option], [None] being [undefined].  [startRegister], [decimalPlaces],
    [bitMask], [bitPosition] and [bitLength] are integer-valued numbers;
    [dataType] and [byteOrder] are kept as the strings the code compares,
    so that the [default] branches of the code are part of the model. *)
Record t : Type := {
  name : string;
  startRegister : Z;
  dataType : string;
  byteOrder : string;
  wordSwap : option bool;
  scaleFactor : option float;
  offset : option float;
  decimalPlaces : option Z;
  bitMask : option Z;
  bitPosition : option Z;
  bitLength : option Z;
  validation : option Validation;
  unitConversion : option UnitConversion
}.

End ConversionRule.

Module ConversionResult.

Record Metadata : Type := {
  scaleFactor : option float;
  offset : option float;
  byteOrder : string;
  unitConversion : option string
}.

(** [interface ConversionResult] *)
Record t : Type := {
  name : string;
  value : Js.value;
  originalValue : Js.value;
  dataType : string;
  valid : bool;
  error : option string;
  metadata : option Metadata
}.

Definition set_value (r : t) (v : Js.value) : t :=
  {| name := name r; value := v; originalValue := originalValue r;
     dataType := dataType r; valid := valid r; error := error r;
     metadata := metadata r |}.

Definition set_originalValue (r : t) (v : Js.value) : t :=
  {| name := name r; value := value r; originalValue := v;
     dataType := dataType r; valid := valid r; error := error r;
     metadata := metadata r |}.

Definition set_valid (r : t) (b : bool) : t :=
  {| name := name r; value := value r; originalValue := originalValue r;
     dataType := dataType r; valid := b; error := error r;
     metadata := metadata r |}.

Definition set_error (r : t) (e : option string) : t :=
  {| name := name r; value := value r; originalValue := originalValue r;
     dataType := dataType r; valid := valid r; error := e;
     metadata := metadata r |}.

End ConversionResult.

(** ** The decoder (GenericFunctions.ts, class DataConversionUtils) *)

Module DataConversionUtils.

Module Rule := ConversionRule.
Module Result := ConversionResult.

Local Open Scope js_scope.

(** Get number of registers required for a data type *)
Definition getRequiredRegisters (dataType : string) : Z :=
  if String.eqb dataType "int16" then 1
  else if String.eqb dataType "uint16" then 1
  else if String.eqb dataType "scaled" then 1
  else if String.eqb dataType "bitfield" then 1
  else if String.eqb dataType "bcd" then 1
  else if String.eqb dataType "int32" then 2
  else if String.eqb dataType "uint32" then 2
  else if String.eqb dataType "float32" then 2
  else 1.

(** Convert single register to signed 16-bit integer *)
Definition convertInt16 (register : Z) (byteOrder : string) : Z :=
  if register >? 32767 then register - 65536 else register.

(** Convert single register to unsigned 16-bit integer *)
Definition convertUint16 (register : Z) (byteOrder : string) : Z :=
  register .& 65535.

(** The parameter default [wordSwap: boolean = false]. *)
Definition wordSwap_default (wordSwap : option bool) : bool :=
  match wordSwap with Some b => b | None => false end.

(** Convert two registers to signed 32-bit integer.  [reg0] and [reg1] are
    only used under [<<] and [|], which read an absent element as 0. *)
Definition convertInt32 (registers : list Z) (byteOrder : string)
    (wordSwap : option bool) : Z :=
  let wordSwap := wordSwap_default wordSwap in
  let reg0 := Js.bits (if wordSwap then Js.index registers 1 else Js.index registers 0) in
  let reg1 := Js.bits (if wordSwap then Js.index registers 0 else Js.index registers 1) in
  let value :=
    if String.eqb byteOrder "big_endian"
    then (reg0 << 16) .| reg1
    else (reg1 << 16) .| reg0 in
  if value >? 2147483647 then value - 4294967296 else value.

(** Convert two registers to unsigned 32-bit integer *)
Definition convertUint32 (registers : list Z) (byteOrder : string)
    (wordSwap : option bool) : Z :=
  let wordSwap := wordSwap_default wordSwap in
  let reg0 := Js.bits (if wordSwap then Js.index registers 1 else Js.index registers 0) in
  let reg1 := Js.bits (if wordSwap then Js.index registers 0 else Js.index registers 1) in
  if String.eqb byteOrder "big_endian"
  then ((reg0 << 16) .| reg1) >>> 0
  else ((reg1 << 16) .| reg0) >>> 0.

(** Convert two registers to IEEE 754 32-bit float *)
Definition convertFloat32 (registers : list Z) (byteOrder : string)
    (wordSwap : option bool) : float :=
  let view := Js.ArrayBuffer 4 in
  let wordSwap := wordSwap_default wordSwap in
  let reg0 := if wordSwap then Js.index registers 1 else Js.index registers 0 in
  let reg1 := if wordSwap then Js.index registers 0 else Js.index registers 1 in
  let view :=
    if String.eqb byteOrder "big_endian"
    then Js.setUint16 (Js.setUint16 view 0 reg0) 2 reg1
    else Js.setUint16 (Js.setUint16 view 0 reg1) 2 reg0 in
  Js.getFloat32 view 0.

(** Convert register with scaling and offset *)
Definition convertScaled (register : Z) (rule : Rule.t) : float :=
  let value := Js.of_int register in
  let value :=
    match Rule.scaleFactor rule with
    | Some k => PrimFloat.mul value k
    | None => value
    end in
  match Rule.offset rule with
  | Some d => PrimFloat.add value d
  | None => value
  end.

(** Extract bits from register *)
Definition convertBitfield (register : Z) (rule : Rule.t) : Js.value :=
  match Rule.bitMask rule with
  | Some bitMask => Js.number (Js.of_int (register .& bitMask))
  | None =>
    match Rule.bitPosition rule with
    | Some bitPosition =>
      (* rule.bitLength || 1 *)
      let bitLength :=
        match Rule.bitLength rule with
        | Some l => if l =? 0 then 1 else l
        | None => 1
        end in
      let mask := (1 << bitLength) - 1 in
      let result := (register >> bitPosition) .& mask in
      if bitLength =? 1
      then Js.boolean (negb (result =? 0))
      else Js.number (Js.of_int result)
    | None => Js.number (Js.of_int register)
    end
  end.

(** Convert BCD to decimal *)
Definition convertBCD (register : Z) (byteOrder : string) : Z :=
  let high := (register >> 8) .& 255 in
  let low := register .& 255 in
  let highDecimal := ((high >> 4) .& 15) * 10 + (high .& 15) in
  let lowDecimal := ((low >> 4) .& 15) * 10 + (low .& 15) in
  highDecimal * 100 + lowDecimal.

(** The table of [applyUnitConversion], in source order. *)
Definition conversionMap : list (string * (float -> float)) :=
  [ ("celsius_to_fahrenheit", fun val => (val * 9 / 5) + 32);
    ("fahrenheit_to_celsius", fun val => (val - 32) * 5 / 9);
    ("celsius_to_kelvin", fun val => val + 273.15);
    ("kelvin_to_celsius", fun val => val - 273.15);
    ("psi_to_bar", fun val => val * 0.0689476);
    ("bar_to_psi", fun val => val * 14.5038);
    ("pascal_to_bar", fun val => val * 0.00001);
    ("bar_to_pascal", fun val => val * 100000);
    ("gpm_to_lpm", fun val => val * 3.78541);
    ("lpm_to_gpm", fun val => val * 0.264172);
    ("cfm_to_cmh", fun val => val * 1.69901);
    ("cmh_to_cfm", fun val => val * 0.588578);
    ("hp_to_kw", fun val => val * 0.745699);
    ("kw_to_hp", fun val => val * 1.34102);
    ("btu_to_kw", fun val => val * 0.000293071);
    ("kw_to_btu", fun val => val * 3412.14) ]%float.

(** [conversionMap[key]].  No property of [Object.prototype] has a name of
    the form [from_to_to], so the lookup only ever finds an own entry. *)
Definition conversionMap_get (key : string) : option (float -> float) :=
  option_map snd (find (fun entry => String.eqb (fst entry) key) conversionMap).

(** Apply unit conversion *)
Definition applyUnitConversion (value : float) (conversion : Rule.UnitConversion) : float :=
  let conversionKey := (Rule.from conversion ++ "_to_" ++ Rule.to conversion)%string in
  match conversionMap_get conversionKey with
  | Some converter => converter value
  | None => value   (* If no conversion found, return original value *)
  end.

Section WithHost.
Context `{Js.Host}.

(** Validate converted value; the result is [{ valid, error? }]. *)
Definition validateValue (value : Js.value) (validation : Rule.Validation)
    : bool * option string :=
  match value with
  | Js.number x =>
    let allowNaN := match Rule.allowNaN validation with Some b => b | None => false end in
    let check_max :=
      match Rule.max validation with
      | Some hi =>
        if PrimFloat.ltb hi x
        then (false, Some ("Value " ++ Js.Number_toString x ++ " is above maximum "
                            ++ Js.Number_toString hi)%string)
        else (true, None)
      | None => (true, None)
      end in
    if PrimFloat.is_nan x && negb allowNaN
    then (false, Some "Value is NaN")
    else
      match Rule.min validation with
      | Some lo =>
        if PrimFloat.ltb x lo
        then (false, Some ("Value " ++ Js.Number_toString x ++ " is below minimum "
                            ++ Js.Number_toString lo)%string)
        else check_max
      | None => check_max
      end
  | _ => (true, None)
  end.

(** The [switch (rule.dataType)] of [convertData]: the decoded value, or
    [None] in the [default] case.  [register] is [dataRegisters[0]], which is
    [undefined] when the slice is empty (a negative [startRegister]); the
    single-register decoders are then applied to [undefined]:
    - [convertInt16]: [undefined > 32767] is false, so [undefined] is returned;
    - [convertUint16], [convertBCD]: the register is only read under [&] and
      [>>], as 0;
    - [convertScaled]: [undefined] times or plus a number is NaN, and
      [undefined] itself is returned when neither factor nor offset is set;
    - [convertBitfield]: read as 0 under the mask or the shift, returned as
      [undefined] when neither is set. *)
Definition decode (dataRegisters : list Z) (rule : Rule.t) : option Js.value :=
  let register := Js.index dataRegisters 0 in
  let dataType := Rule.dataType rule in
  let byteOrder := Rule.byteOrder rule in
  if String.eqb dataType "int16" then
    Some match register with
         | Some r => Js.number (Js.of_int (convertInt16 r byteOrder))
         | None => Js.undefined
         end
  else if String.eqb dataType "uint16" then
    Some (Js.number (Js.of_int (convertUint16 (Js.bits register) byteOrder)))
  else if String.eqb dataType "int32" then
    Some (Js.number (Js.of_int (convertInt32 dataRegisters byteOrder (Rule.wordSwap rule))))
  else if String.eqb dataType "uint32" then
    Some (Js.number (Js.of_int (convertUint32 dataRegisters byteOrder (Rule.wordSwap rule))))
  else if String.eqb dataType "float32" then
    Some (Js.number (convertFloat32 dataRegisters byteOrder (Rule.wordSwap rule)))
  else if String.eqb dataType "scaled" then
    Some match register, Rule.scaleFactor rule, Rule.offset rule with
         | Some r, _, _ => Js.number (convertScaled r rule)
         | None, None, None => Js.undefined
         | None, _, _ => Js.number nan
         end
  else if String.eqb dataType "bitfield" then
    Some match register, Rule.bitMask rule, Rule.bitPosition rule with
         | Some r, _, _ => convertBitfield r rule
         | None, None, None => Js.undefined
         | None, _, _ => convertBitfield 0 rule
         end
  else if String.eqb dataType "bcd" then
    Some (Js.number (Js.of_int (convertBCD (Js.bits register) byteOrder)))
  else None.

(** The label stored in [metadata.unitConversion]. *)
Definition unitConversion_label (rule : Rule.t) : option string :=
  match Rule.unitConversion rule with
  | Some u => Some (Rule.from u ++ " to " ++ Rule.to u)%string
  | None => None
  end.

(** The object literal [convertData] starts from: nothing decoded yet. *)
Definition initial_result (rule : Rule.t) : Result.t :=
  {| Result.name := Rule.name rule;
     Result.value := Js.null;
     Result.originalValue := Js.null;
     Result.dataType := Rule.dataType rule;
     Result.valid := false;
     Result.error := None;
     Result.metadata :=
       Some {| Result.byteOrder := Rule.byteOrder rule;
               Result.scaleFactor := Rule.scaleFactor rule;
               Result.offset := Rule.offset rule;
               Result.unitConversion := unitConversion_label rule |} |}.

(** The body of the [try] block of [convertData]. *)
Definition convertData_try (registers : list Z) (rule : Rule.t)
    : Js.completion Result.t :=
  let result := initial_result rule in
  (* Validate register availability *)
  let requiredRegisters := getRequiredRegisters (Rule.dataType rule) in
  if Js.length registers <? Rule.startRegister rule + requiredRegisters then
    Js.Normal (Result.set_error result
      (Some ("Not enough registers available. Required: "
             ++ Js.ToString_int requiredRegisters ++ ", Available: "
             ++ Js.Number_toString
                  (Js.of_int (Js.length registers - Rule.startRegister rule)))%string))
  else
  (* Extract registers for conversion *)
  let dataRegisters :=
    Js.slice registers (Rule.startRegister rule)
             (Rule.startRegister rule + requiredRegisters) in
  let result :=
    Result.set_originalValue result
      (if Js.length dataRegisters =? 1
       then match Js.index dataRegisters 0 with
            | Some r => Js.number (Js.of_int r)
            | None => Js.undefined
            end
       else Js.array (map Js.of_int dataRegisters)) in
  (* Perform conversion based on data type *)
  match decode dataRegisters rule with
  | None =>
    Js.Normal (Result.set_error result
      (Some ("Unsupported data type: " ++ Rule.dataType rule)%string))
  | Some v =>
    let result := Result.set_value result v in
    (* Apply unit conversion if specified *)
    let result :=
      match Rule.unitConversion rule, Result.value result with
      | Some conversion, Js.number x =>
        Result.set_value result (Js.number (applyUnitConversion x conversion))
      | _, _ => result
      end in
    (* Apply decimal places rounding *)
    result <-
      match Rule.decimalPlaces rule, Result.value result with
      | Some decimalPlaces, Js.number x =>
        s <- Js.toFixed x decimalPlaces ;;
        Js.Normal (Result.set_value result (Js.number (Js.String_toNumber s)))
      | _, _ => Js.Normal result
      end ;;
    (* Validate result *)
    match Rule.validation rule with
    | Some validation =>
      if Rule.enabled validation then
        let '(ok, err) := validateValue (Result.value result) validation in
        let result := Result.set_valid result ok in
        Js.Normal (if ok then result else Result.set_error result err)
      else Js.Normal (Result.set_valid result true)
    | None => Js.Normal (Result.set_valid result true)
    end
  end.

(** The [catch] handler of [convertData]. *)
Definition convertData_catch (rule : Rule.t) (error : Js.thrown) : Result.t :=
  {| Result.name := Rule.name rule;
     Result.value := Js.null;
     Result.originalValue := Js.null;
     Result.dataType := Rule.dataType rule;
     Result.valid := false;
     Result.error :=
       Some match error with
            | Js.ErrorObject message => message
            | Js.NotAnError => "Unknown conversion error"
            end;
     Result.metadata :=
       Some {| Result.byteOrder := Rule.byteOrder rule;
               Result.scaleFactor := None;
               Result.offset := None;
               Result.unitConversion := None |} |}.

(** Convert raw Modbus register data based on conversion rules *)
Definition convertData (registers : list Z) (rule : Rule.t) : Result.t :=
  match convertData_try registers rule with
  | Js.Normal result => result
  | Js.Throw error => convertData_catch rule error
  end.

(** Batch process multiple conversion rules *)
Definition convertMultiple (registers : list Z) (rules : list Rule.t) : list Result.t :=
  map (fun rule => convertData registers rule) rules.

End WithHost.

End DataConversionUtils.

(** ** The rule validator (ValidationUtils.ts, class ValidationUtils) *)

Module ValidationUtils.

Module Rule := ConversionRule.

(** [interface ValidationResult] *)
Record ValidationResult : Type := {
  valid : bool;
  errors : list string;
  warnings : list string
}.

(** The element type of [registerRanges]. *)
Record RegisterRange : Type := {
  name : string;
  start : Z;
  end_ : Z
}.

(** Get number of registers needed for a data type *)
Definition getRegistersNeeded (dataType : string) : Z :=
  if String.eqb dataType "int16" then 1
  else if String.eqb dataType "uint16" then 1
  else if String.eqb dataType "scaled" then 1
  else if String.eqb dataType "bitfield" then 1
  else if String.eqb dataType "bcd" then 1
  else if String.eqb dataType "int32" then 2
  else if String.eqb dataType "uint32" then 2
  else if String.eqb dataType "float32" then 2
  else 1.

(** Check if two register ranges overlap *)
Definition rangesOverlap (range1 range2 : RegisterRange) : bool :=
  (start range1 <=? end_ range2) && (start range2 <=? end_ range1).

(** The range pushed for a rule. *)
Definition rangeOf (rule : Rule.t) : RegisterRange :=
  let registersNeeded := getRegistersNeeded (Rule.dataType rule) in
  {| name := Rule.name rule;
     start := Rule.startRegister rule;
     end_ := Rule.startRegister rule + registersNeeded - 1 |}.

(** Build register ranges for each rule: a rule without a data type (the
    empty string is falsy) contributes no range. *)
Definition registerRanges (rules : list Rule.t) : list RegisterRange :=
  flat_map
    (fun rule => if String.eqb (Rule.dataType rule) "" then [] else [rangeOf rule])
    rules.

(** The nested loops [for i] / [for j = i + 1] over the ranges: each range is
    compared with the ones after it, and the messages come out in that order. *)
Fixpoint overlapMessages (ranges : list RegisterRange) : list string :=
  match ranges with
  | [] => []
  | range1 :: rest =>
    (map (fun range2 => (name range1 ++ " and " ++ name range2)%string)
         (filter (rangesOverlap range1) rest)
     ++ overlapMessages rest)%list
  end.

(** Check for register overlaps between conversion rules; the result is the
    [overlaps] field. *)
Definition checkRegisterOverlaps (rules : list Rule.t) : list string :=
  overlapMessages (registerRanges rules).

(** [a.indexOf(x)] on strings: the first index holding [x], or -1. *)
Fixpoint indexOf (a : list string) (x : string) : Z :=
  match a with
  | [] => -1
  | y :: rest =>
    if String.eqb y x then 0
    else let i := indexOf rest x in if i <? 0 then -1 else i + 1
  end.

(** [a.filter((x, index) => p x index)] *)
Fixpoint filter_indexed {A : Type} (p : A -> Z -> bool) (index : Z) (a : list A) : list A :=
  match a with
  | [] => []
  | x :: rest =>
    if p x index then x :: filter_indexed p (index + 1) rest
    else filter_indexed p (index + 1) rest
  end.

(** [[...new Set(a)]]: the distinct elements, each at its first occurrence. *)
Fixpoint distinct (seen a : list string) : list string :=
  match a with
  | [] => []
  | x :: rest =>
    if existsb (String.eqb x) seen then distinct seen rest
    else x :: distinct (x :: seen) rest
  end.

(** [a.forEach((x, index) => ...)] collecting what each call pushes. *)
Fixpoint flat_map_indexed {A B : Type} (f : A -> nat -> list B) (index : nat) (a : list A) : list B :=
  match a with
  | [] => []
  | x :: rest => (f x index ++ flat_map_indexed f (S index) rest)%list
  end.

Section WithHost.
Context `{Js.Host}.

(** Validate conversion rule configuration.  The interface makes [name],
    [startRegister], [dataType] and [byteOrder] mandatory, so the tests
    [!rule.name], [!rule.dataType], [!rule.byteOrder] are tests for the empty
    string, and [rule.startRegister === undefined] is false. *)
Definition validateConversionRule (rule : Rule.t) (index : nat) : ValidationResult :=
  let label := ("Rule " ++ Js.ToString_int (Z.of_nat index + 1))%string in
  let when (b : bool) (message : string) : list string :=
    if b then [(label ++ message)%string] else [] in
  let dataType := Rule.dataType rule in
  let defined {A : Type} (x : option A) (p : A -> bool) : bool :=
    match x with Some a => p a | None => false end in
  let absent {A : Type} (x : option A) : bool :=
    match x with Some _ => false | None => true end in
  (* Validate required fields *)
  let required :=
    (when (String.eqb (Rule.name rule) "" || String.eqb (Js.String_trim (Rule.name rule)) "")
          ": Name is required"
     ++ when (Rule.startRegister rule <? 0) ": Start register must be >= 0"
     ++ when (String.eqb dataType "") ": Data type is required"
     ++ when (String.eqb (Rule.byteOrder rule) "") ": Byte order is required")%list in
  (* Validate data type specific requirements *)
  let specific_errors :=
    if String.eqb dataType "" then []
    else if String.eqb dataType "scaled" then []
    else if String.eqb dataType "bitfield" then
      (when (absent (Rule.bitMask rule) && absent (Rule.bitPosition rule))
            ": Bitfield conversion requires bit mask or bit position"
       ++ when (defined (Rule.bitPosition rule) (fun p => (p <? 0) || (p >? 15)))
               ": Bit position must be between 0 and 15"
       ++ when (defined (Rule.bitLength rule) (fun l => (l <? 1) || (l >? 16)))
               ": Bit length must be between 1 and 16")%list
    else if String.eqb dataType "float32" || String.eqb dataType "int32"
            || String.eqb dataType "uint32" then []
    else
      when (negb (existsb (String.eqb dataType) ["int16"; "uint16"; "bcd"]))
           (": Unsupported data type '" ++ dataType ++ "'") in
  let specific_warnings :=
    when (String.eqb dataType "scaled"
          && absent (Rule.scaleFactor rule) && absent (Rule.offset rule))
         ": Scaled conversion without scale factor or offset" in
  (* Validate validation settings *)
  let validation_errors :=
    when (defined (Rule.validation rule) (fun validation =>
            Rule.enabled validation
            && match Rule.min validation, Rule.max validation with
               | Some lo, Some hi => PrimFloat.ltb hi lo
               | _, _ => false
               end))
         ": Validation minimum cannot be greater than maximum" in
  (* Validate unit conversion *)
  let unit_errors :=
    when (defined (Rule.unitConversion rule) (fun u =>
            String.eqb (Rule.from u) "" || String.eqb (Rule.to u) ""))
         ": Unit conversion requires both 'from' and 'to' units" in
  let unit_warnings :=
    when (defined (Rule.unitConversion rule) (fun u =>
            String.eqb (Rule.from u) (Rule.to u)))
         ": Unit conversion from and to are the same" in
  (* Validate decimal places *)
  let decimal_errors :=
    when (defined (Rule.decimalPlaces rule) (fun d => (d <? 0) || (d >? 10)))
         ": Decimal places must be between 0 and 10" in
  let errors :=
    (required ++ specific_errors ++ validation_errors ++ unit_errors ++ decimal_errors)%list in
  {| valid := match errors with [] => true | _ => false end;
     errors := errors;
     warnings := (specific_warnings ++ unit_warnings)%list |}.

(** The names compared for duplicates:
    [rules.map(rule => rule.name?.trim().toLowerCase()).filter(name => name)] *)
Definition normalizedNames (rules : list Rule.t) : list string :=
  filter (fun name => negb (String.eqb name ""))
         (map (fun rule => Js.String_toLowerCase (Js.String_trim (Rule.name rule))) rules).

(** [names.filter((name, index) => names.indexOf(name) !== index)] *)
Definition duplicateNames (rules : list Rule.t) : list string :=
  let names := normalizedNames rules in
  filter_indexed (fun name index => negb (indexOf names name =? index)) 0 names.

(** Validate array of conversion rules *)
Definition validateConversionRules (rules : list Rule.t) : ValidationResult :=
  match rules with
  | [] =>
    {| valid := false;
       errors := ["At least one conversion rule is required"];
       warnings := [] |}
  | _ =>
    (* Validate each rule *)
    let rule_errors :=
      flat_map_indexed (fun rule index => errors (validateConversionRule rule index)) 0 rules in
    let rule_warnings :=
      flat_map_indexed (fun rule index => warnings (validateConversionRule rule index)) 0 rules in
    (* Check for duplicate names *)
    let duplicates := duplicateNames rules in
    let duplicate_errors :=
      match duplicates with
      | [] => []
      | _ => [("Duplicate conversion names found: "
               ++ String.concat ", " (distinct [] duplicates))%string]
      end in
    (* Check for overlapping register usage *)
    let overlaps := checkRegisterOverlaps rules in
    let overlap_warnings :=
      match overlaps with
      | [] => []
      | _ => [("Register overlaps detected: " ++ String.concat ", " overlaps)%string]
      end in
    let errors := (rule_errors ++ duplicate_errors)%list in
    {| valid := match errors with [] => true | _ => false end;
       errors := errors;
       warnings := (rule_warnings ++ overlap_warnings)%list |}
  end.

End WithHost.


(** The parameters [validateNodeParameters] reads.  [conversions] is an array
    or [undefined] (an array, even empty, is truthy); the three enumerations
    are kept as strings, the empty string being the falsy one. *)
Record NodeParameters : Type := {
  conversions : option (list Rule.t);
  inputSource : string;
  customPath : option string;
  outputFormat : string;
  errorHandling : string
}.

Definition validInputSources : list string :=
  ["data"; "values"; "registers"; "custom_path"].

Definition validOutputFormats : list string :=
  ["individual_fields"; "conversion_object"; "both"].

Definition validErrorHandling : list string :=
  ["stop_on_error"; "skip_invalid"; "default_values"].

(** [a.includes(x)] on strings *)
Definition includes (a : list string) (x : string) : bool :=
  existsb (String.eqb x) a.

(** Validate node parameters *)
Definition validateNodeParameters (parameters : NodeParameters) : ValidationResult :=
  let when (b : bool) (message : string) : list string :=
    if b then [message] else [] in
  let truthy (s : string) : bool := negb (String.eqb s "") in
  let errors :=
    ((* Validate required parameters *)
     when (match conversions parameters with None => true | Some _ => false end)
          "Conversions parameter is required"
     ++ when (negb (truthy (inputSource parameters))) "Input source is required"
     ++ when (negb (truthy (outputFormat parameters))) "Output format is required"
     ++ when (negb (truthy (errorHandling parameters))) "Error handling is required"
     (* Validate enum values *)
     ++ when (truthy (inputSource parameters)
              && negb (includes validInputSources (inputSource parameters)))
             ("Invalid input source. Must be one of: "
              ++ String.concat ", " validInputSources)%string
     ++ when (truthy (outputFormat parameters)
              && negb (includes validOutputFormats (outputFormat parameters)))
             ("Invalid output format. Must be one of: "
              ++ String.concat ", " validOutputFormats)%string
     ++ when (truthy (errorHandling parameters)
              && negb (includes validErrorHandling (errorHandling parameters)))
             ("Invalid error handling. Must be one of: "
              ++ String.concat ", " validErrorHandling)%string
     (* Validate custom path requirement *)
     ++ when (String.eqb (inputSource parameters) "custom_path"
              && match customPath parameters with
                 | None => true
                 | Some path => String.eqb path ""
                 end)
             "Custom path is required when input source is custom_path")%list in
  {| valid := match errors with [] => true | _ => false end;
     errors := errors;
     warnings := [] |}.

End ValidationUtils.

(** ** The unit catalogue (IndustrialUnits.ts, class IndustrialUnits) *)

Module IndustrialUnits.

(** [interface UnitConversionFunction] *)
Record UnitConversionFunction : Type := {
  from : string;
  to : string;
  convert : float -> float;
  formula : string
}.

(** Unit conversion functions, in source order. *)
Definition CONVERSIONS : list UnitConversionFunction :=
  [
    {| from := "celsius"; to := "fahrenheit";
       convert := fun val => (val * 9 / 5) + 32;
       formula := "(°C × 9/5) + 32" |};
    {| from := "fahrenheit"; to := "celsius";
       convert := fun val => (val - 32) * 5 / 9;
       formula := "(°F - 32) × 5/9" |};
    {| from := "celsius"; to := "kelvin";
       convert := fun val => val + 273.15;
       formula := "°C + 273.15" |};
    {| from := "kelvin"; to := "celsius";
       convert := fun val => val - 273.15;
       formula := "K - 273.15" |};
    {| from := "fahrenheit"; to := "kelvin";
       convert := fun val => (val - 32) * 5 / 9 + 273.15;
       formula := "(°F - 32) × 5/9 + 273.15" |};
    {| from := "kelvin"; to := "fahrenheit";
       convert := fun val => (val - 273.15) * 9 / 5 + 32;
       formula := "(K - 273.15) × 9/5 + 32" |};
    {| from := "celsius"; to := "rankine";
       convert := fun val => (val + 273.15) * 9 / 5;
       formula := "(°C + 273.15) × 9/5" |};
    {| from := "rankine"; to := "celsius";
       convert := fun val => val * 5 / 9 - 273.15;
       formula := "°R × 5/9 - 273.15" |};
    {| from := "pascal"; to := "bar";
       convert := fun val => val * 1e-5;
       formula := "Pa × 1e-5" |};
    {| from := "bar"; to := "pascal";
       convert := fun val => val * 1e5;
       formula := "bar × 1e5" |};
    {| from := "psi"; to := "bar";
       convert := fun val => val * 0.0689476;
       formula := "psi × 0.0689476" |};
    {| from := "bar"; to := "psi";
       convert := fun val => val * 14.5038;
       formula := "bar × 14.5038" |};
    {| from := "pascal"; to := "psi";
       convert := fun val => val * 0.000145038;
       formula := "Pa × 0.000145038" |};
    {| from := "psi"; to := "pascal";
       convert := fun val => val * 6894.76;
       formula := "psi × 6894.76" |};
    {| from := "bar"; to := "atm";
       convert := fun val => val * 0.986923;
       formula := "bar × 0.986923" |};
    {| from := "atm"; to := "bar";
       convert := fun val => val * 1.01325;
       formula := "atm × 1.01325" |};
    {| from := "mmhg"; to := "pascal";
       convert := fun val => val * 133.322;
       formula := "mmHg × 133.322" |};
    {| from := "pascal"; to := "mmhg";
       convert := fun val => val * 0.00750062;
       formula := "Pa × 0.00750062" |};
    {| from := "gpm"; to := "lpm";
       convert := fun val => val * 3.78541;
       formula := "gpm × 3.78541" |};
    {| from := "lpm"; to := "gpm";
       convert := fun val => val * 0.264172;
       formula := "L/min × 0.264172" |};
    {| from := "cfm"; to := "cmh";
       convert := fun val => val * 1.69901;
       formula := "ft³/min × 1.69901" |};
    {| from := "cmh"; to := "cfm";
       convert := fun val => val * 0.588578;
       formula := "m³/h × 0.588578" |};
    {| from := "lpm"; to := "lps";
       convert := fun val => val / 60;
       formula := "L/min ÷ 60" |};
    {| from := "lps"; to := "lpm";
       convert := fun val => val * 60;
       formula := "L/s × 60" |};
    {| from := "cmh"; to := "cms";
       convert := fun val => val / 3600;
       formula := "m³/h ÷ 3600" |};
    {| from := "cms"; to := "cmh";
       convert := fun val => val * 3600;
       formula := "m³/s × 3600" |};
    {| from := "watt"; to := "kilowatt";
       convert := fun val => val / 1000;
       formula := "W ÷ 1000" |};
    {| from := "kilowatt"; to := "watt";
       convert := fun val => val * 1000;
       formula := "kW × 1000" |};
    {| from := "horsepower"; to := "kilowatt";
       convert := fun val => val * 0.745699;
       formula := "hp × 0.745699" |};
    {| from := "kilowatt"; to := "horsepower";
       convert := fun val => val * 1.34102;
       formula := "kW × 1.34102" |};
    {| from := "btu_h"; to := "kilowatt";
       convert := fun val => val * 0.000293071;
       formula := "BTU/h × 0.000293071" |};
    {| from := "kilowatt"; to := "btu_h";
       convert := fun val => val * 3412.14;
       formula := "kW × 3412.14" |};
    {| from := "ton_refrigeration"; to := "kilowatt";
       convert := fun val => val * 3.51685;
       formula := "TR × 3.51685" |};
    {| from := "kilowatt"; to := "ton_refrigeration";
       convert := fun val => val * 0.284345;
       formula := "kW × 0.284345" |};
    {| from := "joule"; to := "kilowatt_hour";
       convert := fun val => val / 3.6e6;
       formula := "J ÷ 3.6e6" |};
    {| from := "kilowatt_hour"; to := "joule";
       convert := fun val => val * 3.6e6;
       formula := "kWh × 3.6e6" |};
    {| from := "btu"; to := "joule";
       convert := fun val => val * 1055.06;
       formula := "BTU × 1055.06" |};
    {| from := "joule"; to := "btu";
       convert := fun val => val / 1055.06;
       formula := "J ÷ 1055.06" |};
    {| from := "calorie"; to := "joule";
       convert := fun val => val * 4.184;
       formula := "cal × 4.184" |};
    {| from := "joule"; to := "calorie";
       convert := fun val => val / 4.184;
       formula := "J ÷ 4.184" |};
    {| from := "meter"; to := "foot";
       convert := fun val => val * 3.28084;
       formula := "m × 3.28084" |};
    {| from := "foot"; to := "meter";
       convert := fun val => val * 0.3048;
       formula := "ft × 0.3048" |};
    {| from := "inch"; to := "meter";
       convert := fun val => val * 0.0254;
       formula := "in × 0.0254" |};
    {| from := "meter"; to := "inch";
       convert := fun val => val * 39.3701;
       formula := "m × 39.3701" |};
    {| from := "millimeter"; to := "meter";
       convert := fun val => val / 1000;
       formula := "mm ÷ 1000" |};
    {| from := "meter"; to := "millimeter";
       convert := fun val => val * 1000;
       formula := "m × 1000" |};
    {| from := "centimeter"; to := "meter";
       convert := fun val => val / 100;
       formula := "cm ÷ 100" |};
    {| from := "meter"; to := "centimeter";
       convert := fun val => val * 100;
       formula := "m × 100" |};
    {| from := "kilogram"; to := "pound";
       convert := fun val => val * 2.20462;
       formula := "kg × 2.20462" |};
    {| from := "pound"; to := "kilogram";
       convert := fun val => val * 0.453592;
       formula := "lb × 0.453592" |};
    {| from := "gram"; to := "kilogram";
       convert := fun val => val / 1000;
       formula := "g ÷ 1000" |};
    {| from := "kilogram"; to := "gram";
       convert := fun val => val * 1000;
       formula := "kg × 1000" |};
    {| from := "ounce"; to := "kilogram";
       convert := fun val => val * 0.0283495;
       formula := "oz × 0.0283495" |};
    {| from := "kilogram"; to := "ounce";
       convert := fun val => val * 35.274;
       formula := "kg × 35.274" |};
    {| from := "ton"; to := "kilogram";
       convert := fun val => val * 1000;
       formula := "t × 1000" |};
    {| from := "kilogram"; to := "ton";
       convert := fun val => val / 1000;
       formula := "kg ÷ 1000" |};
    {| from := "liter"; to := "gallon";
       convert := fun val => val * 0.264172;
       formula := "L × 0.264172" |};
    {| from := "gallon"; to := "liter";
       convert := fun val => val * 3.78541;
       formula := "gal × 3.78541" |};
    {| from := "cubic_meter"; to := "cubic_foot";
       convert := fun val => val * 35.3147;
       formula := "m³ × 35.3147" |};
    {| from := "cubic_foot"; to := "cubic_meter";
       convert := fun val => val * 0.0283168;
       formula := "ft³ × 0.0283168" |};
    {| from := "barrel"; to := "liter";
       convert := fun val => val * 158.987;
       formula := "bbl × 158.987" |};
    {| from := "liter"; to := "barrel";
       convert := fun val => val / 158.987;
       formula := "L ÷ 158.987" |}
  ]%float.

(** [CONVERSIONS.find(conv => conv.from === a && conv.to === b)] *)
Definition find_conversion (a b : string) : option UnitConversionFunction :=
  find (fun conv => String.eqb (from conv) a && String.eqb (to conv) b) CONVERSIONS.

(** Apply inverse conversion *)
Definition inverseConvert (value : float) (conversion : UnitConversionFunction) : float :=
  let testValue := 1%float in
  let convertedTest := convert conversion testValue in
  let factor := (testValue / convertedTest)%float in
  (value * factor)%float.

(** Convert value between units.  The function is named [convert] in the
    source, like the field of [UnitConversionFunction]. *)
Definition convert_units (value : float) (fromUnit toUnit : string) : Js.completion float :=
  if String.eqb fromUnit toUnit then Js.Normal value
  else
    match find_conversion fromUnit toUnit with
    | Some conversion => Js.Normal (convert conversion value)
    | None =>
      (* Try reverse conversion *)
      match find_conversion toUnit fromUnit with
      | Some reverseConversion => Js.Normal (inverseConvert value reverseConversion)
      | None =>
        Js.Throw (Js.ErrorObject
          ("No conversion available from " ++ fromUnit ++ " to " ++ toUnit)%string)
      end
    end.

(** Check if conversion is available *)
Definition isConversionAvailable (fromUnit toUnit : string) : bool :=
  if String.eqb fromUnit toUnit then true
  else
    existsb (fun conv =>
               (String.eqb (from conv) fromUnit && String.eqb (to conv) toUnit)
               || (String.eqb (from conv) toUnit && String.eqb (to conv) fromUnit))
            CONVERSIONS.


(** [interface UnitDefinition] *)
Record UnitDefinition : Type := {
  name : string;
  symbol : string;
  category : string;
  description : string
}.

(** Available industrial units organized by category: the own properties of
    the [UNITS] object, in insertion order. *)
Definition UNITS : list (string * list UnitDefinition) :=
  [
    ("temperature",
     [
       {| name := "celsius"; symbol := "°C"; category := "temperature"; description := "Degrees Celsius" |};
       {| name := "fahrenheit"; symbol := "°F"; category := "temperature"; description := "Degrees Fahrenheit" |};
       {| name := "kelvin"; symbol := "K"; category := "temperature"; description := "Kelvin" |};
       {| name := "rankine"; symbol := "°R"; category := "temperature"; description := "Degrees Rankine" |} ]);
    ("pressure",
     [
       {| name := "pascal"; symbol := "Pa"; category := "pressure"; description := "Pascal" |};
       {| name := "bar"; symbol := "bar"; category := "pressure"; description := "Bar" |};
       {| name := "psi"; symbol := "psi"; category := "pressure"; description := "Pounds per Square Inch" |};
       {| name := "atm"; symbol := "atm"; category := "pressure"; description := "Atmosphere" |};
       {| name := "mmhg"; symbol := "mmHg"; category := "pressure"; description := "Millimeters of Mercury" |};
       {| name := "inhg"; symbol := "inHg"; category := "pressure"; description := "Inches of Mercury" |};
       {| name := "torr"; symbol := "Torr"; category := "pressure"; description := "Torr" |} ]);
    ("flow",
     [
       {| name := "lpm"; symbol := "L/min"; category := "flow"; description := "Liters per Minute" |};
       {| name := "gpm"; symbol := "gal/min"; category := "flow"; description := "Gallons per Minute" |};
       {| name := "cfm"; symbol := "ft³/min"; category := "flow"; description := "Cubic Feet per Minute" |};
       {| name := "cmh"; symbol := "m³/h"; category := "flow"; description := "Cubic Meters per Hour" |};
       {| name := "lps"; symbol := "L/s"; category := "flow"; description := "Liters per Second" |};
       {| name := "cms"; symbol := "m³/s"; category := "flow"; description := "Cubic Meters per Second" |} ]);
    ("power",
     [
       {| name := "watt"; symbol := "W"; category := "power"; description := "Watt" |};
       {| name := "kilowatt"; symbol := "kW"; category := "power"; description := "Kilowatt" |};
       {| name := "horsepower"; symbol := "hp"; category := "power"; description := "Horsepower" |};
       {| name := "btu_h"; symbol := "BTU/h"; category := "power"; description := "British Thermal Units per Hour" |};
       {| name := "ton_refrigeration"; symbol := "TR"; category := "power"; description := "Ton of Refrigeration" |} ]);
    ("energy",
     [
       {| name := "joule"; symbol := "J"; category := "energy"; description := "Joule" |};
       {| name := "kilowatt_hour"; symbol := "kWh"; category := "energy"; description := "Kilowatt Hour" |};
       {| name := "btu"; symbol := "BTU"; category := "energy"; description := "British Thermal Unit" |};
       {| name := "calorie"; symbol := "cal"; category := "energy"; description := "Calorie" |};
       {| name := "therm"; symbol := "thm"; category := "energy"; description := "Therm" |} ]);
    ("speed",
     [
       {| name := "mps"; symbol := "m/s"; category := "speed"; description := "Meters per Second" |};
       {| name := "fps"; symbol := "ft/s"; category := "speed"; description := "Feet per Second" |};
       {| name := "mph"; symbol := "mph"; category := "speed"; description := "Miles per Hour" |};
       {| name := "kmh"; symbol := "km/h"; category := "speed"; description := "Kilometers per Hour" |};
       {| name := "knot"; symbol := "kn"; category := "speed"; description := "Knot" |} ]);
    ("volume",
     [
       {| name := "liter"; symbol := "L"; category := "volume"; description := "Liter" |};
       {| name := "gallon"; symbol := "gal"; category := "volume"; description := "Gallon (US)" |};
       {| name := "cubic_meter"; symbol := "m³"; category := "volume"; description := "Cubic Meter" |};
       {| name := "cubic_foot"; symbol := "ft³"; category := "volume"; description := "Cubic Foot" |};
       {| name := "barrel"; symbol := "bbl"; category := "volume"; description := "Barrel (Oil)" |} ]);
    ("length",
     [
       {| name := "meter"; symbol := "m"; category := "length"; description := "Meter" |};
       {| name := "foot"; symbol := "ft"; category := "length"; description := "Foot" |};
       {| name := "inch"; symbol := "in"; category := "length"; description := "Inch" |};
       {| name := "millimeter"; symbol := "mm"; category := "length"; description := "Millimeter" |};
       {| name := "centimeter"; symbol := "cm"; category := "length"; description := "Centimeter" |} ]);
    ("mass",
     [
       {| name := "kilogram"; symbol := "kg"; category := "mass"; description := "Kilogram" |};
       {| name := "pound"; symbol := "lb"; category := "mass"; description := "Pound" |};
       {| name := "gram"; symbol := "g"; category := "mass"; description := "Gram" |};
       {| name := "ounce"; symbol := "oz"; category := "mass"; description := "Ounce" |};
       {| name := "ton"; symbol := "t"; category := "mass"; description := "Metric Ton" |} ]);
    ("electrical",
     [
       {| name := "volt"; symbol := "V"; category := "electrical"; description := "Volt" |};
       {| name := "ampere"; symbol := "A"; category := "electrical"; description := "Ampere" |};
       {| name := "ohm"; symbol := "Ω"; category := "electrical"; description := "Ohm" |};
       {| name := "watt_electrical"; symbol := "W"; category := "electrical"; description := "Watt (Electrical)" |};
       {| name := "kilowatt_electrical"; symbol := "kW"; category := "electrical"; description := "Kilowatt (Electrical)" |} ])
  ].

(** Get all available units flattened: [Object.values(this.UNITS).flat()] *)
Definition getAllUnits : list UnitDefinition := flat_map snd UNITS.

(** Find unit by name *)
Definition findUnit (unitName : string) : option UnitDefinition :=
  find (fun unit => String.eqb (name unit) unitName) getAllUnits.

(** Get conversion formula *)
Definition getConversionFormula (fromUnit toUnit : string) : string :=
  match find_conversion fromUnit toUnit with
  | Some conversion => formula conversion
  | None =>
    match find_conversion toUnit fromUnit with
    | Some reverseConversion => ("Inverse of: " ++ formula reverseConversion)%string
    | None => "No formula available"
    end
  end.

(** [[...new Set(a)]]: the distinct strings of [a], each at its first
    occurrence. *)
Fixpoint unique (seen a : list string) : list string :=
  match a with
  | [] => []
  | x :: rest =>
    if existsb (String.eqb x) seen then unique seen rest
    else x :: unique (x :: seen) rest
  end.

(** Get available conversions for a unit *)
Definition getAvailableConversions (unit : string) : list string :=
  let directConversions :=
    map to (filter (fun conv => String.eqb (from conv) unit) CONVERSIONS) in
  let reverseConversions :=
    map from (filter (fun conv => String.eqb (to conv) unit) CONVERSIONS) in
  unique [] (directConversions ++ reverseConversions)%list.

End IndustrialUnits.

(** ** The decoding rules as the specification words them *)

Module Spec.

Inductive ByteOrder : Type := big_endian | little_endian.

(** The string a rule carries in its [byteOrder] field. *)
Definition tag (o : ByteOrder) : string :=
  match o with
  | big_endian => "big_endian"
  | little_endian => "little_endian"
  end.

(** A [{byteOrder, wordSwap}] setting. *)
Definition Setting : Type := (ByteOrder * bool)%type.


(** "if wordSwap, swap which word is first; if big_endian, high = first word,
    low = second word; if little_endian, high = second word, low = first word" *)
Definition first (s : Setting) (w0 w1 : Z) : Z := if snd s then w1 else w0.
Definition second (s : Setting) (w0 w1 : Z) : Z := if snd s then w0 else w1.

Definition high (s : Setting) (w0 w1 : Z) : Z :=
  match fst s with
  | big_endian => first s w0 w1
  | little_endian => second s w0 w1
  end.

Definition low (s : Setting) (w0 w1 : Z) : Z :=
  match fst s with
  | big_endian => second s w0 w1
  | little_endian => first s w0 w1
  end.

(** The unsigned 32-bit assembly, [high * 65536 + low]. *)
Definition raw32 (s : Setting) (w0 w1 : Z) : Z :=
  high s w0 w1 * 65536 + low s w0 w1.

(** Two's complement reading of an unsigned 32-bit quantity. *)
Definition signed32 (raw : Z) : Z :=
  if raw >? 2147483647 then raw - 4294967296 else raw.

(** Two's complement reading of an unsigned 16-bit word. *)
Definition signed16 (w : Z) : Z :=
  if w >? 32767 then w - 65536 else w.

(** "decode its two nibbles as decimal digits d = nibbleHigh * 10 + nibbleLow" *)
Definition byteDecimal (byte : Z) : Z := (byte / 16) * 10 + byte mod 16.

(** "split the 16-bit word into high byte and low byte ...
    result = highByteDecimal * 100 + lowByteDecimal" *)
Definition bcd (w : Z) : Z :=
  byteDecimal (w / 256) * 100 + byteDecimal (w mod 256).

(** The footprint table of the data model. *)
Definition footprint (dataType : string) : option Z :=
  if existsb (String.eqb dataType) ["int16"; "uint16"; "scaled"; "bitfield"; "bcd"]
  then Some 1
  else if existsb (String.eqb dataType) ["int32"; "uint32"; "float32"]
  then Some 2
  else None.

(** Two register windows [[lo1, hi1]] and [[lo2, hi2]] intersect when some
    register index lies in both. *)
Definition windows_intersect (lo1 hi1 lo2 hi2 : Z) : Prop :=
  exists k : Z, (lo1 <= k <= hi1) /\ (lo2 <= k <= hi2).

End Spec.

(** ** The byte layouts that the node's options name

    The converter node (versions 2 and 4) offers the byte order of a rule as
    'Big Endian (ABCD)' or 'Little Endian (DCBA)', and describes Word Swap as
    "Swap the order of 16-bit words within multi-register values (ABCD to
    CDAB, DCBA to BADC)".  A layout names the order in which the four bytes
    of a 32-bit value, A the most significant and D the least, arrive in the
    two registers: the first register carries the first two letters, its
    high byte first. *)

Module OptionText.

Inductive Layout : Type := ABCD | DCBA | CDAB | BADC.

(** The layout that the option text promises for a setting. *)
Definition layout (s : Spec.Setting) : Layout :=
  match s with
  | (Spec.big_endian, false) => ABCD
  | (Spec.little_endian, false) => DCBA
  | (Spec.big_endian, true) => CDAB
  | (Spec.little_endian, true) => BADC
  end.

(** A 16-bit word with its two bytes exchanged. *)
Definition swapBytes (w : Z) : Z := (w mod 256) * 256 + w / 256.

(** The 32-bit value A B C D of two registers that arrive in a layout. *)
Definition value (l : Layout) (w0 w1 : Z) : Z :=
  match l with
  | ABCD => w0 * 65536 + w1
  | CDAB => w1 * 65536 + w0
  | DCBA => swapBytes w1 * 65536 + swapBytes w0
  | BADC => swapBytes w0 * 65536 + swapBytes w1
  end.

End OptionText.

(** ** A reference host

    An executable instance of [Js.Host], so that the model can be run on
    concrete inputs.  Number formatting and parsing follow ECMA-262
    (Number::toString, Number.prototype.toFixed, StringToNumber) in exact
    integer arithmetic; strings are read as UTF-8, [trim] removes the
    WhiteSpace and LineTerminator code points, and [toLowerCase] maps the
    ASCII letters (the Unicode case tables are not reproduced: other code
    points are left as they are). *)

Module ReferenceHost.

(** The magnitude of a finite number, as [m * 2 ^ e]. *)
Definition magnitude (x : float) : option (Z * Z) :=
  match Prim2SF x with
  | S754_zero _ => Some (0, 0)
  | S754_finite _ m e => Some (Zpos m, e)
  | _ => None
  end.

(** [m * 2 ^ e * 10 ^ t] as a fraction of two non-negative integers. *)
Definition scaled (m e t : Z) : Z * Z :=
  (m * 2 ^ Z.max e 0 * 10 ^ Z.max t 0, 2 ^ Z.max (- e) 0 * 10 ^ Z.max (- t) 0).

(** The binary64 value nearest to [num / den] (ties to even). *)
Definition nearest (num den : Z) : float :=
  match num, den with
  | Zpos p, Zpos q => SF2Prim (SFdiv prec emax (S754_finite false p 0) (S754_finite false q 0))
  | _, _ => 0%float
  end.

(** The binary64 value nearest to [c * 10 ^ t]. *)
Definition nearest_decimal (c t : Z) : float :=
  if t >? 400 then (if c =? 0 then 0%float else infinity)
  else if t <? -400 - Z.log2 (Z.max c 1) then 0%float
  else nearest (c * 10 ^ Z.max t 0) (10 ^ Z.max (- t) 0).

Definition zeros (n : Z) : string :=
  string_of_list_ascii (repeat "0"%char (Z.to_nat n)).

Definition strlen (s : string) : Z := Z.of_nat (String.length s).

Definition prefix (n : Z) (s : string) : string :=
  String.substring 0 (Z.to_nat n) s.

Definition suffix_from (n : Z) (s : string) : string :=
  String.substring (Z.to_nat n) (String.length s - Z.to_nat n) s.

(** *** Number::toString *)

(** Whether [m * 2 ^ e < 10 ^ n]. *)
Definition below_pow10 (m e n : Z) : bool :=
  let '(a, b) := scaled m e (- n) in a <? b.

(** The [n] with [10 ^ (n - 1) <= m * 2 ^ e < 10 ^ n], from an estimate. *)
Fixpoint decimal_exponent (fuel : nat) (m e n : Z) : Z :=
  match fuel with
  | O => n
  | S fuel' =>
    if below_pow10 m e (n - 1) then decimal_exponent fuel' m e (n - 1)
    else if below_pow10 m e n then n
    else decimal_exponent fuel' m e (n + 1)
  end.

(** The [k]-digit significand [s] such that [s * 10 ^ (n - k)] reads back as
    [x] and is closest to [x], if there is one. *)
Definition significand (x : float) (m e n k : Z) : option Z :=
  let '(num, den) := scaled m e (k - n) in
  let lo := num / den in
  let hi := lo + 1 in
  let reads_back (c : Z) := PrimFloat.eqb (nearest_decimal c (n - k)) x in
  if num mod den =? 0 then Some lo
  else
    match reads_back lo, reads_back hi with
    | true, true =>
      match 2 * num ?= (2 * lo + 1) * den with
      | Lt => Some lo
      | Gt => Some hi
      | Eq => Some (if Z.even lo then lo else hi)
      end
    | true, false => Some lo
    | false, true => Some hi
    | false, false => None
    end.

(** The shortest digits: the least [k] from [k] upwards that has a significand. *)
Fixpoint shortest (fuel : nat) (x : float) (m e n k : Z) : Z * Z :=
  match fuel with
  | O => (0, k)
  | S fuel' =>
    match significand x m e n k with
    | Some s => (s, k)
    | None => shortest fuel' x m e n (k + 1)
    end
  end.

Definition exponent_part (n : Z) : string :=
  ("e" ++ (if n - 1 >=? 0 then "+" else "-") ++ Js.ToString_int (Z.abs (n - 1)))%string.

(** Steps 5 to 10 of Number::toString, on the digits [ds] and the exponent [n]. *)
Definition layout (ds : string) (n : Z) : string :=
  let k := strlen ds in
  if (k <=? n) && (n <=? 21) then (ds ++ zeros (n - k))%string
  else if (0 <? n) && (n <=? 21) then (prefix n ds ++ "." ++ suffix_from n ds)%string
  else if (-6 <? n) && (n <=? 0) then ("0." ++ zeros (- n) ++ ds)%string
  else if k =? 1 then (ds ++ exponent_part n)%string
  else (prefix 1 ds ++ "." ++ suffix_from 1 ds ++ exponent_part n)%string.

Definition toString_positive (x : float) (m e : Z) : string :=
  let estimate := ((Z.log2 m + e) * 30103) / 100000 in
  let n := decimal_exponent 700 m e estimate in
  let '(s, k) := shortest 17 x m e n 1 in
  if s =? 10 ^ k then layout "1" (n + 1) else layout (Js.ToString_int s) n.

Definition Number_toString (x : float) : string :=
  match Prim2SF x with
  | S754_nan => "NaN"
  | S754_zero _ => "0"
  | S754_infinity s => if s then "-Infinity" else "Infinity"
  | S754_finite s m e =>
    ((if s then "-" else "") ++ toString_positive (PrimFloat.abs x) (Zpos m) e)%string
  end.

(** *** Number.prototype.toFixed, for [0 <= digits <= 100] *)

Definition Number_toFixed (x : float) (digits : Z) : string :=
  match Prim2SF x with
  | S754_finite _ _ _ | S754_zero _ =>
    if PrimFloat.leb 1e21 (PrimFloat.abs x) then Number_toString x
    else
      match magnitude x with
      | Some (m, e) =>
        let '(num, den) := scaled m e digits in
        let n := (2 * num + den) / (2 * den) in
        let ds := Js.ToString_int n in
        let ds := if strlen ds <=? digits then (zeros (digits + 1 - strlen ds) ++ ds)%string else ds in
        let k := strlen ds in
        let body :=
          if digits =? 0 then ds
          else (prefix (k - digits) ds ++ "." ++ suffix_from (k - digits) ds)%string in
        ((if PrimFloat.ltb x 0 then "-" else "") ++ body)%string
      | None => Number_toString x
      end
  | _ => Number_toString x
  end.

(** *** Strings *)

Definition code (c : ascii) : Z := Z.of_N (N_of_ascii c).

(** The UTF-8 encodings of WhiteSpace and LineTerminator, as byte lists. *)
Definition blanks : list (list Z) :=
  [ [9]; [10]; [11]; [12]; [13]; [32];
    [194; 160]; [225; 154; 128];
    [226; 128; 128]; [226; 128; 129]; [226; 128; 130]; [226; 128; 131];
    [226; 128; 132]; [226; 128; 133]; [226; 128; 134]; [226; 128; 135];
    [226; 128; 136]; [226; 128; 137]; [226; 128; 138];
    [226; 128; 168]; [226; 128; 169]; [226; 128; 175];
    [226; 129; 159]; [227; 128; 128]; [239; 187; 191] ].

Fixpoint strip_prefix (p : list Z) (l : list ascii) : option (list ascii) :=
  match p, l with
  | [], _ => Some l
  | b :: p', c :: l' => if code c =? b then strip_prefix p' l' else None
  | _ :: _, [] => None
  end.

(** [l] without one leading blank out of [candidates], if it starts with one. *)
Fixpoint strip_one (candidates : list (list Z)) (l : list ascii) : option (list ascii) :=
  match candidates with
  | [] => None
  | p :: rest =>
    match strip_prefix p l with
    | Some l' => Some l'
    | None => strip_one rest l
    end
  end.

Fixpoint trim_start (fuel : nat) (candidates : list (list Z)) (l : list ascii) : list ascii :=
  match fuel with
  | O => l
  | S fuel' =>
    match strip_one candidates l with
    | Some l' => trim_start fuel' candidates l'
    | None => l
    end
  end.

Definition String_trim (s : string) : string :=
  let l := list_ascii_of_string s in
  let l := trim_start (List.length l) blanks l in
  let r := trim_start (List.length l) (map (@rev Z) blanks) (rev l) in
  string_of_list_ascii (rev r).

(** The lower-case form of an ASCII letter; every other byte is kept. *)
Definition lower (c : ascii) : ascii :=
  if (65 <=? code c) && (code c <=? 90) then ascii_of_N (N_of_ascii c + 32) else c.

(** [s.toLowerCase()] for a string whose cased letters are all ASCII.  On a
    string with other cased letters (a capital letter with a diacritic, a
    Greek or Cyrillic capital) JavaScript maps those too and this function
    does not: the reference host is used on ASCII names only, and the
    theorems hold for any host. *)
Definition String_toLowerCase (s : string) : string :=
  string_of_list_ascii (map lower (list_ascii_of_string s)).

(** *** StringToNumber *)

Definition digit (radix : Z) (c : ascii) : option Z :=
  let n := code c in
  let v :=
    if (48 <=? n) && (n <=? 57) then n - 48
    else if (97 <=? n) && (n <=? 102) then n - 87
    else if (65 <=? n) && (n <=? 70) then n - 55
    else 99 in
  if v <? radix then Some v else None.

(** Reads digits: the value accumulated, how many were read, and the rest. *)
Fixpoint digits (radix acc count : Z) (l : list ascii) : Z * Z * list ascii :=
  match l with
  | c :: rest =>
    match digit radix c with
    | Some d => digits radix (acc * radix + d) (count + 1) rest
    | None => (acc, count, l)
    end
  | [] => (acc, count, [])
  end.

Definition read_sign (l : list ascii) : bool * list ascii :=
  match l with
  | "-"%char :: rest => (true, rest)
  | "+"%char :: rest => (false, rest)
  | _ => (false, l)
  end.

(** StrUnsignedDecimalLiteral, [Infinity] apart. *)
Definition unsigned_decimal (l : list ascii) : option float :=
  let '(int_part, int_count, rest) := digits 10 0 0 l in
  let '(mantissa, frac_count, rest) :=
    match rest with
    | "."%char :: rest' => digits 10 int_part 0 rest'
    | _ => (int_part, 0, rest)
    end in
  if int_count + frac_count =? 0 then None
  else
    match rest with
    | [] => Some (nearest_decimal mantissa (- frac_count))
    | c :: rest' =>
      if (code c =? 101) || (code c =? 69) then
        let '(negative, rest') := read_sign rest' in
        let '(exponent, exp_count, rest') := digits 10 0 0 rest' in
        match rest' with
        | [] =>
          if exp_count =? 0 then None
          else Some (nearest_decimal mantissa
                       ((if negative then - exponent else exponent) - frac_count))
        | _ => None
        end
      else None
    end.

Definition radix_literal (radix : Z) (l : list ascii) : float :=
  match digits radix 0 0 l with
  | (v, count, []) => if count =? 0 then nan else Js.of_int v
  | _ => nan
  end.

Definition String_toNumber (s : string) : float :=
  let l := list_ascii_of_string (String_trim s) in
  match l with
  | [] => 0%float
  | "0"%char :: c :: rest =>
    if (code c =? 120) || (code c =? 88) then radix_literal 16 rest
    else if (code c =? 111) || (code c =? 79) then radix_literal 8 rest
    else if (code c =? 98) || (code c =? 66) then radix_literal 2 rest
    else match unsigned_decimal l with Some x => x | None => nan end
  | _ =>
    let '(negative, rest) := read_sign l in
    let magnitude :=
      if String.eqb (string_of_list_ascii rest) "Infinity" then Some infinity
      else unsigned_decimal rest in
    match magnitude with
    | Some x => if negative then PrimFloat.opp x else x
    | None => nan
    end
  end.

(** The message V8 gives the RangeError of [toFixed]. *)
Definition toFixed_RangeError_message : string :=
  "toFixed() digits argument must be between 0 and 100".

#[export] Instance host : Js.Host := {|
  Js.Number_toString := Number_toString;
  Js.Number_toFixed := Number_toFixed;
  Js.toFixed_RangeError_message := toFixed_RangeError_message;
  Js.String_toNumber := String_toNumber;
  Js.String_trim := String_trim;
  Js.String_toLowerCase := String_toLowerCase
|}.

End ReferenceHost.

(** ** Rules used in the examples *)

Module Example.

(** A rule with only the mandatory fields: big-endian, everything optional
    left undefined. *)
Definition rule (name : string) (startRegister : Z) (dataType : string) : ConversionRule.t :=
  {| ConversionRule.name := name;
     ConversionRule.startRegister := startRegister;
     ConversionRule.dataType := dataType;
     ConversionRule.byteOrder := "big_endian";
     ConversionRule.wordSwap := None;
     ConversionRule.scaleFactor := None;
     ConversionRule.offset := None;
     ConversionRule.decimalPlaces := None;
     ConversionRule.bitMask := None;
     ConversionRule.bitPosition := None;
     ConversionRule.bitLength := None;
     ConversionRule.validation := None;
     ConversionRule.unitConversion := None |}.

Definition with_decimalPlaces (r : ConversionRule.t) (digits : Z) : ConversionRule.t :=
  {| ConversionRule.name := ConversionRule.name r;
     ConversionRule.startRegister := ConversionRule.startRegister r;
     ConversionRule.dataType := ConversionRule.dataType r;
     ConversionRule.byteOrder := ConversionRule.byteOrder r;
     ConversionRule.wordSwap := ConversionRule.wordSwap r;
     ConversionRule.scaleFactor := ConversionRule.scaleFactor r;
     ConversionRule.offset := ConversionRule.offset r;
     ConversionRule.decimalPlaces := Some digits;
     ConversionRule.bitMask := ConversionRule.bitMask r;
     ConversionRule.bitPosition := ConversionRule.bitPosition r;
     ConversionRule.bitLength := ConversionRule.bitLength r;
     ConversionRule.validation := ConversionRule.validation r;
     ConversionRule.unitConversion := ConversionRule.unitConversion r |}.

Definition with_unitConversion (r : ConversionRule.t) (fromUnit toUnit : string)
    : ConversionRule.t :=
  {| ConversionRule.name := ConversionRule.name r;
     ConversionRule.startRegister := ConversionRule.startRegister r;
     ConversionRule.dataType := ConversionRule.dataType r;
     ConversionRule.byteOrder := ConversionRule.byteOrder r;
     ConversionRule.wordSwap := ConversionRule.wordSwap r;
     ConversionRule.scaleFactor := ConversionRule.scaleFactor r;
     ConversionRule.offset := ConversionRule.offset r;
     ConversionRule.decimalPlaces := ConversionRule.decimalPlaces r;
     ConversionRule.bitMask := ConversionRule.bitMask r;
     ConversionRule.bitPosition := ConversionRule.bitPosition r;
     ConversionRule.bitLength := ConversionRule.bitLength r;
     ConversionRule.validation := ConversionRule.validation r;
     ConversionRule.unitConversion :=
       Some {| ConversionRule.from := fromUnit; ConversionRule.to := toUnit |} |}.

Definition with_validation (r : ConversionRule.t) (min max : option float)
    : ConversionRule.t :=
  {| ConversionRule.name := ConversionRule.name r;
     ConversionRule.startRegister := ConversionRule.startRegister r;
     ConversionRule.dataType := ConversionRule.dataType r;
     ConversionRule.byteOrder := ConversionRule.byteOrder r;
     ConversionRule.wordSwap := ConversionRule.wordSwap r;
     ConversionRule.scaleFactor := ConversionRule.scaleFactor r;
     ConversionRule.offset := ConversionRule.offset r;
     ConversionRule.decimalPlaces := ConversionRule.decimalPlaces r;
     ConversionRule.bitMask := ConversionRule.bitMask r;
     ConversionRule.bitPosition := ConversionRule.bitPosition r;
     ConversionRule.bitLength := ConversionRule.bitLength r;
     ConversionRule.validation :=
       Some {| ConversionRule.enabled := true;
               ConversionRule.min := min;
               ConversionRule.max := max;
               ConversionRule.allowNaN := None |};
     ConversionRule.unitConversion := ConversionRule.unitConversion r |}.

End Example.

(** ** Node's Buffer, as far as the sources use it

    A buffer is the list of its bytes.  A write whose value is outside the
    range of the integer type, or an access outside the buffer, throws a
    RangeError in Node; here it gives [None]. *)

Module Buffer.

(** [Buffer.alloc(n)]: [n] zero bytes. *)
Definition alloc (n : nat) : Js.buffer := repeat 0 n.

Definition in_bounds (b : Js.buffer) (offset size : nat) : bool :=
  (offset + size <=? List.length b)%nat.

(** [buf.writeUInt16BE(value, offset)] *)
Definition writeUInt16BE (b : Js.buffer) (value : Z) (offset : nat) : option Js.buffer :=
  if (value <? 0) || (value >? 65535) || negb (in_bounds b offset 2) then None
  else Some (Js.store (Js.store b offset (value / 256)) (S offset) (value mod 256)).

(** [buf.writeUInt16LE(value, offset)] *)
Definition writeUInt16LE (b : Js.buffer) (value : Z) (offset : nat) : option Js.buffer :=
  if (value <? 0) || (value >? 65535) || negb (in_bounds b offset 2) then None
  else Some (Js.store (Js.store b offset (value mod 256)) (S offset) (value / 256)).

(** [buf.writeInt16BE(value, offset)]: the two's complement bytes. *)
Definition writeInt16BE (b : Js.buffer) (value : Z) (offset : nat) : option Js.buffer :=
  if (value <? -32768) || (value >? 32767) || negb (in_bounds b offset 2) then None
  else
    let w := value mod 65536 in
    Some (Js.store (Js.store b offset (w / 256)) (S offset) (w mod 256)).

(** [buf.readInt16BE(offset)] *)
Definition readInt16BE (b : Js.buffer) (offset : nat) : option Z :=
  if in_bounds b offset 2 then
    let w := nth offset b 0 * 256 + nth (S offset) b 0 in
    Some (if w >=? 32768 then w - 65536 else w)
  else None.

(** The value of an IEEE-754 binary64 bit pattern. *)
Definition float64_of_bits (b : Z) : float :=
  let sign := Z.testbit b 63 in
  let e := Z.land (Z.shiftr b 52) 2047 in
  let m := Z.land b 4503599627370495 in
  if e =? 2047 then
    if m =? 0 then (if sign then neg_infinity else infinity) else nan
  else if e =? 0 then
    SF2Prim (binary_normalize prec emax (cond_Zopp sign m) (-1074) sign)
  else
    SF2Prim (binary_normalize prec emax (cond_Zopp sign (m + 4503599627370496))
               (e - 1075) sign).

(** The integer whose little-endian bytes are [bytes]. *)
Fixpoint le_value (bytes : list Z) : Z :=
  match bytes with
  | [] => 0
  | byte :: rest => byte + 256 * le_value rest
  end.

(** [buf.readDoubleLE(offset)] *)
Definition readDoubleLE (b : Js.buffer) (offset : nat) : option float :=
  if in_bounds b offset 8
  then Some (float64_of_bits (le_value (firstn 8 (skipn offset b))))
  else None.

End Buffer.

(** ** The register values the read paths emit (Modbus.node.ts and
    ModbusTrigger.node.ts): [value.readInt16BE(0)] on the two bytes of each
    register of the response *)

Module ModbusRead.

(** The two bytes of a 16-bit word, as the device sends them. *)
Definition bytes_of_word (w : Z) : Js.buffer := [w / 256; w mod 256].

(** [value.readInt16BE(0)] *)
Definition register (w : Z) : Z :=
  match Buffer.readInt16BE (bytes_of_word w) 0 with
  | Some r => r
  | None => 0
  end.

(** [data?.response.data?.map((value) => value.readInt16BE(0))] *)
Definition registers (words : list Z) : list Z := map register words.

(** The write path of Modbus.node.ts:
    [const buffer = Buffer.alloc(2); buffer.writeInt16BE(value);] *)
Definition write_buffer (value : Z) : option Js.buffer :=
  Buffer.writeInt16BE (Buffer.alloc 2) value 0.

End ModbusRead.

(** ** The trigger's change detection (ModbusTrigger.node.ts) *)

Module ModbusTrigger.

Section Readings.
(** The element type of a reading: a register value or a coil state, with
    its [===]. *)
Context {A : Type} (same : A -> A -> bool).

(** [data1.every((val, i) => val === data2[i])], for equal lengths *)
Fixpoint every_same (data1 data2 : list A) : bool :=
  match data1, data2 with
  | [], _ => true
  | val :: rest1, val2 :: rest2 => same val val2 && every_same rest1 rest2
  | _ :: _, [] => false
  end.

(** [compareData]: [None] is [undefined]. *)
Definition compareData (data1 data2 : option (list A)) : bool :=
  match data1, data2 with
  | Some d1, Some d2 =>
    if negb (List.length d1 =? List.length d2)%nat then false else every_same d1 d2
  | _, _ => false
  end.

(** One poll in trigger mode, on the reading [currentData]: the new
    [previousData] and what is emitted. *)
Definition poll (previousData : option (list A)) (currentData : list A)
    : option (list A) * option (list A) :=
  if negb (compareData previousData (Some currentData))
  then (Some currentData, Some currentData)
  else (previousData, None).

(** The successive polls of trigger mode: what each of them emits. *)
Fixpoint polls (previousData : option (list A)) (readings : list (list A))
    : list (option (list A)) :=
  match readings with
  | [] => []
  | currentData :: rest =>
    let '(previousData', emitted) := poll previousData currentData in
    emitted :: polls previousData' rest
  end.





End Readings.

End ModbusTrigger.

(** ** The converter node, version 1 (ModbusDataConverter.node.ts) *)

Module ConverterNode.

Module Result := ConversionResult.

(** Get default value for data type *)
Definition getDefaultValue (dataType : string) : Js.value :=
  if existsb (String.eqb dataType)
       ["int16"; "uint16"; "int32"; "uint32"; "float32"; "scaled"]
  then Js.number 0
  else if String.eqb dataType "bitfield" then Js.boolean false
  else if String.eqb dataType "bcd" then Js.number 0
  else Js.null.

(** [`${result.error}`]: an absent error prints as [undefined]. *)
Definition render_error (error : option string) : string :=
  match error with Some e => e | None => "undefined" end.

(** [{ ...result, value: getDefaultValue(result.dataType), valid: true,
       error: undefined }] *)
Definition defaultResult (result : Result.t) : Result.t :=
  Result.set_error
    (Result.set_valid
       (Result.set_value result (getDefaultValue (Result.dataType result))) true)
    None.

(** The loop of [handleConversionErrors], with [validResults] as it stands. *)
Fixpoint handle_loop (errorHandling : string) (itemIndex : Z)
    (results validResults : list Result.t) : Js.completion (list Result.t) :=
  match results with
  | [] => Js.Normal validResults
  | result :: rest =>
    if Result.valid result
    then handle_loop errorHandling itemIndex rest (validResults ++ [result])%list
    else if String.eqb errorHandling "stop_on_error"
    then Js.Throw (Js.ErrorObject
           ("Conversion error in item " ++ Js.ToString_int itemIndex ++ ": "
            ++ render_error (Result.error result))%string)
    else if String.eqb errorHandling "default_values"
    then handle_loop errorHandling itemIndex rest (validResults ++ [defaultResult result])%list
    else (* For 'skip_invalid', we just don't add the result *)
      handle_loop errorHandling itemIndex rest validResults
  end.

(** Handle conversion errors based on error handling strategy *)
Definition handleConversionErrors (results : list Result.t) (errorHandling : string)
    (itemIndex : Z) : Js.completion (list Result.t) :=
  handle_loop errorHandling itemIndex results [].

End ConverterNode.

(** ** Quick conversion (QuickConvert.ts) *)

Module QuickConvert.

Module Rule := ConversionRule.
Module Result := ConversionResult.

(** The own properties of the [data] object, by key. *)
Definition Data : Type := string -> option Js.value.

Definition empty : Data := fun _ => None.

(** [data[key] = value] on an object created by a literal: assigning to
    [__proto__] creates no own property. *)
Definition assign (data : Data) (key : string) (value : Js.value) : Data :=
  if String.eqb key "__proto__" then data
  else fun k => if String.eqb k key then Some value else data k.

(** [interface QuickConvertResult], as [customConvert] fills it. *)
Record QuickConvertResult : Type := {
  success : bool;
  data : Data;
  errors : option (list string);
  conversionsApplied : Z
}.

(** The [for] loop of [customConvert]: [data] and [errors] as they stand. *)
Fixpoint collect (results : list Result.t) (data : Data) (errors : list string)
    : Data * list string :=
  match results with
  | [] => (data, errors)
  | result :: rest =>
    if Result.valid result
    then collect rest (assign data (Result.name result) (Result.value result)) errors
    else collect rest data
           (errors ++ [(Result.name result ++ ": "
                        ++ ConverterNode.render_error (Result.error result))%string])%list
  end.

Section WithHost.
Context `{Js.Host}.

(** Convert using custom rules *)
Definition customConvert (registers : list Z) (rules : list Rule.t) : QuickConvertResult :=
  let results := DataConversionUtils.convertMultiple registers rules in
  let '(data, errors) := collect results empty [] in
  {| success := (List.length errors =? 0)%nat;
     data := data;
     errors := match errors with [] => None | _ => Some errors end;
     conversionsApplied := Js.length (filter Result.valid results) |}.

End WithHost.

End QuickConvert.

(** ** Quick mode of the converter node, version 4 (the standalone functions
    of ModbusDataConverter.node.ts) *)

Module QuickMode.

Local Open Scope js_scope.

(** How the [while (value > 0)] loop of [convertBCD] ends: with [result], at
    an invalid digit, or not within the iterations allowed. *)
Inductive Outcome : Type :=
| Done (result : Z)
| InvalidDigit
| Unfinished.

(** The loop, for at most [fuel] iterations. *)
Fixpoint convertBCD_loop (fuel : nat) (value result multiplier : Z) : Outcome :=
  match fuel with
  | O => Unfinished
  | S fuel' =>
    if value >? 0 then
      let digit := value .& 15 in
      if digit >? 9 then InvalidDigit
      else convertBCD_loop fuel' (value >> 4) (result + digit * multiplier) (multiplier * 10)
    else Done result
  end.

(** Convert BCD (Binary Coded Decimal) to regular decimal.  Nine iterations
    always suffice: the first one leaves a 32-bit integer shifted right by
    four, and every later one shifts it again. *)
Definition convertBCD (value : Z) : float :=
  match convertBCD_loop 9 value 0 1 with
  | Done result => Js.of_int result
  | InvalidDigit => nan (* Invalid BCD *)
  | Unfinished => nan
  end.

(** [extractBits]: the properties [bit_0] to [bit_15], in insertion order. *)
Definition extractBits (value : Z) : list (string * bool) :=
  map (fun i => (("bit_" ++ Js.ToString_int i)%string,
                 negb ((value .& (1 << i)) =? 0)))
      [0; 1; 2; 3; 4; 5; 6; 7; 8; 9; 10; 11; 12; 13; 14; 15].

(** [convertToDouble]; [None] is [null].  [memory] is what
    [Buffer.allocUnsafe(8)] returns: eight bytes of unspecified content (the
    first eight of [memory], zero where it is shorter). *)
Definition convertToDouble (memory : Js.buffer) (registers : list Z) (bigEndian : bool)
    : option float :=
  if Js.length registers <? 4 then None
  else
    let reg i := Js.bits (Js.index registers i) in
    let buffer := firstn 8 (memory ++ repeat 0 8)%list in
    let written :=
      if bigEndian then
        match Buffer.writeUInt16BE buffer (reg 0) 0 with
        | Some b =>
          match Buffer.writeUInt16BE b (reg 1) 2 with
          | Some b =>
            match Buffer.writeUInt16BE b (reg 2) 4 with
            | Some b => Buffer.writeUInt16BE b (reg 3) 6
            | None => None
            end
          | None => None
          end
        | None => None
        end
      else
        match Buffer.writeUInt16LE buffer (reg 3) 0 with
        | Some b =>
          match Buffer.writeUInt16LE b (reg 2) 2 with
          | Some b =>
            match Buffer.writeUInt16LE b (reg 1) 4 with
            | Some b => Buffer.writeUInt16LE b (reg 0) 6
            | None => None
            end
          | None => None
          end
        | None => None
        end in
    match written with
    | Some b => Buffer.readDoubleLE b 0
    | None => None
    end.

End QuickMode.

(** ** Sample rules and results for the instances below *)

Module Sample.

Definition with_bits (r : ConversionRule.t) (bitMask bitPosition bitLength : option Z)
    : ConversionRule.t :=
  {| ConversionRule.name := ConversionRule.name r;
     ConversionRule.startRegister := ConversionRule.startRegister r;
     ConversionRule.dataType := ConversionRule.dataType r;
     ConversionRule.byteOrder := ConversionRule.byteOrder r;
     ConversionRule.wordSwap := ConversionRule.wordSwap r;
     ConversionRule.scaleFactor := ConversionRule.scaleFactor r;
     ConversionRule.offset := ConversionRule.offset r;
     ConversionRule.decimalPlaces := ConversionRule.decimalPlaces r;
     ConversionRule.bitMask := bitMask;
     ConversionRule.bitPosition := bitPosition;
     ConversionRule.bitLength := bitLength;
     ConversionRule.validation := ConversionRule.validation r;
     ConversionRule.unitConversion := ConversionRule.unitConversion r |}.

(** Two bits from position 2, bit 15 alone, and a mask that comes with a
    position. *)
Definition bit_range : ConversionRule.t :=
  with_bits (Example.rule "mode" 0 "bitfield") None (Some 2) (Some 2).

Definition single_bit : ConversionRule.t :=
  with_bits (Example.rule "alarm" 0 "bitfield") None (Some 15) None.

Definition masked : ConversionRule.t :=
  with_bits (Example.rule "low byte" 0 "bitfield") (Some 255) (Some 3) None.

(** A valid result and an invalid one. *)
Definition good : ConversionResult.t :=
  {| ConversionResult.name := "speed";
     ConversionResult.value := Js.number 1500;
     ConversionResult.originalValue := Js.number 1500;
     ConversionResult.dataType := "uint16";
     ConversionResult.valid := true;
     ConversionResult.error := None;
     ConversionResult.metadata := None |}.

Definition bad : ConversionResult.t :=
  {| ConversionResult.name := "level";
     ConversionResult.value := Js.null;
     ConversionResult.originalValue := Js.null;
     ConversionResult.dataType := "float32";
     ConversionResult.valid := false;
     ConversionResult.error := Some "Not enough registers available. Required: 2, Available: 1";
     ConversionResult.metadata := None |}.

End Sample.

(** * Properties *)

(** ** The 32-bit coercions on words *)

Section Coercions.

Local Open Scope js_scope.

Lemma ToInt32_small (z : Z) :
  -2147483648 <= z < 2147483648 -> Js.ToInt32 z = z.
Proof.
  intros Hz. unfold Js.ToInt32.
  destruct (Z_lt_le_dec z 0) as [Hneg | Hpos].
  - assert (Hm : z mod 4294967296 = z + 4294967296).
    { symmetry. apply Z.mod_unique with (q := -1); lia. }
    rewrite Hm. cbv zeta.
    destruct (Z.geb_spec (z + 4294967296) 2147483648); lia.
  - rewrite Z.mod_small by lia. cbv zeta.
    destruct (Z.geb_spec z 2147483648); lia.
Qed.

Lemma ToInt32_range (z : Z) : -2147483648 <= Js.ToInt32 z < 2147483648.
Proof.
  unfold Js.ToInt32. cbv zeta.
  pose proof (Z.mod_pos_bound z 4294967296 ltac:(lia)) as Hm.
  destruct (Z.geb_spec (z mod 4294967296) 2147483648); lia.
Qed.

Lemma shiftCount_small (n : Z) : 0 <= n < 32 -> Js.shiftCount n = n.
Proof.
  intros Hn. unfold Js.shiftCount, Js.ToUint32.
  rewrite (Z.mod_small n 4294967296) by lia. apply Z.mod_small; lia.
Qed.

(** [x >> n] on a non-negative 32-bit integer is a division. *)
Lemma sar_div (x n : Z) :
  0 <= x < 2147483648 -> 0 <= n < 32 -> x >> n = x / 2 ^ n.
Proof.
  intros Hx Hn. unfold Js.sar.
  rewrite ToInt32_small, shiftCount_small by lia.
  apply Z.shiftr_div_pow2; lia.
Qed.

(** [x & (2^n - 1)] on a non-negative 32-bit integer is a remainder. *)
Lemma band_ones (x n : Z) :
  0 <= x < 2147483648 -> 0 <= n < 32 -> x .& (Z.ones n) = x mod 2 ^ n.
Proof.
  intros Hx Hn. unfold Js.band.
  assert (Hones : 0 <= Z.ones n < 2147483648).
  { rewrite Z.ones_equiv.
    assert (2 ^ n <= 2 ^ 31) by (apply Z.pow_le_mono_r; lia).
    assert (0 < 2 ^ n) by (apply Z.pow_pos_nonneg; lia).
    change (2 ^ 31) with 2147483648 in *. lia. }
  rewrite !ToInt32_small by lia.
  apply Z.land_ones; lia.
Qed.

Lemma lor_disjoint (a b : Z) : Z.land a b = 0 -> Z.lor a b = a + b.
Proof.
  intros Hab. rewrite <- Z.lxor_lor by exact Hab.
  symmetry. apply Z.add_nocarry_lxor. exact Hab.
Qed.

Lemma land_high_low (k lo : Z) : 0 <= lo < 65536 -> Z.land (k * 65536) lo = 0.
Proof.
  intros Hlo. apply Z.bits_inj'. intros n Hn.
  rewrite Z.land_spec, Z.bits_0.
  destruct (Z_lt_le_dec n 16) as [Hlow | Hhigh].
  - change 65536 with (2 ^ 16).
    rewrite Z.mul_pow2_bits_low by lia. reflexivity.
  - destruct (Z.eq_dec lo 0) as [-> | Hnz].
    + rewrite Z.bits_0. apply andb_false_r.
    + rewrite (Z.bits_above_log2 lo n); [apply andb_false_r | lia |].
      apply Z.lt_le_trans with 16; [| exact Hhigh].
      apply Z.log2_lt_pow2; [lia | change (2 ^ 16) with 65536; lia].
Qed.

(** [hi << 16] on a word: the product, wrapped into the signed range. *)
Lemma shl16_word (hi : Z) :
  0 <= hi <= 65535 ->
  hi << 16 = if hi <? 32768 then hi * 65536 else hi * 65536 - 4294967296.
Proof.
  intros Hhi. unfold Js.shl.
  rewrite (ToInt32_small hi), shiftCount_small by lia.
  rewrite Z.shiftl_mul_pow2 by lia. change (2 ^ 16) with 65536.
  destruct (Z.ltb_spec hi 32768).
  - apply ToInt32_small; lia.
  - unfold Js.ToInt32.
    assert (Hm : (hi * 65536) mod 4294967296 = hi * 65536) by (apply Z.mod_small; lia).
    rewrite Hm. cbv zeta.
    destruct (Z.geb_spec (hi * 65536) 2147483648); lia.
Qed.

(** [(hi << 16) | lo] on two words: the signed reading of [hi * 65536 + lo]. *)
Lemma assemble_signed (hi lo : Z) :
  0 <= hi <= 65535 -> 0 <= lo <= 65535 ->
  (hi << 16) .| lo = Spec.signed32 (hi * 65536 + lo).
Proof.
  intros Hhi Hlo. unfold Js.bor, Spec.signed32.
  rewrite (ToInt32_small (hi << 16)) by apply ToInt32_range.
  rewrite (ToInt32_small lo) by lia.
  rewrite shl16_word by exact Hhi.
  destruct (Z.ltb_spec hi 32768) as [Hsmall | Hbig].
  - rewrite lor_disjoint by (apply land_high_low; lia).
    destruct (Z.gtb_spec (hi * 65536 + lo) 2147483647); lia.
  - replace (hi * 65536 - 4294967296) with ((hi - 65536) * 65536) by lia.
    rewrite lor_disjoint by (apply land_high_low; lia).
    destruct (Z.gtb_spec (hi * 65536 + lo) 2147483647); lia.
Qed.

Lemma signed32_range (raw : Z) :
  0 <= raw < 4294967296 -> -2147483648 <= Spec.signed32 raw < 2147483648.
Proof.
  intros Hraw. unfold Spec.signed32.
  destruct (Z.gtb_spec raw 2147483647); lia.
Qed.

(** [x >>> 0] undoes the signed reading. *)
Lemma shru0_signed32 (raw : Z) :
  0 <= raw < 4294967296 -> Spec.signed32 raw >>> 0 = raw.
Proof.
  intros Hraw. unfold Js.shru, Js.ToUint32, Spec.signed32.
  rewrite shiftCount_small, Z.shiftr_0_r by lia.
  destruct (Z.gtb_spec raw 2147483647).
  - symmetry. apply Z.mod_unique with (q := -1); lia.
  - apply Z.mod_small; lia.
Qed.

End Coercions.

(** ** The integer decoders *)

Section Decoders.

Import DataConversionUtils.
Local Open Scope js_scope.

(** C2.  For every 16-bit word [w], the int16 decode is [w - 65536] when
    [w > 32767] and [w] otherwise, and it lies in [-32768, 32767]. *)
Theorem convertInt16_twos_complement (w : Z) (byteOrder : string) :
  0 <= w <= 65535 ->
  convertInt16 w byteOrder = (if w >? 32767 then w - 65536 else w)
  /\ -32768 <= convertInt16 w byteOrder <= 32767.
Proof.
  intros Hw. unfold convertInt16.
  destruct (Z.gtb_spec w 32767); split; (reflexivity || lia).
Qed.

Lemma convertInt16_twos_complement_witness :
  convertInt16 40000 "big_endian" = -25536
  /\ -32768 <= convertInt16 40000 "big_endian" <= 32767.
Proof.
  exact (convertInt16_twos_complement 40000 "big_endian" ltac:(lia)).
Defined.

(** The 32-bit decoders on a two-word window, registers selected. *)
Lemma convertUint32_window (w0 w1 : Z) (byteOrder : string) (wordSwap : bool) :
  convertUint32 [w0; w1] byteOrder (Some wordSwap)
  = let reg0 := if wordSwap then w1 else w0 in
    let reg1 := if wordSwap then w0 else w1 in
    if String.eqb byteOrder "big_endian"
    then ((reg0 << 16) .| reg1) >>> 0
    else ((reg1 << 16) .| reg0) >>> 0.
Proof. destruct wordSwap; reflexivity. Qed.

Lemma convertInt32_window (w0 w1 : Z) (byteOrder : string) (wordSwap : bool) :
  convertInt32 [w0; w1] byteOrder (Some wordSwap)
  = let reg0 := if wordSwap then w1 else w0 in
    let reg1 := if wordSwap then w0 else w1 in
    let value :=
      if String.eqb byteOrder "big_endian"
      then (reg0 << 16) .| reg1
      else (reg1 << 16) .| reg0 in
    if value >? 2147483647 then value - 4294967296 else value.
Proof. destruct wordSwap; reflexivity. Qed.

Lemma raw32_range (s : Spec.Setting) (w0 w1 : Z) :
  0 <= w0 <= 65535 -> 0 <= w1 <= 65535 -> 0 <= Spec.raw32 s w0 w1 < 4294967296.
Proof.
  intros H0 H1.
  destruct s as [[|] [|]];
    cbv [Spec.raw32 Spec.high Spec.low Spec.first Spec.second fst snd]; lia.
Qed.

Ltac settle_setting s :=
  destruct s as [[|] [|]];
  cbv [Spec.raw32 Spec.high Spec.low Spec.first Spec.second Spec.tag fst snd] in *;
  cbn [String.eqb Ascii.eqb Bool.eqb];
  cbv beta iota zeta.

Lemma convertUint32_raw32 (s : Spec.Setting) (w0 w1 : Z) :
  0 <= w0 <= 65535 -> 0 <= w1 <= 65535 ->
  convertUint32 [w0; w1] (Spec.tag (fst s)) (Some (snd s)) = Spec.raw32 s w0 w1.
Proof.
  intros H0 H1. pose proof (raw32_range s w0 w1 H0 H1) as Hraw.
  rewrite convertUint32_window.
  settle_setting s; rewrite assemble_signed by lia; apply shru0_signed32; lia.
Qed.

Lemma convertInt32_signed32 (s : Spec.Setting) (w0 w1 : Z) :
  0 <= w0 <= 65535 -> 0 <= w1 <= 65535 ->
  convertInt32 [w0; w1] (Spec.tag (fst s)) (Some (snd s))
  = Spec.signed32 (Spec.raw32 s w0 w1).
Proof.
  intros H0 H1. pose proof (raw32_range s w0 w1 H0 H1) as Hraw.
  pose proof (signed32_range _ Hraw) as Hs.
  rewrite convertInt32_window.
  settle_setting s; rewrite assemble_signed by lia;
    match goal with |- (if ?v >? _ then _ else _) = _ =>
      destruct (Z.gtb_spec v 2147483647); [lia | reflexivity] end.
Qed.

(** C3.  For two words and every [{byteOrder, wordSwap}] setting, with high
    and low chosen as the specification says, the uint32 decode is
    [high * 65536 + low], it lies in [0, 2^32), and the int32 decode is the
    two's complement reading of that same quantity. *)
Theorem convert32_assembly (s : Spec.Setting) (w0 w1 : Z) :
  0 <= w0 <= 65535 -> 0 <= w1 <= 65535 ->
  let uint32 := convertUint32 [w0; w1] (Spec.tag (fst s)) (Some (snd s)) in
  let int32 := convertInt32 [w0; w1] (Spec.tag (fst s)) (Some (snd s)) in
  uint32 = Spec.high s w0 w1 * 65536 + Spec.low s w0 w1
  /\ 0 <= uint32 < 2 ^ 32
  /\ int32 = (if uint32 >? 2147483647 then uint32 - 2 ^ 32 else uint32).
Proof.
  intros H0 H1 uint32 int32. subst uint32 int32.
  rewrite convertUint32_raw32, convertInt32_signed32 by assumption.
  pose proof (raw32_range s w0 w1 H0 H1) as Hraw.
  change (2 ^ 32) with 4294967296.
  repeat split; try lia; reflexivity.
Qed.

Lemma convert32_assembly_witness :
  convertUint32 [65535; 1] "little_endian" (Some true) = 65535 * 65536 + 1
  /\ 0 <= convertUint32 [65535; 1] "little_endian" (Some true) < 2 ^ 32
  /\ convertInt32 [65535; 1] "little_endian" (Some true) = -65535.
Proof.
  exact (convert32_assembly (Spec.little_endian, true) 65535 1 ltac:(lia) ltac:(lia)).
Defined.


(** The four settings do not give four pairwise distinct assemblies: words 1
    and 2 under (big_endian, no swap) and under (little_endian, swap)
    assemble to the same 65538. *)
Lemma four_settings_not_pairwise_distinct :
  ~ (forall (w0 w1 : Z) (s1 s2 : Spec.Setting),
        0 <= w0 <= 65535 -> 0 <= w1 <= 65535 -> w0 <> w1 -> s1 <> s2 ->
        convertUint32 [w0; w1] (Spec.tag (fst s1)) (Some (snd s1))
        <> convertUint32 [w0; w1] (Spec.tag (fst s2)) (Some (snd s2))).
Proof.
  intros Hclaim.
  apply (Hclaim 1 2 (Spec.big_endian, false) (Spec.little_endian, true));
    try lia; [discriminate | reflexivity].
Qed.




(** The byte decode of the specification, through the shifts and masks. *)
Lemma byteDecimal_bits (byte : Z) :
  0 <= byte <= 255 ->
  ((byte >> 4) .& 15) * 10 + (byte .& 15) = Spec.byteDecimal byte.
Proof.
  intros Hb. unfold Spec.byteDecimal.
  rewrite sar_div by lia. change (2 ^ 4) with 16.
  assert (Hq : 0 <= byte / 16 < 16).
  { split; [apply Z.div_pos; lia | apply Z.div_lt_upper_bound; lia]. }
  change 15 with (Z.ones 4).
  rewrite !band_ones by lia. change (2 ^ 4) with 16.
  rewrite (Z.mod_small (byte / 16) 16) by lia. reflexivity.
Qed.

(** C9.  On a 16-bit word the rule-based BCD decode is
    [highByteDecimal * 100 + lowByteDecimal], each byte decoded as
    [nibbleHigh * 10 + nibbleLow]; 0x1234 decodes to 1234 and 0x0000 to 0. *)
Theorem convertBCD_digits (w : Z) (byteOrder : string) :
  0 <= w <= 65535 ->
  convertBCD w byteOrder
  = Spec.byteDecimal (w / 256) * 100 + Spec.byteDecimal (w mod 256)
  /\ convertBCD 4660 byteOrder = 1234
  /\ convertBCD 0 byteOrder = 0.
Proof.
  intros Hw. split; [| split; reflexivity].
  unfold convertBCD. cbv zeta.
  assert (Hhi : 0 <= w / 256 < 256).
  { split; [apply Z.div_pos; lia | apply Z.div_lt_upper_bound; lia]. }
  pose proof (Z.mod_pos_bound w 256 ltac:(lia)) as Hlo.
  assert (Ehi : (w >> 8) .& 255 = w / 256).
  { rewrite sar_div by lia. change (2 ^ 8) with 256.
    change 255 with (Z.ones 8). rewrite band_ones by lia.
    change (2 ^ 8) with 256. apply Z.mod_small; lia. }
  assert (Elo : w .& 255 = w mod 256).
  { change 255 with (Z.ones 8). rewrite band_ones by lia. reflexivity. }
  rewrite Ehi, Elo, !byteDecimal_bits by lia. reflexivity.
Qed.

Lemma convertBCD_digits_witness :
  convertBCD 39321 "big_endian" = 9999.
Proof.
  exact (proj1 (convertBCD_digits 39321 "big_endian" ltac:(lia))).
Defined.

(** C10.  On every register window, for int32, uint32 and float32 alike,
    decoding as little-endian with word swap [s] gives the value of decoding
    as big-endian with word swap [negb s]. *)
Theorem byteOrder_flip_is_wordSwap_flip (registers : list Z) (s : bool) :
  convertInt32 registers "little_endian" (Some s)
  = convertInt32 registers "big_endian" (Some (negb s))
  /\ convertUint32 registers "little_endian" (Some s)
     = convertUint32 registers "big_endian" (Some (negb s))
  /\ convertFloat32 registers "little_endian" (Some s)
     = convertFloat32 registers "big_endian" (Some (negb s)).
Proof.
  unfold convertInt32, convertUint32, convertFloat32, wordSwap_default.
  cbn [String.eqb Ascii.eqb Bool.eqb]. cbv beta iota zeta.
  destruct s; cbn [negb]; repeat split; reflexivity.
Qed.

End Decoders.

(** ** The decoder pipeline *)

Section Pipeline.

Import DataConversionUtils.
Context `{Js.Host}.

(** The footprint table of the data model is what [getRequiredRegisters]
    computes on the eight data types. *)
Lemma getRequiredRegisters_footprint (dataType : string) (footprint : Z) :
  Spec.footprint dataType = Some footprint ->
  getRequiredRegisters dataType = footprint.
Proof.
  unfold Spec.footprint, getRequiredRegisters. cbn [existsb].
  repeat match goal with
         | |- context [String.eqb dataType ?s] => destruct (String.eqb dataType s)
         end; cbn [orb]; congruence.
Qed.

Lemma getRequiredRegisters_values (dataType : string) :
  getRequiredRegisters dataType = 1 \/ getRequiredRegisters dataType = 2.
Proof.
  unfold getRequiredRegisters.
  repeat match goal with
         | |- context [String.eqb dataType ?s] => destruct (String.eqb dataType s)
         end; auto.
Qed.

Lemma index_skipn {A : Type} (a : list A) (k i : nat) :
  nth_error (skipn k a) i = nth_error a (k + i).
Proof.
  revert a. induction k as [| k IH]; intros a; [reflexivity |].
  destruct a as [| x a]; [destruct i; reflexivity | apply IH].
Qed.

(** X2.  The window of a rule that passed the availability check, for a
    non-negative [startRegister]: [n] registers, the [i]-th of which is the
    register at [startRegister + i] of the snapshot. *)
Theorem slice_window {A : Type} (a : list A) (start n : Z) :
  0 <= start -> 0 <= n -> start + n <= Js.length a ->
  Js.length (Js.slice a start (start + n)) = n
  /\ (forall i, 0 <= i < n ->
        Js.index (Js.slice a start (start + n)) i = Js.index a (start + i)
        /\ Js.index a (start + i) <> None).
Proof.
  intros Hstart Hn Hfit. unfold Js.slice, Js.relativeIndex, Js.length in *.
  destruct (Z.ltb_spec start 0); [lia |].
  destruct (Z.ltb_spec (start + n) 0); [lia |].
  rewrite !Z.min_l by lia.
  replace (start + n - start) with n by lia.
  assert (Hlen : List.length (skipn (Z.to_nat start) a) = (List.length a - Z.to_nat start)%nat)
    by apply length_skipn.
  split.
  - rewrite length_firstn, Hlen. lia.
  - intros i Hi. unfold Js.index.
    destruct (Z.ltb_spec i 0); [lia |].
    destruct (Z.ltb_spec (start + i) 0); [lia |].
    rewrite nth_error_firstn.
    destruct (Nat.ltb_spec (Z.to_nat i) (Z.to_nat n)); [| lia].
    rewrite index_skipn.
    replace (Z.to_nat start + Z.to_nat i)%nat with (Z.to_nat (start + i)) by lia.
    split; [reflexivity |].
    apply nth_error_Some. lia.
Qed.

Lemma slice_window_witness :
  Js.length (Js.slice [10; 20; 30; 40] 1 (1 + 2)) = 2.
Proof.
  exact (proj1 (slice_window [10; 20; 30; 40] 1 2 ltac:(lia) ltac:(lia)
                  ltac:(vm_compute; discriminate))).
Defined.

(** The [switch] of [convertData] on a window whose first register is
    defined: each data type goes to its decoder. *)
Lemma decode_dispatch (register : Z) (others : list Z) (rule : Rule.t) :
  let dataRegisters := register :: others in
  let dataType := Rule.dataType rule in
  let byteOrder := Rule.byteOrder rule in
  (dataType = "int16"%string ->
   decode dataRegisters rule
   = Some (Js.number (Js.of_int (convertInt16 register byteOrder))))
  /\ (dataType = "uint16"%string ->
      decode dataRegisters rule
      = Some (Js.number (Js.of_int (convertUint16 register byteOrder))))
  /\ (dataType = "int32"%string ->
      decode dataRegisters rule
      = Some (Js.number (Js.of_int (convertInt32 dataRegisters byteOrder (Rule.wordSwap rule)))))
  /\ (dataType = "uint32"%string ->
      decode dataRegisters rule
      = Some (Js.number (Js.of_int (convertUint32 dataRegisters byteOrder (Rule.wordSwap rule)))))
  /\ (dataType = "float32"%string ->
      decode dataRegisters rule
      = Some (Js.number (convertFloat32 dataRegisters byteOrder (Rule.wordSwap rule))))
  /\ (dataType = "scaled"%string ->
      decode dataRegisters rule = Some (Js.number (convertScaled register rule)))
  /\ (dataType = "bitfield"%string ->
      decode dataRegisters rule = Some (convertBitfield register rule))
  /\ (dataType = "bcd"%string ->
      decode dataRegisters rule
      = Some (Js.number (Js.of_int (convertBCD register byteOrder)))).
Proof.
  cbv zeta. unfold decode. cbv zeta.
  repeat split; intros ->; reflexivity.
Qed.

(** C5.  When the snapshot is shorter than [startRegister] plus the
    footprint of the rule's data type, [convertData] returns the initial
    result ([valid = false], [value] and [originalValue] still [null]) with
    the error that reports the required and the available register counts;
    the footprint is 1 for int16, uint16, scaled, bitfield and bcd, and 2 for
    int32, uint32 and float32. *)
Theorem convertData_insufficient_registers (registers : list Z) (rule : Rule.t) :
  Js.length registers
  < Rule.startRegister rule + getRequiredRegisters (Rule.dataType rule) ->
  convertData registers rule
  = Result.set_error (initial_result rule)
      (Some ("Not enough registers available. Required: "
             ++ Js.ToString_int (getRequiredRegisters (Rule.dataType rule))
             ++ ", Available: "
             ++ Js.Number_toString
                  (Js.of_int (Js.length registers - Rule.startRegister rule)))%string)
  /\ Result.valid (convertData registers rule) = false
  /\ Result.value (convertData registers rule) = Js.null
  /\ (forall footprint, Spec.footprint (Rule.dataType rule) = Some footprint ->
        getRequiredRegisters (Rule.dataType rule) = footprint).
Proof.
  intros Hshort.
  assert (Hresult : convertData registers rule
                    = Result.set_error (initial_result rule)
                        (Some ("Not enough registers available. Required: "
                               ++ Js.ToString_int (getRequiredRegisters (Rule.dataType rule))
                               ++ ", Available: "
                               ++ Js.Number_toString
                                    (Js.of_int (Js.length registers
                                                - Rule.startRegister rule)))%string)).
  { unfold convertData, convertData_try. cbv zeta.
    apply Z.ltb_lt in Hshort. rewrite Hshort. reflexivity. }
  rewrite Hresult. repeat split.
  apply getRequiredRegisters_footprint.
Qed.

(** The [try] block throws when a numeric value is to be rounded to a number
    of decimal places outside [0, 100]: the RangeError of [toFixed]. *)
Lemma toFixed_throws (x : float) (digits : Z) :
  digits < 0 \/ 100 < digits ->
  Js.toFixed x digits = Js.Throw (Js.ErrorObject Js.toFixed_RangeError_message).
Proof.
  intros Hd. unfold Js.toFixed.
  destruct (Z.ltb_spec digits 0); [reflexivity |].
  destruct (Z.ltb_spec 100 digits); [reflexivity | lia].
Qed.

(** The only abrupt completion of the [try] block is that RangeError. *)
Lemma convertData_try_failure (registers : list Z) (rule : Rule.t) (failure : Js.thrown) :
  convertData_try registers rule = Js.Throw failure ->
  failure = Js.ErrorObject Js.toFixed_RangeError_message
  /\ exists digits, Rule.decimalPlaces rule = Some digits /\ (digits < 0 \/ 100 < digits).
Proof.
  unfold convertData_try. cbv zeta.
  destruct (Js.length registers <? _); [discriminate |].
  destruct (decode _ rule) as [v |]; [| discriminate].
  match goal with
  | |- Js.bind ?rounding _ = _ -> _ => destruct rounding as [r | e] eqn:Erounding
  end; cbn [Js.bind].
  - destruct (Rule.validation rule) as [validation |]; [| discriminate].
    destruct (Rule.enabled validation); [| discriminate].
    destruct (validateValue (Result.value r) validation) as [ok err]. discriminate.
  - intros [= <-].
    destruct (Rule.decimalPlaces rule) as [d |]; [| discriminate].
    match type of Erounding with
    | match ?value with _ => _ end = _ => destruct value; try discriminate
    end.
    unfold Js.toFixed in Erounding.
    destruct (Z.ltb_spec d 0) as [Hneg | Hnonneg]; cbn [orb] in Erounding.
    + injection Erounding as <-. split; [reflexivity |]. exists d. split; [reflexivity | lia].
    + destruct (Z.ltb_spec 100 d) as [Hbig | Hsmall]; cbn [Js.bind] in Erounding.
      * injection Erounding as <-. split; [reflexivity |]. exists d. split; [reflexivity | lia].
      * discriminate.
Qed.

(** Conversely, a decoded number and a [decimalPlaces] outside [0, 100] make
    the [try] block throw. *)
Lemma convertData_try_throws (registers : list Z) (rule : Rule.t) (x : float) (digits : Z) :
  Rule.startRegister rule + getRequiredRegisters (Rule.dataType rule)
  <= Js.length registers ->
  decode (Js.slice registers (Rule.startRegister rule)
            (Rule.startRegister rule + getRequiredRegisters (Rule.dataType rule))) rule
  = Some (Js.number x) ->
  Rule.decimalPlaces rule = Some digits ->
  digits < 0 \/ 100 < digits ->
  convertData_try registers rule
  = Js.Throw (Js.ErrorObject Js.toFixed_RangeError_message).
Proof.
  intros Hfit Hdecode Hdigits Hrange. unfold convertData_try. cbv zeta.
  destruct (Z.ltb_spec (Js.length registers)
              (Rule.startRegister rule + getRequiredRegisters (Rule.dataType rule)));
    [lia |].
  rewrite Hdecode, Hdigits. cbn [Result.set_value Result.value].
  destruct (Rule.unitConversion rule);
    cbn [Result.set_value Result.value]; rewrite toFixed_throws by exact Hrange;
    reflexivity.
Qed.

(** C1.  [convertData] is a total function into [ConversionResult]: what the
    [try] block returns is returned, and whatever it throws is turned by the
    handler into a result with [valid = false], a [null] value and the
    failure's message as [error].  The one failure the block can meet is the
    RangeError of [toFixed], for a [decimalPlaces] outside [0, 100]. *)
Theorem convertData_never_throws (registers : list Z) (rule : Rule.t) :
  (forall result, convertData_try registers rule = Js.Normal result ->
     convertData registers rule = result)
  /\ (forall failure, convertData_try registers rule = Js.Throw failure ->
        Result.valid (convertData registers rule) = false
        /\ Result.value (convertData registers rule) = Js.null
        /\ Result.name (convertData registers rule) = Rule.name rule
        /\ Result.dataType (convertData registers rule) = Rule.dataType rule
        /\ Result.error (convertData registers rule)
           = Some match failure with
                  | Js.ErrorObject message => message
                  | Js.NotAnError => "Unknown conversion error"
                  end
        /\ failure = Js.ErrorObject Js.toFixed_RangeError_message).
Proof.
  unfold convertData. split.
  - intros result Htry. rewrite Htry. reflexivity.
  - intros failure Htry. rewrite Htry. repeat split.
    apply (convertData_try_failure registers rule failure Htry).
Qed.

(** C6.  [convertMultiple] returns one result per rule, in rule order, the
    i-th being [convertData] of the i-th rule alone; so replacing one rule
    leaves every other rule's result as it was. *)
Theorem convertMultiple_pointwise (registers : list Z) (rules : list Rule.t) :
  List.length (convertMultiple registers rules) = List.length rules
  /\ (forall i, nth_error (convertMultiple registers rules) i
                = option_map (convertData registers) (nth_error rules i))
  /\ (forall before rule rule' after i,
        rules = (before ++ rule :: after)%list ->
        i <> List.length before ->
        nth_error (convertMultiple registers (before ++ rule' :: after)) i
        = nth_error (convertMultiple registers rules) i).
Proof.
  unfold convertMultiple. split; [apply length_map |].
  split; [intros i; apply nth_error_map |].
  intros before rule rule' after i -> Hi.
  rewrite !nth_error_map. f_equal.
  destruct (Nat.lt_ge_cases i (List.length before)) as [Hlt | Hge].
  - rewrite !nth_error_app1 by exact Hlt. reflexivity.
  - rewrite !nth_error_app2 by exact Hge.
    destruct (i - List.length before)%nat eqn:E; [lia | reflexivity].
Qed.


End Pipeline.

(** ** Unit conversion *)

Section Units.

Import DataConversionUtils.



(** Every entry of the catalogue has its reverse entry in the catalogue. *)
Lemma CONVERSIONS_reverse_closed :
  forallb
    (fun c =>
       existsb (fun c' => String.eqb (IndustrialUnits.from c') (IndustrialUnits.to c)
                          && String.eqb (IndustrialUnits.to c') (IndustrialUnits.from c))
               IndustrialUnits.CONVERSIONS)
    IndustrialUnits.CONVERSIONS = true.
Proof. vm_compute. reflexivity. Qed.

(** X1.  A pair without a direct entry has no reverse entry either: the
    reverse lookup of [convert] never succeeds and [inverseConvert] is never
    applied.  In particular no temperature pair, whose formulas are affine,
    is converted through the inverse. *)
Theorem reverse_lookup_never_succeeds (value : float) (fromUnit toUnit : string) :
  (IndustrialUnits.find_conversion fromUnit toUnit = None ->
   IndustrialUnits.find_conversion toUnit fromUnit = None)
  /\ IndustrialUnits.convert_units value fromUnit toUnit
     = if String.eqb fromUnit toUnit then Js.Normal value
       else match IndustrialUnits.find_conversion fromUnit toUnit with
            | Some conversion => Js.Normal (IndustrialUnits.convert conversion value)
            | None =>
              Js.Throw (Js.ErrorObject
                ("No conversion available from " ++ fromUnit ++ " to " ++ toUnit)%string)
            end.
Proof.
  assert (Hclosed : IndustrialUnits.find_conversion fromUnit toUnit = None ->
                    IndustrialUnits.find_conversion toUnit fromUnit = None).
  { intros Hdirect. unfold IndustrialUnits.find_conversion in *.
    destruct (find _ IndustrialUnits.CONVERSIONS) as [c |] eqn:Ereverse in |- *;
      [| reflexivity].
    exfalso. apply find_some in Ereverse as [Hin Hc].
    apply andb_true_iff in Hc as [Hfrom Hto].
    apply String.eqb_eq in Hfrom, Hto.
    pose proof (proj1 (forallb_forall _ _) CONVERSIONS_reverse_closed c Hin) as Hex.
    apply existsb_exists in Hex as (c' & Hin' & Hc').
    apply andb_true_iff in Hc' as [Hfrom' Hto'].
    apply String.eqb_eq in Hfrom', Hto'.
    pose proof (find_none _ _ Hdirect c' Hin') as Hnone. cbv beta in Hnone.
    rewrite Hfrom', Hto', Hfrom, Hto, !String.eqb_refl in Hnone. discriminate. }
  split; [exact Hclosed |].
  unfold IndustrialUnits.convert_units.
  destruct (String.eqb fromUnit toUnit); [reflexivity |].
  destruct (IndustrialUnits.find_conversion fromUnit toUnit) eqn:Edirect; [reflexivity |].
  rewrite (Hclosed eq_refl). reflexivity.
Qed.

Lemma reverse_lookup_never_succeeds_witness :
  IndustrialUnits.find_conversion "ampere" "volt" = None.
Proof.
  exact (proj1 (reverse_lookup_never_succeeds 0 "volt" "ampere") eq_refl).
Defined.

(** The words 16968 and 41943 of the documented float32 example decode to
    50.16; the words of 23.45 are 16827 and 39322. *)
Lemma float32_reference_words :
  convertFloat32 [16968; 41943] "big_endian" None = 50.159999847412109%float
  /\ convertFloat32 [16827; 39322] "big_endian" None = 23.450000762939453%float.
Proof. split; vm_compute; reflexivity. Qed.

End Units.




(** ** The rule validator *)

Section Validation.

Import ValidationUtils.
Context `{Js.Host}.

Lemma append_assoc (a b c : string) : ((a ++ b) ++ c = a ++ (b ++ c))%string.
Proof. induction a as [| ch a IH]; cbn; [reflexivity | rewrite IH; reflexivity]. Qed.

Lemma append_empty_r (a : string) : (a ++ "")%string = a.
Proof. induction a as [| ch a IH]; cbn; [reflexivity | rewrite IH; reflexivity]. Qed.

(** Every joined string occurs in the joined text. *)
Lemma concat_mentions (sep x : string) (l : list string) :
  In x l -> exists pre post, String.concat sep l = (pre ++ x ++ post)%string.
Proof.
  induction l as [| y l IH]; intros Hin; [destruct Hin |].
  destruct Hin as [-> | Hin].
  - destruct l as [| z l].
    + exists ""%string, ""%string. cbn. rewrite append_empty_r. reflexivity.
    + exists ""%string, (sep ++ String.concat sep (z :: l))%string. reflexivity.
  - destruct (IH Hin) as (pre & post & E).
    destruct l as [| z l]; [destruct Hin |].
    exists (y ++ sep ++ pre)%string, post.
    change (String.concat sep (y :: z :: l))
      with (y ++ sep ++ String.concat sep (z :: l))%string.
    rewrite E, !append_assoc. reflexivity.
Qed.

Lemma getRegistersNeeded_footprint (dataType : string) (footprint : Z) :
  Spec.footprint dataType = Some footprint ->
  getRegistersNeeded dataType = footprint.
Proof.
  unfold Spec.footprint, getRegistersNeeded. cbn [existsb].
  repeat match goal with
         | |- context [String.eqb dataType ?s] => destruct (String.eqb dataType s)
         end; cbn [orb]; congruence.
Qed.

Lemma getRegistersNeeded_positive (dataType : string) : 1 <= getRegistersNeeded dataType.
Proof.
  unfold getRegistersNeeded.
  repeat match goal with
         | |- context [String.eqb dataType ?s] => destruct (String.eqb dataType s)
         end; lia.
Qed.

(** [rangesOverlap] decides the intersection of two non-empty windows. *)
Lemma rangesOverlap_intersect (range1 range2 : RegisterRange) :
  start range1 <= end_ range1 -> start range2 <= end_ range2 ->
  (rangesOverlap range1 range2 = true
   <-> Spec.windows_intersect (start range1) (end_ range1) (start range2) (end_ range2)).
Proof.
  intros H1 H2. unfold rangesOverlap, Spec.windows_intersect.
  rewrite andb_true_iff, !Z.leb_le. split.
  - intros [Ha Hb]. exists (Z.max (start range1) (start range2)). lia.
  - intros (k & Hk1 & Hk2). lia.
Qed.

Lemma rangeOf_nonempty (rule : Rule.t) : start (rangeOf rule) <= end_ (rangeOf rule).
Proof.
  unfold rangeOf. cbn.
  pose proof (getRegistersNeeded_positive (Rule.dataType rule)). lia.
Qed.

(** The nested loops report every overlapping pair, the earlier range first. *)
Lemma overlapMessages_reports (earlier : list RegisterRange)
    (range1 : RegisterRange) (later : list RegisterRange) (range2 : RegisterRange) :
  In range2 later -> rangesOverlap range1 range2 = true ->
  In (name range1 ++ " and " ++ name range2)%string
     (overlapMessages (earlier ++ range1 :: later)).
Proof.
  intros Hin Hov. induction earlier as [| r earlier IH]; cbn [app overlapMessages].
  - apply in_or_app. left.
    apply (in_map (fun range2 => (name range1 ++ " and " ++ name range2)%string)).
    apply filter_In. split; assumption.
  - apply in_or_app. right. exact IH.
Qed.

Lemma registerRanges_app (rules1 rules2 : list Rule.t) :
  registerRanges (rules1 ++ rules2) = (registerRanges rules1 ++ registerRanges rules2)%list.
Proof. apply flat_map_app. Qed.

Lemma registerRanges_cons (rule : Rule.t) (rules : list Rule.t) :
  Rule.dataType rule <> ""%string ->
  registerRanges (rule :: rules) = rangeOf rule :: registerRanges rules.
Proof.
  intros Hdt. unfold registerRanges. cbn [flat_map].
  apply String.eqb_neq in Hdt. rewrite Hdt. reflexivity.
Qed.

Lemma checkRegisterOverlaps_reports
    (before : list Rule.t) (rule1 : Rule.t) (between : list Rule.t)
    (rule2 : Rule.t) (after : list Rule.t) :
  Rule.dataType rule1 <> ""%string -> Rule.dataType rule2 <> ""%string ->
  rangesOverlap (rangeOf rule1) (rangeOf rule2) = true ->
  In (Rule.name rule1 ++ " and " ++ Rule.name rule2)%string
     (checkRegisterOverlaps (before ++ rule1 :: between ++ rule2 :: after)).
Proof.
  intros Hdt1 Hdt2 Hov. unfold checkRegisterOverlaps.
  rewrite registerRanges_app, (registerRanges_cons rule1) by exact Hdt1.
  rewrite registerRanges_app, (registerRanges_cons rule2) by exact Hdt2.
  apply (overlapMessages_reports _ (rangeOf rule1) _ (rangeOf rule2)); [| exact Hov].
  apply in_or_app. right. left. reflexivity.
Qed.

Lemma flat_map_indexed_nil {A B : Type} (f : A -> nat -> list B) (l : list A) (first : nat) :
  flat_map_indexed f first l = []
  <-> forall i x, nth_error l i = Some x -> f x (first + i)%nat = [].
Proof.
  revert first. induction l as [| a l IH]; intros first; cbn [flat_map_indexed].
  - split; [intros _ [| i] x Hx; discriminate | reflexivity].
  - split.
    + intros Hnil. apply app_eq_nil in Hnil as [Ha Hl].
      intros [| i] x Hx; cbn in Hx.
      * injection Hx as <-. rewrite Nat.add_0_r. exact Ha.
      * rewrite <- Nat.add_succ_comm. apply (proj1 (IH (S first)) Hl i x Hx).
    + intros Hall.
      rewrite (proj2 (IH (S first))).
      * rewrite app_nil_r. specialize (Hall 0%nat a eq_refl).
        rewrite Nat.add_0_r in Hall. exact Hall.
      * intros i x Hx. rewrite Nat.add_succ_comm. apply (Hall (S i) x Hx).
Qed.

(** Validity of a rule set is decided by the per-rule checks and the
    duplicate-name check alone. *)
Lemma validateConversionRules_valid (rules : list Rule.t) :
  valid (validateConversionRules rules) = true
  <-> rules <> []
      /\ (forall i rule, nth_error rules i = Some rule ->
            errors (validateConversionRule rule i) = [])
      /\ duplicateNames rules = [].
Proof.
  destruct rules as [| rule0 rules].
  - cbn. split; [discriminate | intros (Hne & _); contradiction].
  - unfold validateConversionRules. cbv zeta.
    set (rule_errors := flat_map_indexed _ 0%nat (rule0 :: rules)).
    set (duplicates := duplicateNames (rule0 :: rules)).
    cbn [valid].
    assert (Hrule : rule_errors = []
                    <-> forall i rule, nth_error (rule0 :: rules) i = Some rule ->
                          errors (validateConversionRule rule i) = []).
    { subst rule_errors. rewrite flat_map_indexed_nil. reflexivity. }
    split.
    + intros Hvalid.
      destruct (rule_errors ++ _)%list eqn:E in Hvalid; [| discriminate].
      apply app_eq_nil in E as [E1 E2].
      split; [discriminate |]. split; [apply Hrule; exact E1 |].
      destruct duplicates; [reflexivity | discriminate].
    + intros (_ & Hall & Hdup).
      rewrite (proj2 Hrule Hall), Hdup. reflexivity.
Qed.

(** C7.  Two rules of a rule set whose register windows
    [[startRegister, startRegister + footprint - 1]] intersect are reported:
    the overlap list holds "name1 and name2", and the validation result has a
    warning "Register overlaps detected: ..." that contains it.  Overlap is
    never an error: the result is valid exactly when the rule set is
    non-empty, no rule has an error of its own and no name is duplicated.
    A float32 rule at register 0 and an int16 rule at register 1 overlap. *)
Theorem overlap_is_a_warning (rules : list Rule.t) :
  (forall before rule1 between rule2 after,
     rules = (before ++ rule1 :: between ++ rule2 :: after)%list ->
     Rule.dataType rule1 <> ""%string -> Rule.dataType rule2 <> ""%string ->
     Spec.windows_intersect
       (Rule.startRegister rule1)
       (Rule.startRegister rule1 + getRegistersNeeded (Rule.dataType rule1) - 1)
       (Rule.startRegister rule2)
       (Rule.startRegister rule2 + getRegistersNeeded (Rule.dataType rule2) - 1) ->
     In (Rule.name rule1 ++ " and " ++ Rule.name rule2)%string (checkRegisterOverlaps rules)
     /\ exists pre post,
          In ("Register overlaps detected: " ++ pre
              ++ (Rule.name rule1 ++ " and " ++ Rule.name rule2) ++ post)%string
             (warnings (validateConversionRules rules)))
  /\ (valid (validateConversionRules rules) = true
      <-> rules <> []
          /\ (forall i rule, nth_error rules i = Some rule ->
                errors (validateConversionRule rule i) = [])
          /\ duplicateNames rules = [])
  /\ (forall ruleA ruleB,
        Rule.dataType ruleA = "float32"%string -> Rule.startRegister ruleA = 0 ->
        Rule.dataType ruleB = "int16"%string -> Rule.startRegister ruleB = 1 ->
        checkRegisterOverlaps [ruleA; ruleB]
        = [(Rule.name ruleA ++ " and " ++ Rule.name ruleB)%string])
  /\ (forall dataType footprint,
        Spec.footprint dataType = Some footprint ->
        getRegistersNeeded dataType = footprint).
Proof.
  split; [| split; [apply validateConversionRules_valid | split]].
  - intros before rule1 between rule2 after -> Hdt1 Hdt2 Hwin.
    assert (Hov : rangesOverlap (rangeOf rule1) (rangeOf rule2) = true).
    { apply rangesOverlap_intersect; [apply rangeOf_nonempty .. | exact Hwin]. }
    pose proof (checkRegisterOverlaps_reports before rule1 between rule2 after
                  Hdt1 Hdt2 Hov) as Hin.
    split; [exact Hin |].
    destruct (concat_mentions ", " _ _ Hin) as (pre & post & E).
    exists pre, post.
    unfold validateConversionRules.
    destruct (before ++ rule1 :: between ++ rule2 :: after)%list as [| r0 rest] eqn:Erules.
    { destruct before; discriminate. }
    cbv zeta. cbn [warnings]. apply in_or_app. right.
    destruct (checkRegisterOverlaps (r0 :: rest)) as [| m ms] eqn:Eov; [destruct Hin |].
    left. rewrite E. reflexivity.
  - intros ruleA ruleB HA H0 HB H1.
    unfold checkRegisterOverlaps, registerRanges, rangeOf. cbn [flat_map].
    rewrite HA, HB, H0, H1. reflexivity.
  - apply getRegistersNeeded_footprint.
Qed.

(** X3.  A rule whose enabled validation has [min > max] is rejected with
    an error, not a warning. *)
Theorem min_above_max_is_an_error (rule : Rule.t) (index : nat)
    (validation : Rule.Validation) (lo hi : float) :
  Rule.validation rule = Some validation ->
  Rule.enabled validation = true ->
  Rule.min validation = Some lo -> Rule.max validation = Some hi ->
  PrimFloat.ltb hi lo = true ->
  In ("Rule " ++ Js.ToString_int (Z.of_nat index + 1)
      ++ ": Validation minimum cannot be greater than maximum")%string
     (errors (validateConversionRule rule index))
  /\ valid (validateConversionRule rule index) = false.
Proof.
  intros Hv Hen Hlo Hhi Hlt.
  assert (Hin : In ("Rule " ++ Js.ToString_int (Z.of_nat index + 1)
                    ++ ": Validation minimum cannot be greater than maximum")%string
                   (errors (validateConversionRule rule index))).
  { unfold validateConversionRule. cbv zeta. cbn [errors].
    rewrite Hv, Hen, Hlo, Hhi, Hlt. cbn [andb].
    apply in_or_app. right. apply in_or_app. right. apply in_or_app. left.
    left. apply append_assoc. }
  split; [exact Hin |].
  change (valid (validateConversionRule rule index))
    with (match errors (validateConversionRule rule index) with
          | [] => true
          | _ => false
          end).
  destruct (errors (validateConversionRule rule index)); [destruct Hin | reflexivity].
Qed.

End Validation.

(** ** The theorems at concrete inputs, on the reference host *)

Section Instances.

Import DataConversionUtils.
Existing Instance ReferenceHost.host.

Lemma convertData_insufficient_registers_witness :
  let result := convertData [1] (Example.rule "total" 0 "int32") in
  Result.error result
  = Some "Not enough registers available. Required: 2, Available: 1"
  /\ Result.valid result = false
  /\ Result.value result = Js.null.
Proof.
  cbv zeta.
  destruct (convertData_insufficient_registers [1] (Example.rule "total" 0 "int32")
              ltac:(vm_compute; reflexivity)) as (E & Hvalid & Hvalue & _).
  rewrite E. repeat split.
Defined.

Lemma convertData_never_throws_witness :
  let rule := Example.with_decimalPlaces (Example.rule "level" 0 "uint16") 101 in
  convertData_try [1] rule
  = Js.Throw (Js.ErrorObject "toFixed() digits argument must be between 0 and 100")
  /\ Result.valid (convertData [1] rule) = false
  /\ Result.error (convertData [1] rule)
     = Some "toFixed() digits argument must be between 0 and 100".
Proof.
  cbv zeta.
  pose (rule := Example.with_decimalPlaces (Example.rule "level" 0 "uint16") 101).
  assert (Htry : convertData_try [1] rule
                 = Js.Throw (Js.ErrorObject
                     "toFixed() digits argument must be between 0 and 100"))
    by (vm_compute; reflexivity).
  destruct (proj2 (convertData_never_throws [1] rule) _ Htry)
    as (Hvalid & _ & _ & _ & Herror & _).
  split; [exact Htry | split; [exact Hvalid | exact Herror]].
Defined.

Lemma convertMultiple_pointwise_witness :
  let rules := [Example.rule "a" 0 "int16"; Example.rule "b" 7 "int32";
                Example.rule "c" 1 "uint16"] in
  nth_error (convertMultiple [40000; 3]
               [Example.rule "a" 0 "int16"; Example.rule "b" 0 "int32";
                Example.rule "c" 1 "uint16"]) 2
  = nth_error (convertMultiple [40000; 3] rules) 2.
Proof.
  cbv zeta.
  apply (proj2 (proj2 (convertMultiple_pointwise [40000; 3]
                         [Example.rule "a" 0 "int16"; Example.rule "b" 7 "int32";
                          Example.rule "c" 1 "uint16"]))
           [Example.rule "a" 0 "int16"] (Example.rule "b" 7 "int32")
           (Example.rule "b" 0 "int32") [Example.rule "c" 1 "uint16"] 2%nat);
    [reflexivity | discriminate].
Defined.

(** The batch of the specification: three rules, the second one beyond the
    snapshot.  Three results; the first and the third are valid with their
    values, the second is invalid with the insufficient-registers error. *)
Lemma batch_of_three :
  map (fun r => (Result.name r, Result.valid r, Result.value r, Result.error r))
      (convertMultiple [40000; 3]
         [Example.rule "a" 0 "int16"; Example.rule "b" 7 "int32";
          Example.rule "c" 1 "uint16"])
  = [ ("a", true, Js.number (-25536), None);
      ("b", false, Js.null,
       Some "Not enough registers available. Required: 2, Available: -5");
      ("c", true, Js.number 3, None) ].
Proof. vm_compute. reflexivity. Qed.

Lemma overlap_is_a_warning_witness :
  In "A and B"
     (ValidationUtils.checkRegisterOverlaps
        [Example.rule "A" 0 "float32"; Example.rule "B" 1 "int16"]).
Proof.
  refine (proj1 (proj1 (overlap_is_a_warning
                          [Example.rule "A" 0 "float32"; Example.rule "B" 1 "int16"])
                   [] (Example.rule "A" 0 "float32") [] (Example.rule "B" 1 "int16") []
                   eq_refl _ _ _)).
  - discriminate.
  - discriminate.
  - exists 1. cbn. lia.
Defined.

(** The same rule set through the whole validator: valid, one warning. *)
Lemma overlapping_rules_validate :
  ValidationUtils.validateConversionRules
    [Example.rule "A" 0 "float32"; Example.rule "B" 1 "int16"]
  = {| ValidationUtils.valid := true;
       ValidationUtils.errors := [];
       ValidationUtils.warnings := ["Register overlaps detected: A and B"] |}.
Proof. vm_compute. reflexivity. Qed.

(** The decoders reached through [convertData]. *)
Lemma decode_examples :
  Result.value (convertData [4660] (Example.rule "bcd" 0 "bcd")) = Js.number 1234
  /\ Result.value (convertData [0] (Example.rule "bcd" 0 "bcd")) = Js.number 0
  /\ Result.value (convertData [65535] (Example.rule "i" 0 "int16")) = Js.number (-1)
  /\ Result.value (convertData [65535; 65534] (Example.rule "i" 0 "int32")) = Js.number (-2)
  /\ Result.value (convertData [65535; 65534] (Example.rule "u" 0 "uint32"))
     = Js.number 4294967294
  /\ Result.value (convertData [16968; 41943] (Example.rule "f" 0 "float32"))
     = Js.number 50.159999847412109
  /\ Result.value (convertData [16827; 39322] (Example.rule "f" 0 "float32"))
     = Js.number 23.450000762939453.
Proof. repeat split; vm_compute; reflexivity. Qed.

(** The reference host on a few numbers and strings. *)
Lemma reference_host_examples :
  map Js.Number_toString
      [23.45; 0.30000000000000004; 1e21; 1.5e-7; 123456789012345680000; 5e-324; -0]%float
  = ["23.45"; "0.30000000000000004"; "1e+21"; "1.5e-7"; "123456789012345680000";
     "5e-324"; "0"]
  /\ map (fun x => Js.Number_toFixed x 2) [1.005; 8.345; -0.001; 2.5; 1e21]%float
     = ["1.00"; "8.35"; "-0.00"; "2.50"; "1e+21"]
  /\ map Js.String_toNumber ["74.21"; " 12 "; ""; "0x1F"; "1e3"; "-Infinity"]
     = [74.21; 12; 0; 31; 1000; neg_infinity]%float
  /\ Js.String_toLowerCase (Js.String_trim "  Flow Rate ") = "flow rate".
Proof. repeat split; vm_compute; reflexivity. Qed.

(** Rounding and unit conversion on the reference host. *)
Lemma rounding_example :
  Result.value
    (convertData [16827; 39322]
       (Example.with_decimalPlaces
          (Example.with_unitConversion (Example.rule "t" 0 "float32") "celsius" "fahrenheit")
          2))
  = Js.number 74.21.
Proof. vm_compute. reflexivity. Qed.

Lemma min_above_max_is_an_error_witness :
  let rule :=
    Example.with_validation (Example.rule "t" 0 "int16") (Some 10%float) (Some 5%float) in
  ValidationUtils.errors (ValidationUtils.validateConversionRule rule 0)
  = ["Rule 1: Validation minimum cannot be greater than maximum"]
  /\ ValidationUtils.valid (ValidationUtils.validateConversionRule rule 0) = false.
Proof.
  cbv zeta. split; [vm_compute; reflexivity |].
  refine (proj2 (min_above_max_is_an_error
                   (Example.with_validation (Example.rule "t" 0 "int16")
                      (Some 10%float) (Some 5%float))
                   0 _ 10 5 eq_refl eq_refl eq_refl eq_refl _)).
  vm_compute. reflexivity.
Defined.

End Instances.

(** ** Registers that are not 16-bit words

    The read nodes emit each register through [readInt16BE], so a decoder can
    meet a negative register.  This section settles what the integer decoders
    do on arbitrary integers. *)

Section AnyRegister.

Import DataConversionUtils.
Local Open Scope js_scope.

Lemma ToInt32_congruent (z : Z) : exists q, Js.ToInt32 z = z + q * 4294967296.
Proof.
  unfold Js.ToInt32. cbv zeta.
  pose proof (Z.div_mod z 4294967296 ltac:(lia)) as E.
  destruct (z mod 4294967296 >=? 2147483648);
    [exists (- (z / 4294967296) - 1) | exists (- (z / 4294967296))]; lia.
Qed.

Lemma ToInt32_testbit (z n : Z) :
  0 <= n < 32 -> Z.testbit (Js.ToInt32 z) n = Z.testbit z n.
Proof.
  intros Hn. destruct (ToInt32_congruent z) as [q ->].
  rewrite <- (Z.mod_pow2_bits_low (z + _) 32 n), <- (Z.mod_pow2_bits_low z 32 n) by lia.
  change (2 ^ 32) with 4294967296. rewrite Z_mod_plus_full. reflexivity.
Qed.

Lemma ToInt32_mod_pow2 (z n : Z) :
  0 <= n <= 32 -> Js.ToInt32 z mod 2 ^ n = z mod 2 ^ n.
Proof.
  intros Hn. destruct (ToInt32_congruent z) as [q ->].
  replace 4294967296 with (2 ^ (32 - n) * 2 ^ n)
    by (rewrite <- Z.pow_add_r by lia; replace (32 - n + n) with 32 by lia; reflexivity).
  rewrite Z.mul_assoc. apply Z_mod_plus_full.
Qed.

(** [x & (2^n - 1)] on any integer is its remainder modulo [2^n]. *)
Lemma band_ones_any (x n : Z) : 0 <= n < 32 -> x .& (Z.ones n) = x mod 2 ^ n.
Proof.
  intros Hn. unfold Js.band.
  assert (Hones : 0 <= Z.ones n < 2147483648).
  { rewrite Z.ones_equiv.
    assert (2 ^ n <= 2 ^ 31) by (apply Z.pow_le_mono_r; lia).
    assert (0 < 2 ^ n) by (apply Z.pow_pos_nonneg; lia).
    change (2 ^ 31) with 2147483648 in *. lia. }
  rewrite (ToInt32_small (Z.ones n)) by lia.
  rewrite Z.land_ones by lia. apply ToInt32_mod_pow2; lia.
Qed.

(** The bits of a 32-bit integer from position 31 on are its sign. *)
Lemma int32_high_bits (x n : Z) :
  -2147483648 <= x < 2147483648 -> 31 <= n -> Z.testbit x n = (x <? 0).
Proof.
  intros Hx Hn.
  assert (Hp : 2147483648 <= 2 ^ n)
    by (change 2147483648 with (2 ^ 31); apply Z.pow_le_mono_r; lia).
  rewrite Z.testbit_odd, Z.shiftr_div_pow2 by lia.
  destruct (Z.ltb_spec x 0).
  - replace (x / 2 ^ n) with (-1); [reflexivity |].
    apply Z.div_unique with (r := x + 2 ^ n); lia.
  - rewrite Z.div_small by lia. reflexivity.
Qed.

Lemma int32_of_bits (x : Z) :
  (forall n, 31 <= n -> Z.testbit x n = Z.testbit x 31) ->
  -2147483648 <= x < 2147483648.
Proof.
  intros Hbits.
  pose proof (Z.div_mod x 2147483648 ltac:(lia)) as E.
  pose proof (Z.mod_pos_bound x 2147483648 ltac:(lia)) as Hr.
  assert (Hq : x / 2147483648 = 0 \/ x / 2147483648 = -1).
  { change 2147483648 with (2 ^ 31). rewrite <- Z.shiftr_div_pow2 by lia.
    destruct (Z.testbit x 31) eqn:Hsign; [right | left]; apply Z.bits_inj'; intros m Hm;
      rewrite Z.shiftr_spec by lia; rewrite Hbits by lia;
      rewrite ?Z.bits_0, ?Z.bits_m1 by lia; reflexivity. }
  destruct Hq as [Hq | Hq]; rewrite Hq in E; lia.
Qed.

(** [a | b] stays a 32-bit integer. *)
Lemma bor_range (a b : Z) : -2147483648 <= a .| b < 2147483648.
Proof.
  unfold Js.bor. apply int32_of_bits. intros n Hn.
  rewrite !Z.lor_spec.
  rewrite !(int32_high_bits (Js.ToInt32 a)), !(int32_high_bits (Js.ToInt32 b))
    by (try apply ToInt32_range; lia).
  reflexivity.
Qed.

(** [x >>> 0] is the remainder modulo [2^32]. *)
Lemma shru0_mod (x : Z) : x >>> 0 = x mod 4294967296.
Proof.
  unfold Js.shru, Js.ToUint32. rewrite shiftCount_small, Z.shiftr_0_r by lia. reflexivity.
Qed.

(** The low sixteen bits of [hi << 16] are zero. *)
Lemma shl16_low_bits (hi n : Z) : 0 <= n < 16 -> Z.testbit (hi << 16) n = false.
Proof.
  intros Hn. unfold Js.shl. rewrite ToInt32_testbit by lia.
  rewrite shiftCount_small by lia. apply Z.shiftl_spec_low; lia.
Qed.

(** A negative 16-bit integer has all its bits from position 15 on set. *)
Lemma negative16_high_bits (lo n : Z) :
  -32768 <= lo < 0 -> 15 <= n -> Z.testbit lo n = true.
Proof.
  intros Hlo Hn.
  assert (Hp : 32768 <= 2 ^ n)
    by (change 32768 with (2 ^ 15); apply Z.pow_le_mono_r; lia).
  rewrite Z.testbit_odd, Z.shiftr_div_pow2 by lia.
  replace (lo / 2 ^ n) with (-1); [reflexivity |].
  apply Z.div_unique with (r := lo + 2 ^ n); lia.
Qed.

(** [(hi << 16) | lo] with a negative [lo]: the high register is lost. *)
Lemma assemble_negative_low (hi lo : Z) :
  -32768 <= lo < 0 -> (hi << 16) .| lo = lo.
Proof.
  intros Hlo. unfold Js.bor.
  rewrite (ToInt32_small (hi << 16)) by apply ToInt32_range.
  rewrite (ToInt32_small lo) by lia.
  apply Z.bits_inj'. intros n Hn. rewrite Z.lor_spec.
  destruct (Z_lt_le_dec n 16).
  - rewrite shl16_low_bits by lia. reflexivity.
  - rewrite (negative16_high_bits lo n) by lia. apply orb_true_r.
Qed.

Lemma ToInt32_plus (z k : Z) : Js.ToInt32 (z + k * 4294967296) = Js.ToInt32 z.
Proof. unfold Js.ToInt32. rewrite Z_mod_plus_full. reflexivity. Qed.

(** [hi << 16] on any integer: the product, wrapped into the signed range. *)
Lemma shl16_any (hi : Z) : hi << 16 = Js.ToInt32 (hi * 65536).
Proof.
  unfold Js.shl. rewrite shiftCount_small, Z.shiftl_mul_pow2 by lia.
  change (2 ^ 16) with 65536.
  destruct (ToInt32_congruent hi) as [q ->].
  replace ((hi + q * 4294967296) * 65536) with (hi * 65536 + (q * 65536) * 4294967296) by lia.
  apply ToInt32_plus.
Qed.

(** X4.  On any integer register, a negative one as the read nodes emit it
    included, the uint16 decode is the register modulo 65536: a word in
    [0, 65535], and the word whose int16 decode the register is. *)
Theorem convertUint16_low_word (register : Z) (byteOrder byteOrder' : string) :
  convertUint16 register byteOrder = register mod 65536
  /\ 0 <= convertUint16 register byteOrder <= 65535
  /\ convertUint16 (convertInt16 (register mod 65536) byteOrder') byteOrder
     = register mod 65536.
Proof.
  assert (E : forall r, convertUint16 r byteOrder = r mod 65536).
  { intros r. unfold convertUint16. change 65535 with (Z.ones 16).
    rewrite band_ones_any by lia. reflexivity. }
  pose proof (Z.mod_pos_bound register 65536 ltac:(lia)) as Hm.
  rewrite !E. repeat split; try lia.
  unfold convertInt16. destruct (Z.gtb_spec (register mod 65536) 32767).
  - replace (register mod 65536 - 65536) with (register mod 65536 + (-1) * 65536) by lia.
    rewrite Z_mod_plus_full. apply Z.mod_mod; lia.
  - apply Z.mod_mod; lia.
Qed.

(** X5.  On any register array and any setting, the int32 decode lies in
    [-2^31, 2^31) and the uint32 decode in [0, 2^32), and the uint32 decode is
    the int32 decode modulo 2^32: [(a << 16) | b] is already a signed 32-bit
    integer, so the test [value > 2147483647] of [convertInt32] never holds. *)
Theorem convert32_any_registers (registers : list Z) (byteOrder : string)
    (wordSwap : option bool) :
  -2147483648 <= convertInt32 registers byteOrder wordSwap < 2147483648
  /\ 0 <= convertUint32 registers byteOrder wordSwap < 4294967296
  /\ convertUint32 registers byteOrder wordSwap
     = convertInt32 registers byteOrder wordSwap mod 4294967296.
Proof.
  unfold convertInt32, convertUint32. cbv zeta.
  destruct (String.eqb byteOrder "big_endian");
    match goal with |- context [?a .| ?b] =>
      pose proof (bor_range a b) as Hv;
      destruct (Z.gtb_spec (a .| b) 2147483647); [lia |];
      rewrite shru0_mod;
      pose proof (Z.mod_pos_bound (a .| b) 4294967296 ltac:(lia))
    end; repeat split; lia.
Qed.

(** The high byte and the low byte of any integer register, as [convertBCD]
    extracts them, are those of the register modulo 65536. *)
Lemma bytes_of_any_register (register : Z) :
  (register >> 8) .& 255 = (register mod 65536) / 256
  /\ register .& 255 = (register mod 65536) mod 256.
Proof.
  pose proof (Z.rem_mul_r register 256 256 ltac:(lia) ltac:(lia)) as Hsplit.
  change (256 * 256) with 65536 in Hsplit.
  pose proof (Z.mod_pos_bound register 256 ltac:(lia)) as Hlow.
  split.
  - change 255 with (Z.ones 8). rewrite band_ones_any by lia.
    unfold Js.sar. rewrite shiftCount_small, Z.shiftr_div_pow2 by lia.
    change (2 ^ 8) with 256.
    pose proof (Z.rem_mul_r (Js.ToInt32 register) 256 256 ltac:(lia) ltac:(lia)) as Hs.
    change (256 * 256) with 65536 in Hs.
    pose proof (ToInt32_mod_pow2 register 16 ltac:(lia)) as E16.
    change (2 ^ 16) with 65536 in E16.
    pose proof (Z.mod_pos_bound (Js.ToInt32 register) 256 ltac:(lia)).
    rewrite <- E16, Hs.
    rewrite Z.add_comm, Z.mul_comm, Z.div_add_l by lia.
    rewrite (Z.div_small (_ mod 256)) by lia. lia.
  - change 255 with (Z.ones 8). rewrite band_ones_any by lia.
    change (2 ^ 8) with 256. rewrite Hsplit.
    rewrite (Z.mul_comm 256), Z_mod_plus_full. symmetry. apply Z.mod_mod; lia.
Qed.

Lemma byteDecimal_range (byte : Z) :
  0 <= byte <= 255 -> 0 <= Spec.byteDecimal byte <= 165.
Proof.
  intros Hb. unfold Spec.byteDecimal.
  assert (0 <= byte / 16 < 16)
    by (split; [apply Z.div_pos; lia | apply Z.div_lt_upper_bound; lia]).
  pose proof (Z.mod_pos_bound byte 16 ltac:(lia)). lia.
Qed.

(** X6.  On any integer register the rule-based BCD decode reads the low
    sixteen bits only: it is the byte-wise decimal reading of the register
    modulo 65536, and it lies in [0, 16665] (a nibble above 9 is read as its
    value, not rejected). *)
Theorem convertBCD_low_word (register : Z) (byteOrder : string) :
  convertBCD register byteOrder = Spec.bcd (register mod 65536)
  /\ 0 <= convertBCD register byteOrder <= 16665.
Proof.
  assert (E : convertBCD register byteOrder = Spec.bcd (register mod 65536)).
  { unfold convertBCD, Spec.bcd. cbv zeta.
    destruct (bytes_of_any_register register) as [-> ->].
    pose proof (Z.mod_pos_bound register 65536 ltac:(lia)) as Hm.
    assert (0 <= register mod 65536 / 256 < 256)
      by (split; [apply Z.div_pos; lia | apply Z.div_lt_upper_bound; lia]).
    pose proof (Z.mod_pos_bound (register mod 65536) 256 ltac:(lia)).
    rewrite !byteDecimal_bits by lia. reflexivity. }
  split; [exact E |]. rewrite E. unfold Spec.bcd.
  pose proof (Z.mod_pos_bound register 65536 ltac:(lia)) as Hm.
  assert (0 <= register mod 65536 / 256 < 256)
    by (split; [apply Z.div_pos; lia | apply Z.div_lt_upper_bound; lia]).
  pose proof (Z.mod_pos_bound (register mod 65536) 256 ltac:(lia)).
  pose proof (byteDecimal_range (register mod 65536 / 256) ltac:(lia)).
  pose proof (byteDecimal_range ((register mod 65536) mod 256) ltac:(lia)).
  lia.
Qed.

(** [(x / 2^p) mod 2^l] only reads the bits of [x] below [p + l]. *)
Lemma bit_range_mod (x p l : Z) :
  0 <= p -> 0 <= l -> (x / 2 ^ p) mod 2 ^ l = (x mod 2 ^ (p + l)) / 2 ^ p.
Proof.
  intros Hp Hl.
  assert (0 < 2 ^ p) by (apply Z.pow_pos_nonneg; lia).
  assert (0 < 2 ^ l) by (apply Z.pow_pos_nonneg; lia).
  rewrite Z.pow_add_r, Z.rem_mul_r by lia.
  rewrite Z.add_comm, Z.mul_comm, Z.div_add_l by lia.
  pose proof (Z.mod_pos_bound x (2 ^ p) ltac:(lia)).
  rewrite (Z.div_small (x mod 2 ^ p)) by lia. lia.
Qed.

(** X7.  With no bit mask and a bit position [p] in [0, 15], the bitfield
    decode of any integer register is the boolean bit [p] of the register
    when the bit length is absent, 0 or 1, and otherwise the number made of
    the [l] bits from position [p] up, [(register / 2^p) mod 2^l]. *)
Theorem convertBitfield_bit_range (register p : Z) (rule : Rule.t) :
  Rule.bitMask rule = None ->
  Rule.bitPosition rule = Some p ->
  0 <= p <= 15 ->
  (forall l, Rule.bitLength rule = Some l -> 0 <= l <= 16) ->
  convertBitfield register rule
  = let bitLength :=
      match Rule.bitLength rule with
      | Some l => if l =? 0 then 1 else l
      | None => 1
      end in
    if bitLength =? 1 then Js.boolean (Z.testbit register p)
    else Js.number (Js.of_int ((register / 2 ^ p) mod 2 ^ bitLength)).
Proof.
  intros Hmask Hpos Hp Hlen. unfold convertBitfield. rewrite Hmask, Hpos. cbv zeta.
  set (bitLength := match Rule.bitLength rule with
                    | Some l => if l =? 0 then 1 else l
                    | None => 1
                    end).
  assert (Hl : 1 <= bitLength <= 16).
  { subst bitLength. destruct (Rule.bitLength rule) as [l |]; [| lia].
    specialize (Hlen l eq_refl). destruct (Z.eqb_spec l 0); lia. }
  assert (Hpow : 2 <= 2 ^ bitLength <= 65536).
  { change 2 with (2 ^ 1) at 1. change 65536 with (2 ^ 16).
    split; apply Z.pow_le_mono_r; lia. }
  assert (Emask : (1 << bitLength) - 1 = Z.ones bitLength).
  { unfold Js.shl. rewrite (ToInt32_small 1), shiftCount_small by lia.
    rewrite Z.shiftl_mul_pow2, Z.mul_1_l by lia.
    rewrite ToInt32_small by lia. rewrite Z.ones_equiv. lia. }
  assert (Eresult : (register >> p) .& ((1 << bitLength) - 1)
                    = (register / 2 ^ p) mod 2 ^ bitLength).
  { rewrite Emask, band_ones_any by lia.
    unfold Js.sar. rewrite shiftCount_small, Z.shiftr_div_pow2 by lia.
    rewrite !bit_range_mod by lia.
    rewrite ToInt32_mod_pow2 by lia. reflexivity. }
  rewrite Eresult.
  destruct (Z.eqb_spec bitLength 1) as [E1 | _]; [| reflexivity].
  rewrite E1. f_equal.
  rewrite Z.testbit_odd, Z.shiftr_div_pow2 by lia.
  change (2 ^ 1) with 2. rewrite Zmod_odd.
  destruct (Z.odd (register / 2 ^ p)); reflexivity.
Qed.

Lemma convertBitfield_bit_range_witness :
  convertBitfield 44 Sample.bit_range = Js.number (Js.of_int 3)
  /\ convertBitfield (-32768) Sample.single_bit = Js.boolean true.
Proof.
  split.
  - exact (convertBitfield_bit_range 44 2 Sample.bit_range eq_refl eq_refl ltac:(lia)
             ltac:(intros l E; injection E as <-; lia)).
  - exact (convertBitfield_bit_range (-32768) 15 Sample.single_bit eq_refl eq_refl ltac:(lia)
             ltac:(intros l E; discriminate E)).
Defined.

(** X8.  With a bit mask, the bitfield decode of any integer register is the
    number [register & bitMask], whatever bit position and bit length the
    rule also carries; for a mask in [0, 65535] that is the bitwise AND of
    the mask with the register modulo 65536. *)
Theorem convertBitfield_mask_first (register bitMask : Z) (rule : Rule.t) :
  Rule.bitMask rule = Some bitMask ->
  0 <= bitMask <= 65535 ->
  convertBitfield register rule
  = Js.number (Js.of_int (Z.land (register mod 65536) bitMask)).
Proof.
  intros Hmask Hrange. unfold convertBitfield. rewrite Hmask. do 2 f_equal.
  unfold Js.band. rewrite (ToInt32_small bitMask) by lia.
  apply Z.bits_inj'. intros n Hn. rewrite !Z.land_spec.
  destruct (Z_lt_le_dec n 16).
  - change 65536 with (2 ^ 16). rewrite Z.mod_pow2_bits_low by lia.
    rewrite ToInt32_testbit by lia. reflexivity.
  - replace (Z.testbit bitMask n) with false; [rewrite !andb_false_r; reflexivity |].
    symmetry. destruct (Z.eq_dec bitMask 0) as [-> | Hnz]; [apply Z.bits_0 |].
    apply Z.bits_above_log2; [lia |].
    apply Z.lt_le_trans with 16; [| lia].
    apply Z.log2_lt_pow2; [lia | change (2 ^ 16) with 65536; lia].
Qed.

Lemma convertBitfield_mask_first_witness :
  convertBitfield (-2) Sample.masked = Js.number (Js.of_int 254).
Proof.
  exact (convertBitfield_mask_first (-2) 255 Sample.masked eq_refl ltac:(lia)).
Defined.

End AnyRegister.

(** ** Registers as the read nodes emit them *)

Section ReadRegisters.

Import DataConversionUtils.
Local Open Scope js_scope.

(** The register emitted for a word is its two's complement reading. *)
Lemma register_signed16 (w : Z) :
  0 <= w <= 65535 -> ModbusRead.register w = Spec.signed16 w.
Proof.
  intros Hw. unfold ModbusRead.register, ModbusRead.bytes_of_word, Buffer.readInt16BE.
  cbn [Buffer.in_bounds List.length Nat.add Nat.leb nth].
  pose proof (Z.div_mod w 256 ltac:(lia)) as E.
  replace (w / 256 * 256 + w mod 256) with w by lia.
  unfold Spec.signed16.
  destruct (Z.geb_spec w 32768), (Z.gtb_spec w 32767); lia.
Qed.

Lemma signed16_mod (w : Z) : 0 <= w <= 65535 -> Spec.signed16 w mod 65536 = w.
Proof.
  intros Hw. unfold Spec.signed16. destruct (Z.gtb_spec w 32767).
  - replace (w - 65536) with (w + (-1) * 65536) by lia.
    rewrite Z_mod_plus_full. apply Z.mod_small; lia.
  - apply Z.mod_small; lia.
Qed.

(** The float32 decode of two integer registers, big-endian without word
    swap. *)
Lemma convertFloat32_window (r0 r1 : Z) :
  convertFloat32 [r0; r1] "big_endian" (Some false)
  = Js.float32_of_bits ((r0 mod 65536) * 65536 + r1 mod 65536).
Proof.
  pose proof (Z.div_mod (r0 mod 65536) 256 ltac:(lia)) as E0.
  pose proof (Z.div_mod (r1 mod 65536) 256 ltac:(lia)) as E1.
  unfold convertFloat32, Js.getFloat32, Js.setUint16, Js.ToUint16.
  change (Js.index [r0; r1] 0) with (Some r0).
  change (Js.index [r0; r1] 1) with (Some r1).
  cbn [String.eqb Ascii.eqb Bool.eqb wordSwap_default Js.ArrayBuffer repeat Js.store
       Js.bits Nat.add nth].
  f_equal. lia.
Qed.

(** X9.  The float32 decode of any two integer registers is the binary32
    value whose bit pattern is [high * 65536 + low], the two words being the
    registers modulo 65536 and high and low chosen by the setting. *)
Theorem convertFloat32_bit_pattern (s : Spec.Setting) (r0 r1 : Z) :
  convertFloat32 [r0; r1] (Spec.tag (fst s)) (Some (snd s))
  = Js.float32_of_bits
      (Spec.high s (r0 mod 65536) (r1 mod 65536) * 65536
       + Spec.low s (r0 mod 65536) (r1 mod 65536)).
Proof.
  pose proof (Z.div_mod (r0 mod 65536) 256 ltac:(lia)) as E0.
  pose proof (Z.div_mod (r1 mod 65536) 256 ltac:(lia)) as E1.
  destruct s as [[|] [|]];
    cbv [Spec.high Spec.low Spec.first Spec.second Spec.tag fst snd];
    unfold convertFloat32, Js.getFloat32, Js.setUint16, Js.ToUint16;
    change (Js.index [r0; r1] 0) with (Some r0);
    change (Js.index [r0; r1] 1) with (Some r1);
    cbn [String.eqb Ascii.eqb Bool.eqb wordSwap_default Js.ArrayBuffer repeat Js.store
         Js.bits Nat.add nth];
    f_equal; lia.
Qed.

(** X10.  A 16-bit word that went through the read node's [readInt16BE] is a
    register in [-32768, 32767] from which the int16 decode gives the two's
    complement reading of the word, the uint16 decode the word itself, and
    the BCD decode the decimal reading of the word. *)
Theorem read_register_decodes_16 (w : Z) (byteOrder : string) :
  0 <= w <= 65535 ->
  let register := ModbusRead.register w in
  -32768 <= register <= 32767
  /\ convertInt16 register byteOrder = Spec.signed16 w
  /\ convertUint16 register byteOrder = w
  /\ convertBCD register byteOrder = Spec.bcd w.
Proof.
  intros Hw register. subst register. rewrite register_signed16 by exact Hw.
  pose proof (signed16_mod w Hw) as Hmod.
  assert (Hr : -32768 <= Spec.signed16 w <= 32767)
    by (unfold Spec.signed16; destruct (Z.gtb_spec w 32767); lia).
  repeat split; try lia.
  - unfold convertInt16. destruct (Z.gtb_spec (Spec.signed16 w) 32767); [lia | reflexivity].
  - unfold convertUint16. change 65535 with (Z.ones 16).
    rewrite band_ones_any by lia. exact Hmod.
  - unfold convertBCD, Spec.bcd. cbv zeta.
    destruct (bytes_of_any_register (Spec.signed16 w)) as [-> ->]. rewrite Hmod.
    assert (0 <= w / 256 < 256)
      by (split; [apply Z.div_pos; lia | apply Z.div_lt_upper_bound; lia]).
    pose proof (Z.mod_pos_bound w 256 ltac:(lia)).
    rewrite !byteDecimal_bits by lia. reflexivity.
Qed.

Lemma read_register_decodes_16_witness :
  -32768 <= ModbusRead.register 40000 <= 32767
  /\ convertInt16 (ModbusRead.register 40000) "big_endian" = -25536
  /\ convertUint16 (ModbusRead.register 40000) "big_endian" = 40000
  /\ convertBCD (ModbusRead.register 39321) "big_endian" = 9999.
Proof.
  pose proof (read_register_decodes_16 40000 "big_endian" ltac:(lia)) as H.
  pose proof (read_register_decodes_16 39321 "big_endian" ltac:(lia)) as H'.
  cbv zeta in H, H'.
  destruct H as (Hr & Hi & Hu & _). destruct H' as (_ & _ & _ & Hb).
  split; [exact Hr | split; [exact Hi | split; [exact Hu | exact Hb]]].
Defined.

Lemma shl16_signed16 (w : Z) : 0 <= w <= 65535 -> Spec.signed16 w << 16 = w << 16.
Proof.
  intros Hw. rewrite !shl16_any. unfold Spec.signed16.
  destruct (Z.gtb_spec w 32767); [| reflexivity].
  replace ((w - 65536) * 65536) with (w * 65536 + (-1) * 4294967296) by lia.
  apply ToInt32_plus.
Qed.

(** X11.  Two 16-bit words that went through the read node's [readInt16BE],
    decoded big-endian without word swap: the float32 decode is that of the
    words; the uint32 and int32 decodes are those of the words only when the
    low word is below 0x8000.  From 0x8000 on, the low register is negative,
    its sign bits cover the high word, and the decodes are those of the pair
    (0xFFFF, low word): [low - 65536] as int32, [4294901760 + low] as uint32. *)
Theorem read_registers_decode_32 (w0 w1 : Z) :
  0 <= w0 <= 65535 -> 0 <= w1 <= 65535 ->
  let registers := ModbusRead.registers [w0; w1] in
  convertFloat32 registers "big_endian" (Some false)
  = convertFloat32 [w0; w1] "big_endian" (Some false)
  /\ convertUint32 registers "big_endian" (Some false)
     = (if w1 <? 32768 then w0 * 65536 + w1 else 4294901760 + w1)
  /\ convertInt32 registers "big_endian" (Some false)
     = (if w1 <? 32768 then Spec.signed32 (w0 * 65536 + w1) else w1 - 65536).
Proof.
  intros H0 H1 registers. subst registers.
  unfold ModbusRead.registers. cbn [map].
  rewrite !register_signed16 by assumption.
  assert (E1 : Spec.signed16 w1 = if w1 <? 32768 then w1 else w1 - 65536).
  { unfold Spec.signed16. destruct (Z.ltb_spec w1 32768), (Z.gtb_spec w1 32767); lia. }
  split; [| split].
  - rewrite !convertFloat32_window.
    rewrite !signed16_mod by assumption.
    rewrite !Z.mod_small by lia. reflexivity.
  - rewrite convertUint32_window.
    cbn [String.eqb Ascii.eqb Bool.eqb]. cbv beta iota zeta.
    rewrite shl16_signed16 by exact H0.
    rewrite E1. destruct (Z.ltb_spec w1 32768).
    + rewrite assemble_signed by lia. apply shru0_signed32; lia.
    + rewrite assemble_negative_low by lia. rewrite shru0_mod.
      symmetry. apply Z.mod_unique with (q := -1); lia.
  - rewrite convertInt32_window.
    cbn [String.eqb Ascii.eqb Bool.eqb]. cbv beta iota zeta.
    rewrite shl16_signed16 by exact H0.
    rewrite E1. destruct (Z.ltb_spec w1 32768).
    + rewrite assemble_signed by lia.
      pose proof (signed32_range (w0 * 65536 + w1) ltac:(lia)).
      destruct (Z.gtb_spec (Spec.signed32 (w0 * 65536 + w1)) 2147483647); [lia | reflexivity].
    + rewrite assemble_negative_low by lia.
      destruct (Z.gtb_spec (w1 - 65536) 2147483647); [lia | reflexivity].
Qed.

Lemma read_registers_decode_32_witness :
  convertUint32 (ModbusRead.registers [1; 2]) "big_endian" (Some false) = 65538
  /\ convertUint32 (ModbusRead.registers [1; 40000]) "big_endian" (Some false) = 4294941760
  /\ convertUint32 [1; 40000] "big_endian" (Some false) = 105536.
Proof.
  pose proof (read_registers_decode_32 1 2 ltac:(lia) ltac:(lia)) as H.
  pose proof (read_registers_decode_32 1 40000 ltac:(lia) ltac:(lia)) as H'.
  cbv zeta in H, H'.
  destruct H as (_ & Hu & _). destruct H' as (_ & Hu' & _).
  split; [exact Hu | split; [exact Hu' | reflexivity]].
Defined.

(** X12.  The write node's [writeInt16BE] accepts exactly the values in
    [-32768, 32767] (an unsigned word from 0x8000 on, as the uint16 decode
    returns it, is rejected); the two bytes it writes are those of the value
    modulo 65536, and reading them back with [readInt16BE] gives the value. *)
Theorem write_read_round_trip (value : Z) :
  (ModbusRead.write_buffer value = None <-> value < -32768 \/ 32767 < value)
  /\ (forall buffer, ModbusRead.write_buffer value = Some buffer ->
        buffer = ModbusRead.bytes_of_word (value mod 65536)
        /\ Buffer.readInt16BE buffer 0 = Some value).
Proof.
  unfold ModbusRead.write_buffer, Buffer.writeInt16BE.
  cbn [Buffer.alloc repeat Buffer.in_bounds List.length Nat.add Nat.leb negb orb Js.store].
  destruct (Z.ltb_spec value (-32768)); cbn [orb].
  { split; [split; [lia | reflexivity] | discriminate]. }
  destruct (Z.gtb_spec value 32767); cbn [orb].
  { split; [split; [lia | reflexivity] | discriminate]. }
  split; [split; [discriminate | lia] |].
  intros buffer [= <-]. split; [reflexivity |].
  unfold Buffer.readInt16BE.
  cbn [Buffer.in_bounds List.length Nat.add Nat.leb nth].
  pose proof (Z.div_mod (value mod 65536) 256 ltac:(lia)) as E.
  replace (value mod 65536 / 256 * 256 + (value mod 65536) mod 256)
    with (value mod 65536) by lia.
  f_equal. destruct (Z_lt_le_dec value 0).
  - assert (Hm : value mod 65536 = value + 65536)
      by (symmetry; apply Z.mod_unique with (q := -1); lia).
    rewrite Hm. destruct (Z.geb_spec (value + 65536) 32768); lia.
  - rewrite Z.mod_small by lia.
    destruct (Z.geb_spec value 32768); lia.
Qed.

End ReadRegisters.

(** ** Results of the decoder, and what the node does with them *)

Section Results.

Import DataConversionUtils.
Context `{Js.Host}.

(** A verdict of [validateValue] carries an error exactly when it is
    negative. *)
Lemma validateValue_error (value : Js.value) (validation : Rule.Validation) :
  (fst (validateValue value validation) = true
   /\ snd (validateValue value validation) = None)
  \/ (fst (validateValue value validation) = false
      /\ snd (validateValue value validation) <> None).
Proof.
  unfold validateValue.
  destruct value as [| | b | x | xs]; try (left; split; reflexivity).
  destruct (PrimFloat.is_nan x && negb _); [right; split; [reflexivity | discriminate] |].
  destruct (Rule.min validation) as [lo |], (Rule.max validation) as [hi |];
    repeat match goal with
           | |- context [PrimFloat.ltb ?a ?b] => destruct (PrimFloat.ltb a b)
           end;
    cbn [fst snd];
    ((left; split; reflexivity) || (right; split; [reflexivity | discriminate])).
Qed.

(** What every normal completion of the [try] block looks like. *)
Lemma convertData_try_shape (registers : list Z) (rule : Rule.t) (result : Result.t) :
  convertData_try registers rule = Js.Normal result ->
  Result.name result = Rule.name rule
  /\ Result.dataType result = Rule.dataType rule
  /\ (Result.valid result = true <-> Result.error result = None).
Proof.
  unfold convertData_try. cbv zeta.
  destruct (Js.length registers <? _).
  { intros [= <-]. repeat split; discriminate. }
  destruct (decode _ rule) as [v |].
  2: { intros [= <-]. repeat split; discriminate. }
  set (P := fun r : Result.t =>
              Result.name r = Rule.name rule /\ Result.dataType r = Rule.dataType rule
              /\ Result.error r = None).
  set (r0 := Result.set_value _ v).
  assert (H0 : P r0) by (repeat split).
  set (r1 := match Rule.unitConversion rule, Result.value r0 with
             | Some conversion, Js.number x => _
             | _, _ => r0
             end).
  assert (H1 : P r1).
  { subst r1. destruct (Rule.unitConversion rule); [| exact H0].
    destruct (Result.value r0); exact H0. }
  clearbody r1. clear r0 H0.
  set (rounded := match Rule.decimalPlaces rule, Result.value r1 with
                  | Some decimalPlaces, Js.number x => _
                  | _, _ => Js.Normal r1
                  end).
  assert (Hrounded : forall r2, rounded = Js.Normal r2 -> P r2).
  { subst rounded. intros r2.
    destruct (Rule.decimalPlaces rule) as [d |]; [| intros [= <-]; exact H1].
    destruct (Result.value r1); try (intros [= <-]; exact H1).
    destruct (Js.toFixed x d); cbn [Js.bind]; [| discriminate].
    intros [= <-]. destruct H1 as (Hn & Hd & He). repeat split; assumption. }
  destruct rounded as [r2 | e]; cbn [Js.bind]; [| discriminate].
  destruct (Hrounded r2 eq_refl) as (Hn & Hd & He).
  destruct (Rule.validation rule) as [validation |].
  2: { intros [= <-]. repeat split; intros; (assumption || reflexivity). }
  destruct (Rule.enabled validation).
  2: { intros [= <-]. repeat split; intros; (assumption || reflexivity). }
  pose proof (validateValue_error (Result.value r2) validation) as Hverdict.
  destruct (validateValue (Result.value r2) validation) as [ok err].
  cbn [fst snd] in Hverdict.
  destruct Hverdict as [[-> ->] | [-> Herr]]; intros [= <-];
    cbn [Result.set_valid Result.set_error Result.name Result.dataType Result.valid
         Result.error].
  - repeat split; intros; (assumption || reflexivity).
  - repeat split; try assumption; [discriminate | intros E; contradiction].
Qed.

(** X13.  Every result of [convertData] carries the rule's name and data
    type, and it is valid exactly when it carries no error: an invalid result
    always says why, and a valid one never has an error attached. *)
Theorem convertData_valid_iff_no_error (registers : list Z) (rule : Rule.t) :
  Result.name (convertData registers rule) = Rule.name rule
  /\ Result.dataType (convertData registers rule) = Rule.dataType rule
  /\ (Result.valid (convertData registers rule) = true
      <-> Result.error (convertData registers rule) = None).
Proof.
  unfold convertData.
  destruct (convertData_try registers rule) as [result | failure] eqn:Htry.
  - exact (convertData_try_shape registers rule result Htry).
  - repeat split; discriminate.
Qed.

(** The same, along a batch. *)
Lemma convertMultiple_shape (registers : list Z) (rules : list Rule.t) :
  Forall (fun result => Result.valid result = true <-> Result.error result = None)
         (convertMultiple registers rules)
  /\ map Result.name (convertMultiple registers rules) = map Rule.name rules.
Proof.
  unfold convertMultiple. split.
  - apply Forall_forall. intros result Hin. apply in_map_iff in Hin.
    destruct Hin as (rule & <- & _).
    unfold convertData.
    destruct (convertData_try registers rule) as [r | failure] eqn:Htry.
    + apply (convertData_try_shape registers rule r Htry).
    + split; discriminate.
  - rewrite map_map. apply map_ext. intros rule.
    unfold convertData.
    destruct (convertData_try registers rule) as [r | failure] eqn:Htry.
    + apply (convertData_try_shape registers rule r Htry).
    + reflexivity.
Qed.

End Results.

Section ErrorHandling.

Import ConverterNode.

(** The result kept for [result] under the [default_values] policy. *)
Lemma defaultResult_valid (result : Result.t) :
  Result.valid (defaultResult result) = true
  /\ Result.error (defaultResult result) = None
  /\ Result.name (defaultResult result) = Result.name result
  /\ Result.dataType (defaultResult result) = Result.dataType result
  /\ Result.value (defaultResult result) = getDefaultValue (Result.dataType result).
Proof. repeat split. Qed.

Lemma handle_loop_skip (errorHandling : string) (itemIndex : Z)
    (results validResults : list Result.t) :
  errorHandling <> "stop_on_error"%string ->
  errorHandling <> "default_values"%string ->
  handle_loop errorHandling itemIndex results validResults
  = Js.Normal (validResults ++ filter Result.valid results)%list.
Proof.
  intros Hstop Hdefault.
  apply String.eqb_neq in Hstop. apply String.eqb_neq in Hdefault.
  revert validResults.
  induction results as [| result rest IH]; intros validResults; cbn [handle_loop filter].
  - rewrite app_nil_r. reflexivity.
  - destruct (Result.valid result).
    + rewrite IH, <- app_assoc. reflexivity.
    + rewrite Hstop, Hdefault. apply IH.
Qed.

Lemma handle_loop_default (itemIndex : Z) (results validResults : list Result.t) :
  handle_loop "default_values" itemIndex results validResults
  = Js.Normal (validResults
               ++ map (fun result =>
                         if Result.valid result then result else defaultResult result)
                      results)%list.
Proof.
  revert validResults.
  induction results as [| result rest IH]; intros validResults; cbn [handle_loop map].
  - rewrite app_nil_r. reflexivity.
  - destruct (Result.valid result).
    + rewrite IH, <- app_assoc. reflexivity.
    + cbn [String.eqb Ascii.eqb Bool.eqb]. cbv beta iota.
      rewrite IH, <- app_assoc. reflexivity.
Qed.

Lemma handle_loop_stop (itemIndex : Z) (results validResults : list Result.t) :
  handle_loop "stop_on_error" itemIndex results validResults
  = match find (fun result => negb (Result.valid result)) results with
    | Some result =>
      Js.Throw (Js.ErrorObject
        ("Conversion error in item " ++ Js.ToString_int itemIndex ++ ": "
         ++ render_error (Result.error result))%string)
    | None => Js.Normal (validResults ++ results)%list
    end.
Proof.
  revert validResults.
  induction results as [| result rest IH]; intros validResults; cbn [handle_loop find].
  - rewrite app_nil_r. reflexivity.
  - destruct (Result.valid result); cbn [negb].
    + rewrite IH. destruct (find _ rest); [reflexivity |].
      rewrite <- app_assoc. reflexivity.
    + reflexivity.
Qed.

(** X14.  The three policies of [handleConversionErrors].  Under
    [skip_invalid], and under any policy name other than [stop_on_error] and
    [default_values], it returns the valid results in their order and drops
    the others without a trace.  Under [default_values] it returns one result
    per input result, in order: a valid result as it is, an invalid one with
    [valid = true], no error, and the default value of its data type in place
    of its value.  Under [stop_on_error] it returns the results unchanged
    when all are valid, and otherwise throws for the first invalid result,
    with the message [Conversion error in item <itemIndex>: <its error>].
    Whatever the policy, every result it returns is valid. *)
Theorem handleConversionErrors_policies (results : list Result.t) (itemIndex : Z) :
  (forall errorHandling,
     errorHandling <> "stop_on_error"%string ->
     errorHandling <> "default_values"%string ->
     handleConversionErrors results errorHandling itemIndex
     = Js.Normal (filter Result.valid results))
  /\ handleConversionErrors results "default_values" itemIndex
     = Js.Normal (map (fun result =>
                         if Result.valid result then result else defaultResult result)
                      results)
  /\ handleConversionErrors results "stop_on_error" itemIndex
     = match find (fun result => negb (Result.valid result)) results with
       | Some result =>
         Js.Throw (Js.ErrorObject
           ("Conversion error in item " ++ Js.ToString_int itemIndex ++ ": "
            ++ render_error (Result.error result))%string)
       | None => Js.Normal results
       end
  /\ (forall errorHandling kept,
        handleConversionErrors results errorHandling itemIndex = Js.Normal kept ->
        Forall (fun result => Result.valid result = true) kept).
Proof.
  assert (Hskip : forall errorHandling,
            errorHandling <> "stop_on_error"%string ->
            errorHandling <> "default_values"%string ->
            handleConversionErrors results errorHandling itemIndex
            = Js.Normal (filter Result.valid results)).
  { intros errorHandling Hstop Hdefault. unfold handleConversionErrors.
    rewrite handle_loop_skip by assumption. reflexivity. }
  assert (Hdefault : handleConversionErrors results "default_values" itemIndex
                     = Js.Normal (map (fun result =>
                                         if Result.valid result then result
                                         else defaultResult result) results)).
  { unfold handleConversionErrors. rewrite handle_loop_default. reflexivity. }
  assert (Hstop : handleConversionErrors results "stop_on_error" itemIndex
                  = match find (fun result => negb (Result.valid result)) results with
                    | Some result =>
                      Js.Throw (Js.ErrorObject
                        ("Conversion error in item " ++ Js.ToString_int itemIndex ++ ": "
                         ++ render_error (Result.error result))%string)
                    | None => Js.Normal results
                    end).
  { unfold handleConversionErrors. rewrite handle_loop_stop. reflexivity. }
  split; [exact Hskip |]. split; [exact Hdefault |]. split; [exact Hstop |].
  intros errorHandling kept Hkept. apply Forall_forall. intros result Hin.
  destruct (string_dec errorHandling "stop_on_error") as [-> | Hns].
  - rewrite Hstop in Hkept.
    destruct (find _ results) eqn:Efind; [discriminate Hkept |].
    injection Hkept as <-.
    pose proof (find_none _ _ Efind result Hin) as Hvalid. cbv beta in Hvalid.
    destruct (Result.valid result); [reflexivity | discriminate Hvalid].
  - destruct (string_dec errorHandling "default_values") as [-> | Hnd].
    + rewrite Hdefault in Hkept. injection Hkept as <-.
      apply in_map_iff in Hin. destruct Hin as (r & <- & _).
      destruct (Result.valid r) eqn:E; [exact E | reflexivity].
    + rewrite (Hskip errorHandling Hns Hnd) in Hkept. injection Hkept as <-.
      apply filter_In in Hin. apply Hin.
Qed.

End ErrorHandling.

Section QuickCustom.

Import QuickConvert.
Context `{Js.Host}.

Lemma collect_errors (results : list Result.t) (data : Data) (errors : list string) :
  snd (collect results data errors)
  = (errors
     ++ map (fun result =>
               (Result.name result ++ ": "
                ++ ConverterNode.render_error (Result.error result))%string)
            (filter (fun result => negb (Result.valid result)) results))%list.
Proof.
  revert data errors.
  induction results as [| result rest IH]; intros data errors; cbn [collect filter].
  - cbn [map snd]. rewrite app_nil_r. reflexivity.
  - destruct (Result.valid result); cbn [negb map].
    + apply IH.
    + rewrite IH, <- app_assoc. reflexivity.
Qed.

(** A key that no valid result carries keeps its value through the loop. *)
Lemma collect_untouched (results : list Result.t) (data : Data) (errors : list string)
    (key : string) :
  (forall result, In result results -> Result.valid result = true ->
                  Result.name result <> key) ->
  fst (collect results data errors) key = data key.
Proof.
  revert data errors.
  induction results as [| result rest IH]; intros data errors Hfresh; cbn [collect];
    [reflexivity |].
  destruct (Result.valid result) eqn:Hvalid.
  - rewrite IH by (intros r Hr; apply Hfresh; right; exact Hr).
    unfold assign. destruct (String.eqb (Result.name result) "__proto__"); [reflexivity |].
    destruct (String.eqb_spec key (Result.name result)) as [-> | _]; [| reflexivity].
    exfalso. apply (Hfresh result (or_introl eq_refl) Hvalid). reflexivity.
  - apply IH. intros r Hr. apply Hfresh. right. exact Hr.
Qed.

Lemma filter_length_split {A : Type} (p : A -> bool) (a : list A) :
  (List.length (filter p a) + List.length (filter (fun x => negb (p x)) a))%nat
  = List.length a.
Proof.
  induction a as [| x a IH]; [reflexivity |].
  cbn [filter]. destruct (p x); cbn [negb List.length]; lia.
Qed.

(** X15.  [customConvert] reports [success] exactly when every rule's result
    is valid, which is exactly when [errors] is left undefined; there is one
    error line per invalid result, so the number of error lines plus
    [conversionsApplied] is the number of rules. *)
Theorem customConvert_accounting (registers : list Z) (rules : list Rule.t) :
  let outcome := customConvert registers rules in
  let results := DataConversionUtils.convertMultiple registers rules in
  (success outcome = true <-> Forall (fun result => Result.valid result = true) results)
  /\ (success outcome = true <-> errors outcome = None)
  /\ conversionsApplied outcome
     + Js.length (match errors outcome with Some lines => lines | None => [] end)
     = Js.length rules.
Proof.
  cbv zeta. unfold customConvert.
  set (results := DataConversionUtils.convertMultiple registers rules).
  pose proof (collect_errors results empty []) as Herrors.
  destruct (collect results empty []) as [data lines]. cbn [snd app] in Herrors.
  cbn [success errors conversionsApplied].
  assert (Hlen : List.length results = List.length rules)
    by (subst results; apply length_map).
  pose proof (filter_length_split Result.valid results) as Hsplit.
  assert (Hlines : List.length lines
                   = List.length (filter (fun r => negb (Result.valid r)) results))
    by (rewrite Herrors; apply length_map).
  split; [| split].
  - rewrite Nat.eqb_eq, Hlines, Forall_forall. split.
    + intros Hnone result Hin.
      destruct (Result.valid result) eqn:E; [reflexivity |].
      assert (Hin' : In result (filter (fun r => negb (Result.valid r)) results))
        by (apply filter_In; split; [exact Hin | rewrite E; reflexivity]).
      destruct (filter _ results); [destruct Hin' | discriminate].
    + intros Hall.
      destruct (filter _ results) as [| r rest] eqn:E; [reflexivity |].
      assert (Hin : In r (filter (fun r => negb (Result.valid r)) results))
        by (rewrite E; left; reflexivity).
      apply filter_In in Hin. destruct Hin as [Hin Hinvalid].
      rewrite (Hall r Hin) in Hinvalid. discriminate.
  - destruct lines; cbn [List.length Nat.eqb]; split; intros E; (reflexivity || discriminate E).
  - unfold Js.length.
    replace (List.length match (match lines with [] => None | _ :: _ => Some lines end) with
                         | Some l => l | None => [] end)
      with (List.length lines) by (destruct lines; reflexivity).
    lia.
Qed.

(** X16.  The [data] object of [customConvert] has no property under a name
    that no valid result carries: the value of an invalid result is never
    published, not even as [null]. *)
Theorem customConvert_publishes_valid_only (registers : list Z) (rules : list Rule.t)
    (key : string) :
  (forall result, In result (DataConversionUtils.convertMultiple registers rules) ->
                  Result.valid result = true -> Result.name result <> key) ->
  data (customConvert registers rules) key = None.
Proof.
  intros Hfresh. unfold customConvert.
  pose proof (collect_untouched (DataConversionUtils.convertMultiple registers rules)
                empty [] key Hfresh) as Hkey.
  destruct (collect _ empty []) as [d lines]. exact Hkey.
Qed.

End QuickCustom.

(** ** Rules the validator accepts, through the decoder *)

Section AcceptedRules.

Import DataConversionUtils.
Context `{Js.Host}.

Ltac settle_checks Hvalid :=
  repeat match type of Hvalid with
         | context [if ?b then _ else _] =>
           match type of b with bool => idtac end;
           destruct b eqn:?; cbn [app] in Hvalid; try discriminate Hvalid
         end.

Ltac read_checks :=
  repeat match goal with
         | E : _ || _ = true |- _ => apply orb_true_iff in E; destruct E as [E | E]
         | E : negb _ = false |- _ => apply negb_false_iff in E; cbn [existsb] in E
         | E : String.eqb _ _ = true |- _ => apply String.eqb_eq in E
         | E : false = true |- _ => discriminate E
         end.

(** What the per-rule check guarantees about a rule it accepts. *)
Lemma validateConversionRule_accepted (rule : Rule.t) (index : nat) :
  ValidationUtils.valid (ValidationUtils.validateConversionRule rule index) = true ->
  0 <= Rule.startRegister rule
  /\ In (Rule.dataType rule)
        ["int16"; "uint16"; "int32"; "uint32"; "float32"; "scaled"; "bitfield"; "bcd"]%string
  /\ (forall digits, Rule.decimalPlaces rule = Some digits -> 0 <= digits <= 10).
Proof.
  unfold ValidationUtils.validateConversionRule. cbv zeta.
  cbn [ValidationUtils.valid]. intros Hvalid.
  settle_checks Hvalid; clear Hvalid;
    (split; [lia | split]);
    try (intros digits Edigits;
         match goal with
         | E : match Rule.decimalPlaces rule with _ => _ end = false |- _ =>
           rewrite Edigits in E; apply orb_false_iff in E; destruct E; lia
         end);
    read_checks;
    match goal with
    | E : Rule.dataType rule = _ |- _ => rewrite E; cbn [In]; tauto
    end.
Qed.

Lemma slice_head {A : Type} (a : list A) (start n : Z) :
  0 <= start -> 1 <= n -> start + n <= Js.length a ->
  exists first others, Js.slice a start (start + n) = first :: others.
Proof.
  intros Hstart Hn Hfit. unfold Js.slice, Js.relativeIndex, Js.length in *.
  destruct (Z.ltb_spec start 0); [lia |].
  destruct (Z.ltb_spec (start + n) 0); [lia |].
  rewrite !Z.min_l by lia.
  replace (start + n - start) with n by lia.
  pose proof (length_skipn (Z.to_nat start) a) as Hlen.
  destruct (skipn (Z.to_nat start) a) as [| first rest]; cbn [List.length] in Hlen; [lia |].
  destruct (Z.to_nat n) as [| m] eqn:En; [lia |].
  exists first, (firstn m rest). reflexivity.
Qed.

Lemma convertBitfield_kind (register : Z) (rule : Rule.t) :
  (exists x, convertBitfield register rule = Js.number x)
  \/ (exists b, convertBitfield register rule = Js.boolean b).
Proof.
  unfold convertBitfield.
  destruct (Rule.bitMask rule); [left; eexists; reflexivity |].
  destruct (Rule.bitPosition rule); [| left; eexists; reflexivity].
  cbv zeta. destruct (_ =? 1); [right | left]; eexists; reflexivity.
Qed.

(** On a window that starts with a register, each of the eight data types
    decodes to a number or to a boolean. *)
Lemma decode_supported (register : Z) (others : list Z) (rule : Rule.t) :
  In (Rule.dataType rule)
     ["int16"; "uint16"; "int32"; "uint32"; "float32"; "scaled"; "bitfield"; "bcd"]%string ->
  exists v, decode (register :: others) rule = Some v
            /\ ((exists x, v = Js.number x) \/ (exists b, v = Js.boolean b)).
Proof.
  intros Hin. unfold decode. cbv zeta.
  change (Js.index (register :: others) 0) with (Some register).
  cbn [In] in Hin.
  destruct Hin as [E | [E | [E | [E | [E | [E | [E | [E | []]]]]]]]]; rewrite <- E;
    cbn [String.eqb Ascii.eqb Bool.eqb]; cbv beta iota;
    eexists; (split; [reflexivity |]);
    try (left; eexists; reflexivity).
  apply convertBitfield_kind.
Qed.

(** The [try] block after a successful decode, for a [decimalPlaces] that
    [toFixed] accepts: the kind of the value is kept, and only the validation
    bounds can make the result invalid. *)
Lemma convertData_try_decoded (registers : list Z) (rule : Rule.t) (v : Js.value) :
  Rule.startRegister rule + getRequiredRegisters (Rule.dataType rule)
  <= Js.length registers ->
  decode (Js.slice registers (Rule.startRegister rule)
            (Rule.startRegister rule + getRequiredRegisters (Rule.dataType rule))) rule
  = Some v ->
  (forall digits, Rule.decimalPlaces rule = Some digits -> 0 <= digits <= 100) ->
  exists result,
    convertData_try registers rule = Js.Normal result
    /\ ((exists x, v = Js.number x) -> exists x, Result.value result = Js.number x)
    /\ (forall b, v = Js.boolean b -> Result.value result = Js.boolean b)
    /\ Result.valid result
       = match Rule.validation rule with
         | Some validation =>
           if Rule.enabled validation
           then fst (validateValue (Result.value result) validation)
           else true
         | None => true
         end.
Proof.
  intros Hfit Hdecode Hdigits. unfold convertData_try. cbv zeta.
  destruct (Z.ltb_spec (Js.length registers)
              (Rule.startRegister rule + getRequiredRegisters (Rule.dataType rule)));
    [lia |].
  rewrite Hdecode.
  set (P := fun r : Result.t =>
              ((exists x, v = Js.number x) -> exists x, Result.value r = Js.number x)
              /\ (forall b, v = Js.boolean b -> Result.value r = Js.boolean b)).
  set (r0 := Result.set_value _ v).
  assert (Hr0 : P r0).
  { split; [intros [x ->]; exists x; reflexivity | intros b ->; reflexivity]. }
  set (r1 := match Rule.unitConversion rule, Result.value r0 with
             | Some conversion, Js.number x => _
             | _, _ => r0
             end).
  assert (Hr1 : P r1).
  { subst r1. destruct (Rule.unitConversion rule); [| exact Hr0].
    destruct (Result.value r0) eqn:Ev; try exact Hr0.
    split; [intros _; eexists; reflexivity |].
    intros b Eb. destruct Hr0 as [_ Hbool]. specialize (Hbool b Eb).
    rewrite Ev in Hbool. discriminate Hbool. }
  clearbody r1. clear r0 Hr0.
  set (rounded := match Rule.decimalPlaces rule, Result.value r1 with
                  | Some decimalPlaces, Js.number x => _
                  | _, _ => Js.Normal r1
                  end).
  assert (Hrounded : exists r2, rounded = Js.Normal r2 /\ P r2).
  { subst rounded.
    destruct (Rule.decimalPlaces rule) as [d |]; [| exists r1; split; [reflexivity | exact Hr1]].
    destruct (Result.value r1) eqn:Ev;
      try (exists r1; split; [reflexivity | exact Hr1]).
    specialize (Hdigits d eq_refl). unfold Js.toFixed.
    destruct (Z.ltb_spec d 0); [lia |]. destruct (Z.ltb_spec 100 d); [lia |].
    cbn [orb Js.bind]. eexists. split; [reflexivity |].
    split; [intros _; eexists; reflexivity |].
    intros b Eb. destruct Hr1 as [_ Hbool]. specialize (Hbool b Eb).
    rewrite Ev in Hbool. discriminate Hbool. }
  destruct Hrounded as (r2 & -> & Hnum & Hbool). cbn [Js.bind].
  destruct (Rule.validation rule) as [validation |].
  2: { eexists. split; [reflexivity |]. repeat split; assumption. }
  destruct (Rule.enabled validation).
  2: { eexists. split; [reflexivity |]. repeat split; assumption. }
  destruct (validateValue (Result.value r2) validation) as [ok err] eqn:Everdict.
  eexists. split; [reflexivity |].
  destruct ok; cbn [Result.set_valid Result.set_error Result.value Result.valid];
    rewrite Everdict; repeat split; assumption.
Qed.

(** X17.  A rule that [validateConversionRule] accepts, on a snapshot that
    covers its window, always decodes: [convertData] does not take its
    [catch] path, the value is a number or a boolean (never [null] or
    [undefined]), and the result is invalid only when the rule has an enabled
    validation whose check rejects that value. *)
Theorem accepted_rule_decodes (rule : Rule.t) (index : nat) (registers : list Z) :
  ValidationUtils.valid (ValidationUtils.validateConversionRule rule index) = true ->
  Rule.startRegister rule + getRequiredRegisters (Rule.dataType rule)
  <= Js.length registers ->
  convertData_try registers rule = Js.Normal (convertData registers rule)
  /\ ((exists x, Result.value (convertData registers rule) = Js.number x)
      \/ (exists b, Result.value (convertData registers rule) = Js.boolean b))
  /\ (Result.valid (convertData registers rule) = false ->
      exists validation,
        Rule.validation rule = Some validation
        /\ Rule.enabled validation = true
        /\ fst (validateValue (Result.value (convertData registers rule)) validation)
           = false).
Proof.
  intros Haccepted Hfit.
  destruct (validateConversionRule_accepted rule index Haccepted) as (Hstart & Htype & Hdigits).
  assert (Hn : 1 <= getRequiredRegisters (Rule.dataType rule))
    by (destruct (getRequiredRegisters_values (Rule.dataType rule)); lia).
  destruct (slice_head registers (Rule.startRegister rule)
              (getRequiredRegisters (Rule.dataType rule)) Hstart Hn Hfit)
    as (first & others & Hslice).
  destruct (decode_supported first others rule Htype) as (v & Hdecode & Hkind).
  rewrite <- Hslice in Hdecode.
  destruct (convertData_try_decoded registers rule v Hfit Hdecode) as
    (result & Htry & Hnum & Hbool & Hvalid).
  { intros digits Edigits. specialize (Hdigits digits Edigits). lia. }
  unfold convertData. rewrite Htry. split; [reflexivity |]. split.
  - destruct Hkind as [Hx | [b Hb]]; [left; exact (Hnum Hx) | right; exists b; exact (Hbool b Hb)].
  - intros Hinvalid. rewrite Hinvalid in Hvalid.
    destruct (Rule.validation rule) as [validation |]; [| discriminate Hvalid].
    exists validation. destruct (Rule.enabled validation); [| discriminate Hvalid].
    repeat split. symmetry. exact Hvalid.
Qed.

End AcceptedRules.

(** ** Duplicate names and reported overlaps *)

Section RuleSets.

Import ValidationUtils.
Context `{Js.Host}.

Lemma indexOf_absent (a : list string) (x : string) : ~ In x a -> indexOf a x = -1.
Proof.
  induction a as [| y a IH]; intros Hnot; cbn [indexOf]; [reflexivity |].
  destruct (String.eqb_spec y x) as [-> | _].
  - exfalso. apply Hnot. left. reflexivity.
  - rewrite IH by (intros Hin; apply Hnot; right; exact Hin). reflexivity.
Qed.

Lemma indexOf_present (a : list string) (x : string) :
  In x a -> 0 <= indexOf a x < Z.of_nat (List.length a).
Proof.
  induction a as [| y a IH]; intros Hin; [destruct Hin |]. cbn [indexOf List.length].
  destruct (String.eqb_spec y x) as [-> | Hne]; [lia |].
  destruct Hin as [-> | Hin]; [contradiction |].
  specialize (IH Hin). destruct (Z.ltb_spec (indexOf a x) 0); lia.
Qed.

Lemma indexOf_app (pre rest : list string) (x : string) :
  indexOf (pre ++ rest) x
  = if in_dec string_dec x pre then indexOf pre x
    else if indexOf rest x <? 0 then -1 else Z.of_nat (List.length pre) + indexOf rest x.
Proof.
  induction pre as [| y pre IH]; cbn [app indexOf List.length].
  - destruct (in_dec string_dec x []) as [[] | _].
    destruct (Z.ltb_spec (indexOf rest x) 0) as [Hneg | Hpos]; [| lia].
    destruct (in_dec string_dec x rest) as [Hin | Hnot].
    + pose proof (indexOf_present rest x Hin). lia.
    + apply indexOf_absent. exact Hnot.
  - destruct (String.eqb_spec y x) as [-> | Hne].
    + destruct (in_dec string_dec x (x :: pre)) as [_ | Hnot]; [reflexivity |].
      exfalso. apply Hnot. left. reflexivity.
    + rewrite IH.
      destruct (in_dec string_dec x pre) as [Hin | Hnot],
               (in_dec string_dec x (y :: pre)) as [Hin' | Hnot'].
      * reflexivity.
      * exfalso. apply Hnot'. right. exact Hin.
      * destruct Hin' as [-> | Hin']; contradiction.
      * destruct (Z.ltb_spec (indexOf rest x) 0); [reflexivity |].
        destruct (Z.ltb_spec (Z.of_nat (List.length pre) + indexOf rest x) 0); lia.
Qed.

(** A name is filtered in as a duplicate exactly when it occurred before. *)
Lemma duplicates_from (pre suf : list string) :
  filter_indexed (fun name index => negb (indexOf (pre ++ suf) name =? index))
                 (Z.of_nat (List.length pre)) suf
  = []
  <-> NoDup suf /\ (forall x, In x suf -> ~ In x pre).
Proof.
  revert pre. induction suf as [| x suf IH]; intros pre; cbn [filter_indexed].
  - split; [intros _; split; [constructor | intros x []] | reflexivity].
  - assert (Hshift : (pre ++ x :: suf = (pre ++ [x]) ++ suf)%list)
      by (rewrite <- app_assoc; reflexivity).
    assert (Hindex : Z.of_nat (List.length pre) + 1 = Z.of_nat (List.length (pre ++ [x])))
      by (rewrite length_app; cbn [List.length]; lia).
    rewrite indexOf_app. cbn [indexOf]. rewrite String.eqb_refl.
    destruct (in_dec string_dec x pre) as [Hin | Hnot].
    + pose proof (indexOf_present pre x Hin) as Hbound.
      destruct (Z.eqb_spec (indexOf pre x) (Z.of_nat (List.length pre))); [lia |].
      cbn [negb]. split; [discriminate |].
      intros [_ Hfresh]. exfalso. apply (Hfresh x); [left; reflexivity | exact Hin].
    + cbn [Z.ltb Z.compare]. rewrite Z.add_0_r, Z.eqb_refl. cbn [negb].
      rewrite Hshift, Hindex, IH. split.
      * intros [Hnodup Hfresh]. split.
        -- constructor; [| exact Hnodup].
           intros Hin. apply (Hfresh x Hin). apply in_or_app. right. left. reflexivity.
        -- intros y [<- | Hy]; [exact Hnot |].
           intros Hpre. apply (Hfresh y Hy). apply in_or_app. left. exact Hpre.
      * intros [Hnodup Hfresh]. inversion Hnodup as [| ? ? Hx Hsuf]; subst. split.
        -- exact Hsuf.
        -- intros y Hy Hpre. apply in_app_or in Hpre. destruct Hpre as [Hpre | [<- | []]].
           ++ apply (Hfresh y); [right; exact Hy | exact Hpre].
           ++ contradiction.
Qed.

(** X18.  The duplicate-name check finds nothing exactly when the names of
    the rules, trimmed and lower-cased, empty ones left out, are pairwise
    distinct; and a rule set in which two such names coincide is invalid. *)
Theorem duplicate_names_exactly (rules : list Rule.t) :
  (duplicateNames rules = [] <-> NoDup (normalizedNames rules))
  /\ (~ NoDup (normalizedNames rules) -> valid (validateConversionRules rules) = false).
Proof.
  assert (Hdup : duplicateNames rules = [] <-> NoDup (normalizedNames rules)).
  { unfold duplicateNames. cbv zeta.
    pose proof (duplicates_from [] (normalizedNames rules)) as Hfrom.
    cbn [app List.length Z.of_nat] in Hfrom. rewrite Hfrom.
    split; [intros [Hnodup _]; exact Hnodup | intros Hnodup; split; [exact Hnodup |]].
    intros x _ []. }
  split; [exact Hdup |].
  intros Hnot. destruct (valid (validateConversionRules rules)) eqn:Evalid; [| reflexivity].
  apply validateConversionRules_valid in Evalid. destruct Evalid as (_ & _ & Hnone).
  exfalso. apply Hnot. apply Hdup. exact Hnone.
Qed.

(** Every reported message comes from a pair of ranges, the earlier first. *)
Lemma overlapMessages_sound (ranges : list RegisterRange) (message : string) :
  In message (overlapMessages ranges) ->
  exists earlier range1 between range2 later,
    ranges = (earlier ++ range1 :: between ++ range2 :: later)%list
    /\ rangesOverlap range1 range2 = true
    /\ message = (name range1 ++ " and " ++ name range2)%string.
Proof.
  induction ranges as [| range1 rest IH]; cbn [overlapMessages]; [intros [] |].
  intros Hin. apply in_app_or in Hin. destruct Hin as [Hin | Hin].
  - apply in_map_iff in Hin. destruct Hin as (range2 & <- & Hin).
    apply filter_In in Hin. destruct Hin as [Hin Hov].
    apply in_split in Hin. destruct Hin as (between & later & ->).
    exists [], range1, between, range2, later. repeat split. exact Hov.
  - destruct (IH Hin) as (earlier & r1 & between & r2 & later & -> & Hov & ->).
    exists (range1 :: earlier), r1, between, r2, later. repeat split. exact Hov.
Qed.

(** A range of [registerRanges] comes from a rule with a data type, and what
    is around it from the rules around that rule. *)
Lemma registerRanges_split (rules : list Rule.t) (earlier : list RegisterRange)
    (range : RegisterRange) (later : list RegisterRange) :
  registerRanges rules = (earlier ++ range :: later)%list ->
  exists before rule after,
    rules = (before ++ rule :: after)%list
    /\ registerRanges before = earlier
    /\ Rule.dataType rule <> ""%string
    /\ range = rangeOf rule
    /\ registerRanges after = later.
Proof.
  revert earlier. induction rules as [| rule rules IH]; intros earlier Hranges.
  - destruct earlier; discriminate Hranges.
  - unfold registerRanges in Hranges. cbn [flat_map] in Hranges.
    fold (registerRanges rules) in Hranges.
    destruct (String.eqb_spec (Rule.dataType rule) "") as [Hempty | Htyped].
    + cbn [app] in Hranges.
      destruct (IH earlier Hranges) as (before & r & after & -> & Hb & Hr & Hrange & Ha).
      exists (rule :: before), r, after. repeat split; try assumption.
      unfold registerRanges. cbn [flat_map]. rewrite Hempty. exact Hb.
    + cbn [app] in Hranges. destruct earlier as [| range0 earlier].
      * injection Hranges as <- <-.
        exists [], rule, rules. repeat split. exact Htyped.
      * injection Hranges as <- Hranges.
        destruct (IH earlier Hranges) as (before & r & after & -> & Hb & Hr & Hrange & Ha).
        exists (rule :: before), r, after. repeat split; try assumption.
        rewrite registerRanges_cons by exact Htyped. rewrite Hb. reflexivity.
Qed.

(** X19.  Every overlap that [checkRegisterOverlaps] reports is real: the
    message is "name1 and name2" for two rules of the set, the first before
    the second, both with a data type, whose register windows share a
    register.  Rule sets with pairwise disjoint windows get no overlap
    warning. *)
Theorem reported_overlaps_are_real (rules : list Rule.t) (message : string) :
  In message (checkRegisterOverlaps rules) ->
  exists before rule1 between rule2 after,
    rules = (before ++ rule1 :: between ++ rule2 :: after)%list
    /\ Rule.dataType rule1 <> ""%string /\ Rule.dataType rule2 <> ""%string
    /\ message = (Rule.name rule1 ++ " and " ++ Rule.name rule2)%string
    /\ Spec.windows_intersect
         (Rule.startRegister rule1)
         (Rule.startRegister rule1 + getRegistersNeeded (Rule.dataType rule1) - 1)
         (Rule.startRegister rule2)
         (Rule.startRegister rule2 + getRegistersNeeded (Rule.dataType rule2) - 1).
Proof.
  unfold checkRegisterOverlaps. intros Hin.
  destruct (overlapMessages_sound _ _ Hin)
    as (earlier & range1 & between & range2 & later & Hranges & Hov & ->).
  destruct (registerRanges_split rules earlier range1 _ Hranges)
    as (before & rule1 & rest & -> & _ & Ht1 & -> & Hrest).
  destruct (registerRanges_split rest between range2 later Hrest)
    as (mid & rule2 & after & -> & _ & Ht2 & -> & _).
  exists before, rule1, mid, rule2, after. repeat split; try assumption.
  apply (rangesOverlap_intersect (rangeOf rule1) (rangeOf rule2));
    [apply rangeOf_nonempty .. | exact Hov].
Qed.

End RuleSets.

Section Parameters.

Import ValidationUtils.

Lemma includes_In (a : list string) (x : string) : includes a x = true <-> In x a.
Proof.
  unfold includes. rewrite existsb_exists. split.
  - intros (y & Hin & E). apply String.eqb_eq in E. subst y. exact Hin.
  - intros Hin. exists x. split; [exact Hin | apply String.eqb_refl].
Qed.

(** X20.  [validateNodeParameters] accepts the parameters exactly when
    [conversions] is present, the input source, the output format and the
    error handling are each one of the listed names, and a [custom_path]
    input source comes with a non-empty custom path.  In particular the
    policy that reaches [handleConversionErrors] is [stop_on_error],
    [skip_invalid] or [default_values]. *)
Theorem validateNodeParameters_accepts (parameters : NodeParameters) :
  valid (validateNodeParameters parameters) = true
  <-> conversions parameters <> None
      /\ In (inputSource parameters) validInputSources
      /\ In (outputFormat parameters) validOutputFormats
      /\ In (errorHandling parameters) validErrorHandling
      /\ (inputSource parameters = "custom_path"%string ->
          exists path, customPath parameters = Some path /\ path <> ""%string).
Proof.
  rewrite <- !includes_In.
  unfold validateNodeParameters. cbv zeta. cbn [valid].
  destruct (conversions parameters) as [rules |].
  2: { cbn [app]. split; [discriminate | intros (Hc & _); contradiction]. }
  destruct (String.eqb_spec (inputSource parameters) "") as [Ei | Ei].
  { rewrite Ei. cbn. split; [discriminate | intros (_ & Hin & _); discriminate Hin]. }
  destruct (String.eqb_spec (outputFormat parameters) "") as [Eo | Eo].
  { rewrite Eo. cbn [negb app]. split; [discriminate |].
    intros (_ & _ & Hin & _). discriminate Hin. }
  destruct (String.eqb_spec (errorHandling parameters) "") as [Ee | Ee].
  { rewrite Ee. cbn [negb app]. split; [discriminate |].
    intros (_ & _ & _ & Hin & _). discriminate Hin. }
  cbn [negb andb app].
  destruct (includes validInputSources (inputSource parameters));
    cbn [negb app]; [| split; [discriminate | intros (_ & Hin & _); discriminate Hin]].
  destruct (includes validOutputFormats (outputFormat parameters));
    cbn [negb app]; [| split; [discriminate | intros (_ & _ & Hin & _); discriminate Hin]].
  destruct (includes validErrorHandling (errorHandling parameters));
    cbn [negb app]; [| split; [discriminate | intros (_ & _ & _ & Hin & _); discriminate Hin]].
  destruct (String.eqb_spec (inputSource parameters) "custom_path") as [Ec | Ec]; cbn [andb].
  - destruct (customPath parameters) as [path |].
    + destruct (String.eqb_spec path "") as [-> | Hpath].
      * split; [discriminate |]. intros (_ & _ & _ & _ & Hpath).
        destruct (Hpath Ec) as (p & [= <-] & Hne). contradiction.
      * split; [| reflexivity]. intros _. repeat split; try discriminate.
        intros _. exists path. split; [reflexivity | exact Hpath].
    + split; [discriminate |]. intros (_ & _ & _ & _ & Hpath).
      destruct (Hpath Ec) as (p & Hp & _). discriminate Hp.
  - split; [| reflexivity]. intros _. repeat split; try discriminate.
    intros E. contradiction.
Qed.

End Parameters.

(** ** The unit catalogue and the decoder's table *)

Section Catalogue.

Import IndustrialUnits.

Lemma find_conversion_some (a b : string) (entry : UnitConversionFunction) :
  find_conversion a b = Some entry ->
  In entry CONVERSIONS /\ from entry = a /\ to entry = b.
Proof.
  unfold find_conversion. intros Hfind. apply find_some in Hfind as [Hin Hc].
  apply andb_true_iff in Hc as [Hfrom Hto].
  apply String.eqb_eq in Hfrom, Hto. auto.
Qed.

Lemma find_conversion_none (a b : string) :
  find_conversion a b = None <->
  forall entry, In entry CONVERSIONS -> ~ (from entry = a /\ to entry = b).
Proof.
  unfold find_conversion. split.
  - intros Hnone entry Hin [Hfrom Hto].
    pose proof (find_none _ _ Hnone entry Hin) as Hc. cbv beta in Hc.
    rewrite Hfrom, Hto, !String.eqb_refl in Hc. discriminate Hc.
  - intros Hall. destruct (find _ CONVERSIONS) as [entry |] eqn:Efind; [| reflexivity].
    exfalso. apply find_some in Efind as [Hin Hc].
    apply andb_true_iff in Hc as [Hfrom Hto]. apply String.eqb_eq in Hfrom, Hto.
    apply (Hall entry Hin). auto.
Qed.

(** A pair with a direct entry has a reverse entry. *)
Lemma find_conversion_reverse (a b : string) :
  find_conversion a b <> None -> find_conversion b a <> None.
Proof.
  intros Hdirect Hreverse.
  destruct (find_conversion a b) as [entry |] eqn:Efind; [| contradiction].
  apply find_conversion_some in Efind as (Hin & <- & <-).
  pose proof (proj1 (forallb_forall _ _) CONVERSIONS_reverse_closed entry Hin) as Hex.
  apply existsb_exists in Hex as (entry' & Hin' & Hc).
  apply andb_true_iff in Hc as [Hfrom Hto]. apply String.eqb_eq in Hfrom, Hto.
  apply (proj1 (find_conversion_none _ _) Hreverse entry' Hin'). auto.
Qed.

Lemma isConversionAvailable_entries (a b : string) :
  isConversionAvailable a b = true
  <-> a = b \/ find_conversion a b <> None \/ find_conversion b a <> None.
Proof.
  unfold isConversionAvailable.
  destruct (String.eqb_spec a b) as [-> | Hne]; [split; auto |].
  rewrite existsb_exists. split.
  - intros (entry & Hin & Hc). right.
    apply orb_true_iff in Hc as [Hc | Hc];
      apply andb_true_iff in Hc as [Hfrom Hto]; apply String.eqb_eq in Hfrom, Hto;
      [left | right]; intros Hnone;
      apply (proj1 (find_conversion_none _ _) Hnone entry Hin); auto.
  - intros [E | [Hfound | Hfound]]; [contradiction | |].
    + destruct (find_conversion a b) as [entry |] eqn:Efind; [| contradiction].
      apply find_conversion_some in Efind as (Hin & <- & <-).
      exists entry. split; [exact Hin |]. rewrite !String.eqb_refl. reflexivity.
    + destruct (find_conversion b a) as [entry |] eqn:Efind; [| contradiction].
      apply find_conversion_some in Efind as (Hin & <- & <-).
      exists entry. split; [exact Hin |]. rewrite !String.eqb_refl. apply orb_true_r.
Qed.

(** For two distinct units, availability is a direct entry: the catalogue
    holds every conversion in both directions. *)
Lemma isConversionAvailable_direct (a b : string) :
  isConversionAvailable a b = true <-> a = b \/ find_conversion a b <> None.
Proof.
  rewrite isConversionAvailable_entries. split.
  - intros [E | [Hd | Hr]]; auto. right. apply find_conversion_reverse. exact Hr.
  - intros [E | Hd]; auto.
Qed.

(** X21.  [isConversionAvailable] answers true exactly when [convert] returns
    a value instead of throwing, it is symmetric in its two units, and for
    two distinct units it means that the catalogue has a direct entry (the
    reverse-entry test adds nothing).  For the same reason
    [getConversionFormula] returns the formula of the direct entry or
    "No formula available", never an "Inverse of: ..." text. *)
Theorem isConversionAvailable_exact (fromUnit toUnit : string) :
  (isConversionAvailable fromUnit toUnit = true
   <-> forall value, exists converted,
         convert_units value fromUnit toUnit = Js.Normal converted)
  /\ isConversionAvailable fromUnit toUnit = isConversionAvailable toUnit fromUnit
  /\ (isConversionAvailable fromUnit toUnit = true
      <-> fromUnit = toUnit \/ find_conversion fromUnit toUnit <> None)
  /\ getConversionFormula fromUnit toUnit
     = match find_conversion fromUnit toUnit with
       | Some conversion => formula conversion
       | None => "No formula available"%string
       end.
Proof.
  pose proof (isConversionAvailable_direct fromUnit toUnit) as Hdirect.
  split; [| split; [| split; [exact Hdirect |]]].
  3: { unfold getConversionFormula.
       destruct (find_conversion fromUnit toUnit) eqn:Ed; [reflexivity |].
       destruct (find_conversion toUnit fromUnit) eqn:Er; [| reflexivity].
       exfalso. apply (find_conversion_reverse toUnit fromUnit); [rewrite Er; discriminate |].
       exact Ed. }
  - rewrite Hdirect. unfold convert_units. split.
    + intros Havailable value.
      destruct (String.eqb_spec fromUnit toUnit) as [E | Hne]; [eexists; reflexivity |].
      destruct Havailable as [E | Hd]; [contradiction |].
      destruct (find_conversion fromUnit toUnit); [eexists; reflexivity | contradiction].
    + intros Hconverts. destruct (Hconverts 0%float) as (converted & Hc).
      destruct (String.eqb_spec fromUnit toUnit) as [E | Hne]; [left; exact E |].
      right. destruct (find_conversion fromUnit toUnit) as [entry |] eqn:Ed;
        [discriminate |].
      destruct (find_conversion toUnit fromUnit) as [entry |] eqn:Er; [| discriminate Hc].
      exfalso. apply (find_conversion_reverse toUnit fromUnit); [rewrite Er; discriminate |].
      exact Ed.
  - destruct (isConversionAvailable fromUnit toUnit) eqn:Eab,
             (isConversionAvailable toUnit fromUnit) eqn:Eba; try reflexivity.
    + apply isConversionAvailable_entries in Eab.
      assert (Hba : isConversionAvailable toUnit fromUnit = true)
        by (apply isConversionAvailable_entries; destruct Eab as [E | [Hd | Hr]]; auto).
      rewrite Hba in Eba. discriminate Eba.
    + apply isConversionAvailable_entries in Eba.
      assert (Hab : isConversionAvailable fromUnit toUnit = true)
        by (apply isConversionAvailable_entries; destruct Eba as [E | [Hd | Hr]]; auto).
      rewrite Hab in Eab. discriminate Eab.
Qed.

Lemma unique_spec (seen a : list string) (x : string) :
  In x (unique seen a) <-> In x a /\ ~ In x seen.
Proof.
  revert seen. induction a as [| y a IH]; intros seen; cbn [unique].
  - split; [intros [] | intros [[] _]].
  - destruct (existsb (String.eqb y) seen) eqn:Eseen.
    + apply existsb_exists in Eseen as (z & Hz & E). apply String.eqb_eq in E. subst z.
      rewrite IH. split.
      * intros [Hin Hnot]. split; [right; exact Hin | exact Hnot].
      * intros [[<- | Hin] Hnot]; [contradiction | split; assumption].
    + assert (Hy : ~ In y seen).
      { intros Hin. apply not_true_iff_false in Eseen. apply Eseen.
        apply existsb_exists. exists y. split; [exact Hin | apply String.eqb_refl]. }
      cbn [In]. rewrite IH. cbn [In]. split.
      * intros [<- | [Hin Hnot]]; [split; [left; reflexivity | exact Hy] |].
        split; [right; exact Hin | intros Hs; apply Hnot; right; exact Hs].
      * intros [[<- | Hin] Hnot]; [left; reflexivity |].
        destruct (string_dec y x) as [E | Hne]; [left; exact E | right].
        split; [exact Hin | intros [E | Hs]; [contradiction | contradiction]].
Qed.

Lemma unique_NoDup (seen a : list string) : NoDup (unique seen a).
Proof.
  revert seen. induction a as [| y a IH]; intros seen; cbn [unique]; [constructor |].
  destruct (existsb (String.eqb y) seen); [apply IH |].
  constructor; [| apply IH].
  rewrite unique_spec. intros [_ Hnot]. apply Hnot. left. reflexivity.
Qed.

(** X22.  [getAvailableConversions] lists a unit exactly when the catalogue
    has an entry between the two units, in either direction, and lists it
    once; so every listed unit can be converted to, and every other unit
    that can be converted to is listed. *)
Theorem getAvailableConversions_exact (unit other : string) :
  (In other (getAvailableConversions unit)
   <-> find_conversion unit other <> None \/ find_conversion other unit <> None)
  /\ NoDup (getAvailableConversions unit)
  /\ (In other (getAvailableConversions unit) -> isConversionAvailable unit other = true)
  /\ (isConversionAvailable unit other = true -> unit <> other ->
      In other (getAvailableConversions unit)).
Proof.
  assert (Hlisted : In other (getAvailableConversions unit)
                    <-> find_conversion unit other <> None
                        \/ find_conversion other unit <> None).
  { unfold getAvailableConversions. cbv zeta. rewrite unique_spec, in_app_iff, !in_map_iff.
    split.
    - intros [[(entry & <- & Hin) | (entry & <- & Hin)] _];
        apply filter_In in Hin as [Hin E]; apply String.eqb_eq in E; subst unit;
        [left | right]; intros Hnone;
        apply (proj1 (find_conversion_none _ _) Hnone entry Hin); auto.
    - intros [Hfound | Hfound]; (split; [| intros []]).
      + destruct (find_conversion unit other) as [entry |] eqn:Efind; [| contradiction].
        apply find_conversion_some in Efind as (Hin & <- & <-).
        left. exists entry. split; [reflexivity |].
        apply filter_In. split; [exact Hin | apply String.eqb_refl].
      + destruct (find_conversion other unit) as [entry |] eqn:Efind; [| contradiction].
        apply find_conversion_some in Efind as (Hin & <- & <-).
        right. exists entry. split; [reflexivity |].
        apply filter_In. split; [exact Hin | apply String.eqb_refl]. }
  split; [exact Hlisted |]. split; [apply unique_NoDup |]. split.
  - intros Hin. apply (proj2 (isConversionAvailable_entries unit other)).
    right. exact (proj1 Hlisted Hin).
  - intros Havailable Hne. apply (proj2 Hlisted).
    apply (proj1 (isConversionAvailable_entries unit other)) in Havailable.
    destruct Havailable as [E | Hfound]; [contradiction | exact Hfound].
Qed.

(** Every catalogue entry relates two distinct units that the unit table
    lists under one category. *)
Lemma CONVERSIONS_within_category :
  forallb
    (fun entry =>
       match findUnit (from entry), findUnit (to entry) with
       | Some unit1, Some unit2 =>
         String.eqb (category unit1) (category unit2)
         && negb (String.eqb (from entry) (to entry))
       | _, _ => false
       end)
    CONVERSIONS = true.
Proof. vm_compute. reflexivity. Qed.

(** X23.  A conversion is available between two distinct units only when
    both are units of the catalogue's unit table, listed under the same
    category: nothing is ever converted across categories, nor from or to a
    name the unit table does not know. *)
Theorem conversions_stay_in_category (fromUnit toUnit : string) :
  isConversionAvailable fromUnit toUnit = true ->
  fromUnit <> toUnit ->
  exists unit1 unit2,
    findUnit fromUnit = Some unit1 /\ findUnit toUnit = Some unit2
    /\ category unit1 = category unit2.
Proof.
  intros Havailable Hne.
  apply isConversionAvailable_direct in Havailable.
  destruct Havailable as [E | Hdirect]; [contradiction |].
  destruct (find_conversion fromUnit toUnit) as [entry |] eqn:Efind; [| contradiction].
  apply find_conversion_some in Efind as (Hin & <- & <-).
  pose proof (proj1 (forallb_forall _ _) CONVERSIONS_within_category entry Hin) as Hcheck.
  cbv beta in Hcheck.
  destruct (findUnit (from entry)) as [unit1 |]; [| discriminate Hcheck].
  destruct (findUnit (to entry)) as [unit2 |]; [| discriminate Hcheck].
  apply andb_true_iff in Hcheck as [Hcat _]. apply String.eqb_eq in Hcat.
  exists unit1, unit2. auto.
Qed.

Lemma conversions_stay_in_category_witness :
  exists unit1 unit2,
    findUnit "psi" = Some unit1 /\ findUnit "bar" = Some unit2
    /\ category unit1 = category unit2.
Proof.
  exact (conversions_stay_in_category "psi" "bar" eq_refl ltac:(discriminate)).
Defined.

(** X24.  Where the decoder's own conversion table knows a pair of units of
    a catalogue entry (under the key [from_to_to]), the decoder's conversion
    step computes exactly what that entry's [convert] computes: the two
    tables never disagree on a value. *)
Theorem decoder_agrees_with_catalogue (entry : UnitConversionFunction) (value : float) :
  In entry CONVERSIONS ->
  DataConversionUtils.conversionMap_get (from entry ++ "_to_" ++ to entry)%string <> None ->
  DataConversionUtils.applyUnitConversion value
    {| ConversionRule.from := from entry; ConversionRule.to := to entry |}
  = convert entry value.
Proof.
  intros Hin Hkey. cbv [CONVERSIONS In] in Hin.
  repeat (destruct Hin as [<- | Hin];
          [first [ reflexivity | exfalso; apply Hkey; vm_compute; reflexivity ] |]).
  destruct Hin.
Qed.

Lemma decoder_agrees_with_catalogue_witness :
  DataConversionUtils.applyUnitConversion 100
    {| ConversionRule.from := "celsius"; ConversionRule.to := "fahrenheit" |}
  = 212%float.
Proof.
  destruct (find_conversion "celsius" "fahrenheit") as [entry |] eqn:Efind;
    [| discriminate Efind].
  injection Efind as <-.
  exact (decoder_agrees_with_catalogue _ 100
           ltac:(left; reflexivity) ltac:(vm_compute; discriminate)).
Defined.

End Catalogue.

(** ** Quick mode: BCD digits, bit flags and doubles *)

Section QuickModeFacts.

Import QuickMode.
Local Open Scope js_scope.

(** Once the value is a non-negative 32-bit integer below [16^k], the loop
    ends within [k + 1] iterations, and more iterations change nothing. *)
Lemma convertBCD_loop_bounded (k : nat) :
  forall (value result multiplier : Z) (extra : nat),
    value < 16 ^ Z.of_nat k -> value < 2147483648 ->
    convertBCD_loop (S k + extra) value result multiplier
    = convertBCD_loop (S k) value result multiplier
    /\ convertBCD_loop (S k) value result multiplier <> Unfinished.
Proof.
  induction k as [| k IH]; intros value result multiplier extra Hbound Hint.
  - cbn [Nat.add convertBCD_loop]. change (16 ^ Z.of_nat 0) with 1 in Hbound.
    destruct (Z.gtb_spec value 0); [lia |]. split; [reflexivity | discriminate].
  - cbn [Nat.add]. cbn [convertBCD_loop].
    destruct (Z.gtb_spec value 0) as [Hpos | _]; [| split; [reflexivity | discriminate]].
    destruct (value .& 15 >? 9); [split; [reflexivity | discriminate] |].
    rewrite Nat2Z.inj_succ, Z.pow_succ_r in Hbound by lia.
    assert (Hshift : value >> 4 = value / 16) by (apply sar_div; lia).
    assert (Hq : value / 16 < 16 ^ Z.of_nat k) by (apply Z.div_lt_upper_bound; lia).
    assert (Hq' : value / 16 < 2147483648) by (apply Z.div_lt_upper_bound; lia).
    rewrite Hshift. apply (IH (value / 16) _ _ extra Hq Hq').
Qed.

(** Nine iterations are enough on every number. *)
Lemma convertBCD_loop_terminates (value result multiplier : Z) (extra : nat) :
  convertBCD_loop (9 + extra) value result multiplier
  = convertBCD_loop 9 value result multiplier
  /\ convertBCD_loop 9 value result multiplier <> Unfinished.
Proof.
  change (9 + extra)%nat with (S (8 + extra)). change 9%nat with (S 8).
  cbn [convertBCD_loop].
  destruct (value >? 0); [| split; [reflexivity | discriminate]].
  destruct (value .& 15 >? 9); [split; [reflexivity | discriminate] |].
  assert (Hshift : value >> 4 < 16 ^ Z.of_nat 7 /\ value >> 4 < 2147483648).
  { unfold Js.sar. rewrite shiftCount_small, Z.shiftr_div_pow2 by lia.
    pose proof (ToInt32_range value) as Hr. change (2 ^ 4) with 16.
    change (16 ^ Z.of_nat 7) with 268435456.
    split; apply Z.div_lt_upper_bound; lia. }
  destruct Hshift as [Hb Hi].
  apply (convertBCD_loop_bounded 7 _ _ _ extra Hb Hi).
Qed.

(** All 65536 words, checked nibble by nibble: the loop ends with the
    rule-based decode when every nibble is a decimal digit, and at an invalid
    digit otherwise. *)
Lemma convertBCD_words_checked :
  let nibbles := [0; 1; 2; 3; 4; 5; 6; 7; 8; 9; 10; 11; 12; 13; 14; 15] in
  forallb (fun n3 => forallb (fun n2 => forallb (fun n1 => forallb (fun n0 =>
    let w := ((n3 * 16 + n2) * 16 + n1) * 16 + n0 in
    let decimal := forallb (fun nibble => nibble <=? 9) [n0; n1; n2; n3] in
    match convertBCD_loop 9 w 0 1 with
    | Done result =>
      decimal && (result =? DataConversionUtils.convertBCD w "big_endian")
    | InvalidDigit => negb decimal
    | Unfinished => false
    end) nibbles) nibbles) nibbles) nibbles
  = true.
Proof. vm_compute. reflexivity. Qed.

(** X25.  The quick-mode BCD loop ends within nine iterations on every
    number.  On a 16-bit word whose four nibbles are decimal digits it
    returns what the rule-based [convertBCD] returns; on a word with a nibble
    above 9 it returns NaN, where the rule-based decoder returns a number. *)
Theorem quick_convertBCD (value w : Z) (byteOrder : string) (extra : nat) :
  0 <= w <= 65535 ->
  (convertBCD_loop (9 + extra) value 0 1 = convertBCD_loop 9 value 0 1
   /\ convertBCD_loop 9 value 0 1 <> Unfinished)
  /\ convertBCD w
     = if forallb (fun nibble => nibble <=? 9)
                  [w mod 16; (w / 16) mod 16; (w / 256) mod 16; (w / 4096) mod 16]
       then Js.of_int (DataConversionUtils.convertBCD w byteOrder)
       else nan.
Proof.
  intros Hw. split; [apply convertBCD_loop_terminates |].
  set (n0 := w mod 16). set (n1 := (w / 16) mod 16).
  set (n2 := (w / 256) mod 16). set (n3 := (w / 4096) mod 16).
  assert (Hnibble : forall n, 0 <= n < 16 ->
            In n [0; 1; 2; 3; 4; 5; 6; 7; 8; 9; 10; 11; 12; 13; 14; 15])
    by (intros n Hn; cbn [In]; lia).
  assert (H0 : 0 <= n0 < 16) by (apply Z.mod_pos_bound; lia).
  assert (H1 : 0 <= n1 < 16) by (apply Z.mod_pos_bound; lia).
  assert (H2 : 0 <= n2 < 16) by (apply Z.mod_pos_bound; lia).
  assert (H3 : 0 <= n3 < 16) by (apply Z.mod_pos_bound; lia).
  assert (Ew : w = ((n3 * 16 + n2) * 16 + n1) * 16 + n0).
  { subst n0 n1 n2 n3.
    pose proof (Z.div_mod w 16 ltac:(lia)).
    pose proof (Z.div_mod (w / 16) 16 ltac:(lia)).
    pose proof (Z.div_mod (w / 256) 16 ltac:(lia)).
    assert (w / 16 / 16 = w / 256) by (rewrite Z.div_div by lia; reflexivity).
    assert (w / 256 / 16 = w / 4096) by (rewrite Z.div_div by lia; reflexivity).
    assert (0 <= w / 4096 < 16)
      by (split; [apply Z.div_pos; lia | apply Z.div_lt_upper_bound; lia]).
    rewrite (Z.mod_small (w / 4096) 16) by lia. lia. }
  pose proof convertBCD_words_checked as Hall. cbv zeta in Hall.
  pose proof (proj1 (forallb_forall _ _) Hall n3 (Hnibble n3 H3)) as Hall3.
  cbv beta in Hall3.
  pose proof (proj1 (forallb_forall _ _) Hall3 n2 (Hnibble n2 H2)) as Hall2.
  cbv beta in Hall2.
  pose proof (proj1 (forallb_forall _ _) Hall2 n1 (Hnibble n1 H1)) as Hall1.
  cbv beta in Hall1.
  pose proof (proj1 (forallb_forall _ _) Hall1 n0 (Hnibble n0 H0)) as Hcheck.
  cbv beta zeta in Hcheck. rewrite <- Ew in Hcheck.
  clear Hall Hall3 Hall2 Hall1.
  unfold convertBCD.
  change (DataConversionUtils.convertBCD w byteOrder)
    with (DataConversionUtils.convertBCD w "big_endian").
  destruct (convertBCD_loop 9 w 0 1) as [result | |]; [| | discriminate Hcheck].
  - apply andb_true_iff in Hcheck as [-> Hresult].
    apply Z.eqb_eq in Hresult. rewrite Hresult. reflexivity.
  - apply negb_true_iff in Hcheck. rewrite Hcheck. reflexivity.
Qed.

Lemma quick_convertBCD_witness :
  convertBCD 4660 = Js.of_int 1234 /\ convertBCD 4778 = nan.
Proof.
  split.
  - exact (proj2 (quick_convertBCD 0 4660 "big_endian" 0 ltac:(lia))).
  - exact (proj2 (quick_convertBCD 0 4778 "big_endian" 0 ltac:(lia))).
Defined.

(** [1 << i] is [2^i] for a bit position of a 32-bit integer below the sign. *)
Lemma shl_one (i : Z) : 0 <= i <= 30 -> 1 << i = 2 ^ i.
Proof.
  intros Hi. unfold Js.shl. rewrite (ToInt32_small 1), shiftCount_small by lia.
  rewrite Z.shiftl_mul_pow2, Z.mul_1_l by lia.
  apply ToInt32_small.
  assert (0 < 2 ^ i) by (apply Z.pow_pos_nonneg; lia).
  assert (2 ^ i <= 2 ^ 30) by (apply Z.pow_le_mono_r; lia).
  change (2 ^ 30) with 1073741824 in *. lia.
Qed.

Lemma land_pow2 (a i : Z) :
  0 <= i -> Z.land a (2 ^ i) = if Z.testbit a i then 2 ^ i else 0.
Proof.
  intros Hi. apply Z.bits_inj'. intros n Hn.
  rewrite Z.land_spec, Z.pow2_bits_eqb by lia.
  destruct (Z.eqb_spec i n) as [<- | Hne].
  - destruct (Z.testbit a i); [rewrite Z.pow2_bits_true by lia; reflexivity |].
    rewrite Z.bits_0. reflexivity.
  - rewrite andb_false_r.
    destruct (Z.testbit a i); [| rewrite Z.bits_0; reflexivity].
    rewrite Z.pow2_bits_false by lia. reflexivity.
Qed.

(** The test [(value & (1 << i)) !== 0] reads bit [i] of the number. *)
Lemma bit_flag (value i : Z) :
  0 <= i <= 15 -> negb ((value .& (1 << i)) =? 0) = Z.testbit value i.
Proof.
  intros Hi. rewrite shl_one by lia. unfold Js.band.
  assert (Hpow : 0 < 2 ^ i <= 32768).
  { split; [apply Z.pow_pos_nonneg; lia |].
    change 32768 with (2 ^ 15). apply Z.pow_le_mono_r; lia. }
  rewrite (ToInt32_small (2 ^ i)) by lia.
  rewrite land_pow2 by lia. rewrite ToInt32_testbit by lia.
  destruct (Z.testbit value i); [| reflexivity].
  destruct (Z.eqb_spec (2 ^ i) 0); [lia | reflexivity].
Qed.

Lemma extractBits_testbit (value : Z) :
  extractBits value
  = map (fun i => (("bit_" ++ Js.ToString_int i)%string, Z.testbit value i))
        [0; 1; 2; 3; 4; 5; 6; 7; 8; 9; 10; 11; 12; 13; 14; 15].
Proof.
  unfold extractBits. apply map_ext_in. intros i Hin.
  rewrite bit_flag; [reflexivity |]. cbn [In] in Hin. lia.
Qed.

Lemma low_word_bits (value value' : Z) :
  value mod 65536 = value' mod 65536
  <-> forall i, 0 <= i <= 15 -> Z.testbit value i = Z.testbit value' i.
Proof.
  change 65536 with (2 ^ 16). split.
  - intros Hmod i Hi.
    rewrite <- (Z.mod_pow2_bits_low value 16 i), <- (Z.mod_pow2_bits_low value' 16 i) by lia.
    rewrite Hmod. reflexivity.
  - intros Hbits. apply Z.bits_inj'. intros n Hn.
    destruct (Z_lt_le_dec n 16).
    + rewrite !Z.mod_pow2_bits_low by lia. apply Hbits. lia.
    + rewrite !Z.mod_pow2_bits_high by lia. reflexivity.
Qed.

(** X26.  [extractBits] returns sixteen flags, [bit_0] to [bit_15] in that
    order, the flag [bit_i] being bit [i] of the number (two's complement for
    a negative one); two numbers get the same flags exactly when they are
    equal modulo 65536. *)
Theorem extractBits_flags (value : Z) :
  map fst (extractBits value)
  = ["bit_0"; "bit_1"; "bit_2"; "bit_3"; "bit_4"; "bit_5"; "bit_6"; "bit_7"; "bit_8";
     "bit_9"; "bit_10"; "bit_11"; "bit_12"; "bit_13"; "bit_14"; "bit_15"]%string
  /\ map snd (extractBits value)
     = map (Z.testbit value) [0; 1; 2; 3; 4; 5; 6; 7; 8; 9; 10; 11; 12; 13; 14; 15]
  /\ (forall value', extractBits value = extractBits value'
                     <-> value mod 65536 = value' mod 65536).
Proof.
  split; [reflexivity |]. split.
  - rewrite extractBits_testbit, map_map. reflexivity.
  - intros value'. rewrite !extractBits_testbit, low_word_bits. split.
    + intros Hflags i Hi.
      assert (Hin : In i [0; 1; 2; 3; 4; 5; 6; 7; 8; 9; 10; 11; 12; 13; 14; 15])
        by (cbn [In]; lia).
      pose proof (proj1 map_ext_in_iff Hflags i Hin) as E. cbv beta in E.
      injection E as E. exact E.
    + intros Hbits. apply map_ext_in. intros i Hin.
      rewrite Hbits; [reflexivity |]. cbn [In] in Hin. lia.
Qed.

(** The eight bytes handed out by [Buffer.allocUnsafe(8)]. *)
Lemma allocUnsafe8 (memory : Js.buffer) :
  exists b0 b1 b2 b3 b4 b5 b6 b7,
    firstn 8 (memory ++ repeat 0 8) = [b0; b1; b2; b3; b4; b5; b6; b7].
Proof.
  destruct memory as [| b0 [| b1 [| b2 [| b3 [| b4 [| b5 [| b6 [| b7 rest]]]]]]]];
    cbn [app repeat firstn]; repeat eexists.
Qed.

(** X27.  On at least four registers that are 16-bit words, whatever the
    uninitialised buffer holds, [convertToDouble] returns the binary64 value
    with bit pattern [r0 r1 r2 r3] (first register most significant) when
    [bigEndian] is false; when [bigEndian] is true it returns the value of
    the byte-reversed pattern, the registers taken in reverse order and each
    with its two bytes swapped, because the big-endian bytes are read back
    with [readDoubleLE]. *)
Theorem convertToDouble_pattern (memory : Js.buffer) (r0 r1 r2 r3 : Z) (others : list Z)
    (bigEndian : bool) :
  0 <= r0 <= 65535 -> 0 <= r1 <= 65535 -> 0 <= r2 <= 65535 -> 0 <= r3 <= 65535 ->
  convertToDouble memory (r0 :: r1 :: r2 :: r3 :: others) bigEndian
  = Some (Buffer.float64_of_bits
            (if bigEndian
             then ((r3 mod 256) * 256 + r3 / 256) * 281474976710656
                  + ((r2 mod 256) * 256 + r2 / 256) * 4294967296
                  + ((r1 mod 256) * 256 + r1 / 256) * 65536
                  + ((r0 mod 256) * 256 + r0 / 256)
             else r0 * 281474976710656 + r1 * 4294967296 + r2 * 65536 + r3)).
Proof.
  intros H0 H1 H2 H3. unfold convertToDouble.
  assert (Hlen : (Js.length (r0 :: r1 :: r2 :: r3 :: others) <? 4) = false).
  { unfold Js.length. cbn [List.length]. apply Z.ltb_ge. lia. }
  rewrite Hlen. cbv zeta.
  change (Js.bits (Js.index (r0 :: r1 :: r2 :: r3 :: others) 0)) with r0.
  change (Js.bits (Js.index (r0 :: r1 :: r2 :: r3 :: others) 1)) with r1.
  change (Js.bits (Js.index (r0 :: r1 :: r2 :: r3 :: others) 2)) with r2.
  change (Js.bits (Js.index (r0 :: r1 :: r2 :: r3 :: others) 3)) with r3.
  destruct (allocUnsafe8 memory) as (b0 & b1 & b2 & b3 & b4 & b5 & b6 & b7 & ->).
  pose proof (Z.div_mod r0 256 ltac:(lia)) as E0.
  pose proof (Z.div_mod r1 256 ltac:(lia)) as E1.
  pose proof (Z.div_mod r2 256 ltac:(lia)) as E2.
  pose proof (Z.div_mod r3 256 ltac:(lia)) as E3.
  unfold Buffer.writeUInt16BE, Buffer.writeUInt16LE.
  destruct (Z.ltb_spec r0 0); [lia |]. destruct (Z.gtb_spec r0 65535); [lia |].
  destruct (Z.ltb_spec r1 0); [lia |]. destruct (Z.gtb_spec r1 65535); [lia |].
  destruct (Z.ltb_spec r2 0); [lia |]. destruct (Z.gtb_spec r2 65535); [lia |].
  destruct (Z.ltb_spec r3 0); [lia |]. destruct (Z.gtb_spec r3 65535); [lia |].
  destruct bigEndian;
    cbn [orb negb Buffer.in_bounds List.length Nat.add Nat.leb Js.store
         Buffer.readDoubleLE skipn firstn Buffer.le_value];
    do 2 f_equal; lia.
Qed.

Lemma convertToDouble_pattern_witness :
  convertToDouble [1; 2; 3] [16368; 0; 0; 0] false = Some 1%float
  /\ convertToDouble [] [0; 0; 0; 61503] true = Some 1%float.
Proof.
  split.
  - exact (convertToDouble_pattern [1; 2; 3] 16368 0 0 0 [] false
             ltac:(lia) ltac:(lia) ltac:(lia) ltac:(lia)).
  - exact (convertToDouble_pattern [] 0 0 0 61503 [] true
             ltac:(lia) ltac:(lia) ltac:(lia) ltac:(lia)).
Defined.

(** X28.  [convertToDouble] returns [null] exactly when there are fewer than
    four registers or one of the first four is not a 16-bit word (a negative
    register from the read node, for one): the range error of the buffer
    write is swallowed by the [catch]. *)
Theorem convertToDouble_null (memory : Js.buffer) (registers : list Z) (bigEndian : bool) :
  convertToDouble memory registers bigEndian = None
  <-> Js.length registers < 4
      \/ existsb (fun r => (r <? 0) || (r >? 65535)) (firstn 4 registers) = true.
Proof.
  destruct registers as [| r0 [| r1 [| r2 [| r3 others]]]];
    try (split; [intros _; left; unfold Js.length; cbn [List.length]; lia | reflexivity]).
  assert (Hlen : (Js.length (r0 :: r1 :: r2 :: r3 :: others) <? 4) = false).
  { unfold Js.length. cbn [List.length]. apply Z.ltb_ge. lia. }
  cbn [firstn existsb].
  destruct ((r0 <? 0) || (r0 >? 65535)) eqn:C0, ((r1 <? 0) || (r1 >? 65535)) eqn:C1,
           ((r2 <? 0) || (r2 >? 65535)) eqn:C2, ((r3 <? 0) || (r3 >? 65535)) eqn:C3.
  16: { apply orb_false_iff in C0 as [A0 B0], C1 as [A1 B1], C2 as [A2 B2], C3 as [A3 B3].
        rewrite Z.ltb_ge in A0, A1, A2, A3. rewrite Z.gtb_ltb, Z.ltb_ge in B0, B1, B2, B3.
        rewrite convertToDouble_pattern by lia.
        split; [discriminate |]. intros [Hshort | Hbad]; [| discriminate Hbad].
        apply Z.ltb_ge in Hlen. lia. }
  all: split; [intros _; right; reflexivity | intros _].
  all: unfold convertToDouble; rewrite Hlen; cbv zeta.
  all: change (Js.bits (Js.index (r0 :: r1 :: r2 :: r3 :: others) 0)) with r0.
  all: change (Js.bits (Js.index (r0 :: r1 :: r2 :: r3 :: others) 1)) with r1.
  all: change (Js.bits (Js.index (r0 :: r1 :: r2 :: r3 :: others) 2)) with r2.
  all: change (Js.bits (Js.index (r0 :: r1 :: r2 :: r3 :: others) 3)) with r3.
  all: destruct (allocUnsafe8 memory) as (b0 & b1 & b2 & b3 & b4 & b5 & b6 & b7 & ->).
  all: unfold Buffer.writeUInt16BE, Buffer.writeUInt16LE.
  all: rewrite ?C0, ?C1, ?C2, ?C3.
  all: destruct bigEndian;
    cbn [orb negb Buffer.in_bounds List.length Nat.add Nat.leb Js.store];
    rewrite ?C0, ?C1, ?C2, ?C3; cbn [orb]; reflexivity.
Qed.

End QuickModeFacts.

(** ** The trigger's change detection *)

Section Trigger.

Import ModbusTrigger.
Context {A : Type} (same : A -> A -> bool).
Hypothesis same_eq : forall x y, same x y = true <-> x = y.

Lemma every_same_eq (data1 data2 : list A) :
  List.length data1 = List.length data2 ->
  (every_same same data1 data2 = true <-> data1 = data2).
Proof.
  revert data2. induction data1 as [| x data1 IH]; intros [| y data2] Hlen;
    cbn [every_same]; try discriminate Hlen.
  - split; reflexivity.
  - injection Hlen as Hlen. rewrite andb_true_iff, same_eq, (IH data2 Hlen).
    split; [intros [-> ->]; reflexivity | intros [= -> ->]; auto].
Qed.

Lemma compareData_eq (data1 data2 : list A) :
  compareData same (Some data1) (Some data2) = true <-> data1 = data2.
Proof.
  unfold compareData.
  destruct (Nat.eqb_spec (List.length data1) (List.length data2)) as [Hlen | Hlen];
    cbn [negb].
  - apply every_same_eq. exact Hlen.
  - split; [discriminate | intros ->; contradiction].
Qed.

(** After a first reading, [previousData] is the previous reading at every
    poll, although it is only assigned when a change is seen. *)
Lemma polls_from (previous : list A) (readings : list (list A)) :
  polls same (Some previous) readings
  = map (fun pair => if compareData same (fst pair) (Some (snd pair))
                     then None else Some (snd pair))
        (combine (map Some (previous :: readings)) readings).
Proof.
  revert previous. induction readings as [| current rest IH]; intros previous;
    [reflexivity |].
  cbn [polls map combine fst snd]. unfold poll.
  destruct (compareData same (Some previous) (Some current)) eqn:Ecompare; cbn [negb].
  - apply compareData_eq in Ecompare. subst current.
    f_equal. apply IH.
  - f_equal. apply IH.
Qed.

(** X29.  In trigger mode, with [===] deciding equality of the elements,
    [compareData] decides equality of two readings, and each poll emits its
    reading exactly when it differs from the reading of the poll before: the
    first reading is always emitted, a repeated reading never, and a reading
    that returns to an earlier value is emitted again. *)
Theorem trigger_emits_changes (readings : list (list A)) :
  (forall data1 data2, compareData same (Some data1) (Some data2) = true <-> data1 = data2)
  /\ polls same None readings
     = map (fun pair => if compareData same (fst pair) (Some (snd pair))
                        then None else Some (snd pair))
           (combine (None :: map Some readings) readings).
Proof.
  split; [exact compareData_eq |].
  destruct readings as [| first rest]; [reflexivity |].
  cbn [polls map combine fst snd]. unfold poll. cbn [compareData negb].
  f_equal. apply polls_from.
Qed.



End Trigger.

Lemma trigger_emits_changes_witness :
  ModbusTrigger.polls Z.eqb None [[1; 2]; [1; 2]; [1; 3]; [1; 2]]
  = [Some [1; 2]; None; Some [1; 3]; Some [1; 2]].
Proof.
  exact (proj2 (trigger_emits_changes Z.eqb Z.eqb_eq [[1; 2]; [1; 2]; [1; 3]; [1; 2]])).
Defined.


(** ** Further instances, on the reference host *)

Section MoreInstances.

Import DataConversionUtils.

Lemma accepted_rule_decodes_witness :
  let rule := Example.with_validation (Example.rule "level" 0 "int16") (Some 0%float) None in
  convertData_try (H := ReferenceHost.host) [65535] rule
  = Js.Normal (convertData (H := ReferenceHost.host) [65535] rule)
  /\ Result.valid (convertData (H := ReferenceHost.host) [65535] rule) = false.
Proof.
  cbv zeta.
  pose proof (accepted_rule_decodes (H := ReferenceHost.host)
                (Example.with_validation (Example.rule "level" 0 "int16") (Some 0%float) None)
                0 [65535] eq_refl ltac:(vm_compute; discriminate)) as Hthm.
  split; [exact (proj1 Hthm) | vm_compute; reflexivity].
Defined.

Lemma customConvert_publishes_valid_only_witness :
  QuickConvert.data
    (QuickConvert.customConvert (H := ReferenceHost.host) [1]
       [Example.rule "total" 0 "int32"]) "total"
  = None.
Proof.
  apply (customConvert_publishes_valid_only (H := ReferenceHost.host)).
  intros result [<- | []] Hvalid. vm_compute in Hvalid. discriminate Hvalid.
Defined.

Lemma reported_overlaps_are_real_witness :
  exists before rule1 between rule2 after,
    [Example.rule "flow" 0 "float32"; Example.rule "state" 1 "int16"]
    = (before ++ rule1 :: between ++ rule2 :: after)%list
    /\ Rule.dataType rule1 <> ""%string /\ Rule.dataType rule2 <> ""%string
    /\ "flow and state"%string = (Rule.name rule1 ++ " and " ++ Rule.name rule2)%string
    /\ Spec.windows_intersect
         (Rule.startRegister rule1)
         (Rule.startRegister rule1
          + ValidationUtils.getRegistersNeeded (Rule.dataType rule1) - 1)
         (Rule.startRegister rule2)
         (Rule.startRegister rule2
          + ValidationUtils.getRegistersNeeded (Rule.dataType rule2) - 1).
Proof.
  exact (reported_overlaps_are_real
           [Example.rule "flow" 0 "float32"; Example.rule "state" 1 "int16"]
           "flow and state" ltac:(left; reflexivity)).
Defined.

(** The three policies on a valid, an invalid and a valid result. *)
Lemma error_policies_example :
  ConverterNode.handleConversionErrors [Sample.good; Sample.bad; Sample.good] "skip_invalid" 0
  = Js.Normal [Sample.good; Sample.good]
  /\ ConverterNode.handleConversionErrors [Sample.good; Sample.bad; Sample.good]
       "default_values" 0
     = Js.Normal [Sample.good; ConverterNode.defaultResult Sample.bad; Sample.good]
  /\ ConverterNode.handleConversionErrors [Sample.good; Sample.bad; Sample.good]
       "stop_on_error" 3
     = Js.Throw (Js.ErrorObject
         "Conversion error in item 3: Not enough registers available. Required: 2, Available: 1").
Proof. repeat split. Qed.

(** A negative register, as the read node emits it for the word 0x8000 and
    above, through the decoders and through quick mode. *)
Lemma negative_register_examples :
  convertUint16 (-2) "big_endian" = 65534
  /\ convertBCD (-26215) "big_endian" = 9999
  /\ convertUint32 [1; -25536] "big_endian" None = 4294941760
  /\ QuickMode.convertToDouble [] [16368; 0; 0; -1] false = None
  /\ QuickMode.convertBCD (-26215) = 0%float.
Proof. repeat split. Qed.

End MoreInstances.
